(** * blog_scraper: a shallow embedding of the harvesting engine

    The repository holds seven site scrapers (Ahrefs, Backlinko, Moz,
    Search Engine Land, Google Developers, El Placer del SEO, Carlos
    Sanchez) that share one engine: a fetcher with retries and backoff, a
    pagination loop, an HTML normaliser, an excerpt builder and an
    incremental update of a JSON database.

    A launcher, run_all.py, starts the scrapers one after the other.

    What the scrapers obtain from third-party libraries (requests,
    BeautifulSoup, Selenium, the clock, the random generator) is modelled
    as an explicit environment; everything the scrapers compute themselves
    is translated function by function and keeps its Python name. *)

From Stdlib Require Import String Ascii List Arith Bool Lia Sorted QArith Lqa.
From stdpp Require Import base gmap sets list strings.

Set Warnings "-register-all,-clear-no-such-hyp".

Open Scope string_scope.
Open Scope list_scope.
Open Scope nat_scope.

(** ** Python strings

    A [string] stands for a Python [str] whose code points are below 256:
    one [ascii] per character, so [String.length] is Python's [len]. *)
Module PyStr.

(** [str.isspace] for one character: TAB..CR, FS..US, space, NEL, NBSP. *)
Definition isspace (c : ascii) : bool :=
  let n := nat_of_ascii c in
  ((9 <=? n) && (n <=? 13)) || ((28 <=? n) && (n <=? 32))
  || (n =? 133) || (n =? 160).

Fixpoint spacefree (s : string) : bool :=
  match s with
  | EmptyString => true
  | String c rest => negb (isspace c) && spacefree rest
  end.

(** [s.split()] with no argument: the maximal runs of non-blank
    characters, scanned left to right; [word] is the run being read. *)
Fixpoint split_from (word s : string) : list string :=
  match s with
  | EmptyString =>
      match word with EmptyString => [] | _ => [word] end
  | String c rest =>
      if isspace c then
        match word with
        | EmptyString => split_from "" rest
        | _ => word :: split_from "" rest
        end
      else split_from (word +:+ String c "") rest
  end.

Definition split (s : string) : list string := split_from "" s.

(** [sep.join(parts)] *)
Fixpoint join (sep : string) (parts : list string) : string :=
  match parts with
  | [] => ""
  | p :: ps =>
      match ps with
      | [] => p
      | _ => p +:+ sep +:+ join sep ps
      end
  end.

(** [s.lstrip()], [s.rstrip()], [s.strip()] *)
Fixpoint lstrip (s : string) : string :=
  match s with
  | EmptyString => ""
  | String c rest => if isspace c then lstrip rest else s
  end.

Fixpoint rstrip (s : string) : string :=
  match s with
  | EmptyString => ""
  | String c rest =>
      match rstrip rest with
      | EmptyString => if isspace c then "" else String c ""
      | kept => String c kept
      end
  end.

Definition strip (s : string) : string := rstrip (lstrip s).

(** The slice [s[:n]]. *)
Fixpoint slice_to (n : nat) (s : string) : string :=
  match n, s with
  | S n', String c rest => String c (slice_to n' rest)
  | _, _ => ""
  end.

(** [' '.join(s.split())]: the plain text with blanks collapsed. *)
Definition collapse (s : string) : string := join " " (split s).

(** [p] is an initial segment of [s]. *)
Definition is_prefix (p s : string) : Prop := exists rest, s = p +:+ rest.


Definition word_ok (w : string) : Prop := w <> "" /\ spacefree w = true.

(** [needle in hay], for strings. *)
Fixpoint contains (needle hay : string) : bool :=
  String.prefix needle hay
  || match hay with
     | EmptyString => false
     | String _ rest => contains needle rest
     end.

End PyStr.

(** ** Markup trees

    A BeautifulSoup element tree.  [Elem] is a [Tag] with its name, its
    attribute dictionary in insertion order and its children; [Text] is a
    [NavigableString] and [Comment] a [Comment], which html.parser keeps
    in the tree.  A multi-valued attribute such as [class] is kept as the
    blank-separated string it is serialised to. *)
Module Dom.

Inductive Node : Type :=
| Text (s : string)
| Comment (s : string)
| Elem (name : string) (attrs : list (string * string)) (children : list Node).

(** An element is addressed by the child indices that lead to it: the
    normaliser mutates elements of one shared tree in place. *)
Definition path : Type := list nat.

Definition mem (x : string) (l : list string) : bool :=
  existsb (String.eqb x) l.

Definition newline : string := String (ascii_of_nat 10) "".
Definition dquote : ascii := ascii_of_nat 34.
Definition squote : ascii := ascii_of_nat 39.

(** [tag.find_all(True, recursive=True)]: every descendant tag, in
    document order; the tag itself is not part of the result. *)
Fixpoint find_all (n : Node) : list path :=
  match n with
  | Elem _ _ kids =>
      (fix walk (i : nat) (ks : list Node) {struct ks} : list path :=
         match ks with
         | [] => []
         | k :: ks' =>
             match k with
             | Elem _ _ _ =>
                 ([i] :: List.map (cons i) (find_all k)) ++ walk (S i) ks'
             | _ => walk (S i) ks'
             end
         end) 0 kids
  | _ => []
  end.

Fixpoint get_at (p : path) (n : Node) : option Node :=
  match p with
  | [] => Some n
  | i :: p' =>
      match n with
      | Elem _ _ kids =>
          match kids !! i with
          | Some k => get_at p' k
          | None => None
          end
      | _ => None
      end
  end.

Fixpoint update_at (f : Node -> Node) (p : path) (n : Node) : Node :=
  match p with
  | [] => f n
  | i :: p' =>
      match n with
      | Elem name attrs kids => Elem name attrs (alter (update_at f p') i kids)
      | _ => n
      end
  end.

(** [for attr in dict(element.attrs): if attr not in allowed_attrs:
    del element.attrs[attr]] *)
Definition keep_attrs (allowed_attrs : list string) (n : Node) : Node :=
  match n with
  | Elem name attrs kids =>
      Elem name (List.filter (fun a => mem (fst a) allowed_attrs) attrs) kids
  | _ => n
  end.

(** *** Serialisation: [str(element)], that is [element.decode()] with
    the formatter "minimal" *)

Fixpoint escape (s : string) : string :=
  match s with
  | EmptyString => ""
  | String c rest =>
      (if Ascii.eqb c "&" then "&amp;"
       else if Ascii.eqb c "<" then "&lt;"
       else if Ascii.eqb c ">" then "&gt;"
       else String c "") +:+ escape rest
  end.

Fixpoint contains_char (c : ascii) (s : string) : bool :=
  match s with
  | EmptyString => false
  | String d rest => Ascii.eqb c d || contains_char c rest
  end.

Fixpoint quot_entities (s : string) : string :=
  match s with
  | EmptyString => ""
  | String c rest =>
      (if Ascii.eqb c dquote then "&quot;" else String c "")
      +:+ quot_entities rest
  end.

(** A value is written between double quotes, between single quotes when
    it holds a double quote only, and with [&quot;] when it holds both. *)
Definition quoted_attribute_value (v : string) : string :=
  let v := escape v in
  if contains_char dquote v then
    if contains_char squote v
    then String dquote (quot_entities v) +:+ String dquote ""
    else String squote v +:+ String squote ""
  else String dquote v +:+ String dquote "".

(** [Formatter.attributes]: [sorted(tag.attrs.items())], the attributes
    in the order of their names. *)
Fixpoint insert_attr (a : string * string) (sorted : list (string * string))
    : list (string * string) :=
  match sorted with
  | [] => [a]
  | b :: rest =>
      if String.leb (fst a) (fst b) then a :: sorted
      else b :: insert_attr a rest
  end.

Definition sorted_attrs (attrs : list (string * string))
    : list (string * string) :=
  fold_right insert_attr [] attrs.

Definition str_attrs (attrs : list (string * string)) : string :=
  fold_right
    (fun a out => " " +:+ fst a +:+ "=" +:+ quoted_attribute_value (snd a) +:+ out)
    "" (sorted_attrs attrs).

(** [HTMLTreeBuilder.empty_element_tags]: a tag of one of these names
    that has no content is closed as [<img .../>]. *)
Definition void_elements : list string :=
  ["area"; "base"; "br"; "col"; "embed"; "hr"; "img"; "input"; "keygen";
   "link"; "menuitem"; "meta"; "param"; "source"; "track"; "wbr";
   "basefont"; "bgsound"; "command"; "frame"; "image"; "isindex"; "nextid";
   "spacer"].

(** [HTMLTreeBuilder.cdata_containing_tags]: a string that stands in one
    of these tags is written as it is, any other string with its
    entities. *)
Definition cdata_containing_tags : list string := ["script"; "style"].

Definition output_ready (parent : string) (s : string) : string :=
  if mem parent cdata_containing_tags then s else escape s.

Definition is_empty_element (name : string) (kids : list Node) : bool :=
  match kids with
  | [] => mem name void_elements
  | _ => false
  end.

(** A comment is written between its delimiters, as it is. *)
Fixpoint str_node (n : Node) : string :=
  match n with
  | Text s => escape s
  | Comment s => "<!--" +:+ s +:+ "-->"
  | Elem name attrs kids =>
      if is_empty_element name kids
      then "<" +:+ name +:+ str_attrs attrs +:+ "/>"
      else "<" +:+ name +:+ str_attrs attrs +:+ ">"
           +:+ (fix inner (ks : list Node) : string :=
                  match ks with
                  | [] => ""
                  | k :: ks' =>
                      match k with
                      | Text s => output_ready name s
                      | _ => str_node k
                      end +:+ inner ks'
                  end) kids
           +:+ "</" +:+ name +:+ ">"
  end.

(** *** Selectors used by the deny-lists *)

Definition attr (key : string) (attrs : list (string * string)) : option string :=
  match List.find (fun a => String.eqb (fst a) key) attrs with
  | Some a => Some (snd a)
  | None => None
  end.

(** The CSS class selector [.cls]. *)
Definition has_class (cls : string) (attrs : list (string * string)) : bool :=
  match attr "class" attrs with
  | Some v => mem cls (PyStr.split v)
  | None => false
  end.

(** [for unwanted in soup.select(sel): unwanted.decompose()]: every
    descendant matched by the selector is cut out of the tree. *)
Fixpoint decompose_all
    (unwanted : string -> list (string * string) -> bool) (n : Node) : Node :=
  match n with
  | Elem name attrs kids =>
      Elem name attrs
        ((fix prune (ks : list Node) : list Node :=
            match ks with
            | [] => []
            | k :: ks' =>
                match k with
                | Elem kname kattrs _ =>
                    if unwanted kname kattrs then prune ks'
                    else decompose_all unwanted k :: prune ks'
                | _ => k :: prune ks'
                end
            end) kids)
  | _ => n
  end.

(** *** The allow-list walk

    One turn of [for element in content_soup.find_all(True)]: when the
    element's name is allowed, its own attributes are deleted in the
    shared tree and the element, as the tree holds it now, is serialised
    with everything below it. *)
Definition clean_step (allowed_tags allowed_attrs : list string)
    (acc : Node * list string) (p : path) : Node * list string :=
  let '(tree, content_parts) := acc in
  match get_at p tree with
  | Some (Elem name _ _) =>
      if mem name allowed_tags then
        let tree' := update_at (keep_attrs allowed_attrs) p tree in
        match get_at p tree' with
        | Some element => (tree', content_parts ++ [str_node element])
        | None => (tree', content_parts)
        end
      else acc
  | _ => acc
  end.

Definition clean_html
    (unwanted : string -> list (string * string) -> bool)
    (allowed_tags allowed_attrs : list string) (content_soup : Node) : string :=
  let soup := decompose_all unwanted content_soup in
  let elements := find_all soup in
  let '(_, content_parts) :=
    fold_left (clean_step allowed_tags allowed_attrs) elements (soup, []) in
  PyStr.join newline content_parts.

(** Tag names and attribute names that occur anywhere in a tree. *)
Fixpoint tag_names (n : Node) : list string :=
  match n with
  | Elem name _ kids =>
      name :: (fix inner (ks : list Node) : list string :=
                 match ks with
                 | [] => []
                 | k :: ks' => tag_names k ++ inner ks'
                 end) kids
  | _ => []
  end.

Fixpoint attr_names (n : Node) : list string :=
  match n with
  | Elem _ attrs kids =>
      List.map fst attrs
      ++ (fix inner (ks : list Node) : list string :=
            match ks with
            | [] => []
            | k :: ks' => attr_names k ++ inner ks'
            end) kids
  | _ => []
  end.

(** *** The inner loops, by name

    [find_all], [decompose_all] and [tag_names] each run a loop over the
    children of an element; the same loops, as functions of their own. *)

(** The loop of [find_all], from child number [i] on. *)
Definition walk : nat -> list Node -> list path :=
  fix walk (i : nat) (ks : list Node) {struct ks} : list path :=
    match ks with
    | [] => []
    | k :: ks' =>
        match k with
        | Elem _ _ _ =>
            ([i] :: List.map (cons i) (find_all k)) ++ walk (S i) ks'
        | _ => walk (S i) ks'
        end
    end.

(** The loop of [decompose_all]. *)
Definition prune (unwanted : string -> list (string * string) -> bool)
    : list Node -> list Node :=
  fix prune (ks : list Node) : list Node :=
    match ks with
    | [] => []
    | k :: ks' =>
        match k with
        | Elem kname kattrs _ =>
            if unwanted kname kattrs then prune ks'
            else decompose_all unwanted k :: prune ks'
        | _ => k :: prune ks'
        end
    end.

(** The loop of [tag_names]: the tag names below an element. *)
Definition names_below : list Node -> list string :=
  fix inner (ks : list Node) : list string :=
    match ks with
    | [] => []
    | k :: ks' => tag_names k ++ inner ks'
    end.

(** The element is allowed, and so is each of its own attributes. *)
Definition allowed_at_top (allowed_tags allowed_attrs : list string)
    (n : Node) : bool :=
  match n with
  | Elem name attrs _ =>
      mem name allowed_tags
      && forallb (fun a => mem (fst a) allowed_attrs) attrs
  | _ => false
  end.

(** What stands at [p]: the name and the attributes of the element,
    [None] when there is no element there. *)
Definition tag_at (p : path) (n : Node)
    : option (string * list (string * string)) :=
  match get_at p n with
  | Some (Elem name attrs _) => Some (name, attrs)
  | _ => None
  end.

End Dom.

(** ** The persisted collection *)

(** One entry of ["articles"], with the JSON keys of the scrapers. *)
Record Article : Type := {
  category : string;
  link : string;
  titulo_entrada : string;
  url_thumbnail : string;
  full_content : string;
  excerpt_content : string;
  date : string;
  favicon_url : string
}.

(** The JSON document of one source. *)
Record Database : Type := {
  titulo_sitio_web : string;
  articles : list Article
}.

Definition links (l : list Article) : list string := List.map link l.

(** ** Effects

    A run reads the network, sleeps and writes files.  A computation takes
    the state reached so far and returns its result, the new state and the
    events it emitted, oldest first. *)
Module Eff.

Inductive Event : Type :=
| EDelay (seconds : Q)             (* time.sleep(random.uniform(1, 3)) *)
| EGet (url : string) (ok : bool)  (* session.get(url) and raise_for_status() *)
| ESleep (seconds : nat)           (* time.sleep(n) *)
| EPage (category : string) (page_count : nat)
                                   (* "Procesando pagina n/MAX de la categoria" *)
| EBackup                          (* copyfile(JSON_FILE_PATH, JSON_BACKUP_PATH) *)
| ESave (data : Database).         (* json.dump(data, f) on JSON_FILE_PATH *)

(** [clock] counts the requests sent so far; the two files hold a parsed
    JSON document when they exist. *)
Record State : Type := {
  clock : nat;
  json_file : option Database;
  json_backup : option Database
}.

Definition M (A : Type) : Type := State -> A * State * list Event.

Definition ret {A : Type} (a : A) : M A := fun s => (a, s, []).

Definition bind {A B : Type} (m : M A) (k : A -> M B) : M B :=
  fun s =>
    let '(a, s1, e1) := m s in
    let '(b, s2, e2) := k a s1 in
    (b, s2, e1 ++ e2).

Definition emit (e : Event) : M unit := fun s => (tt, s, [e]).

(** How a function that an exception can leave comes to its end. *)
Inductive Ending (A : Type) : Type :=
| Returned (a : A)
| KeyError      (* [tag['href']] on a tag that has no [href] *)
| Unfinished.   (* the turns allowed to a loop without a bound are used up *)

Arguments Returned {A} a.
Arguments KeyError {A}.
Arguments Unfinished {A}.

Definition is_get (e : Event) : bool :=
  match e with EGet _ _ => true | _ => false end.

(** The URLs requested, in order. *)
Fixpoint requested (evs : list Event) : list string :=
  match evs with
  | [] => []
  | EGet url _ :: rest => url :: requested rest
  | _ :: rest => requested rest
  end.

(** The backoff pauses, in order. *)
Fixpoint backoffs (evs : list Event) : list nat :=
  match evs with
  | [] => []
  | ESleep n :: rest => n :: backoffs rest
  | _ :: rest => backoffs rest
  end.

Fixpoint saves (evs : list Event) : list Database :=
  match evs with
  | [] => []
  | ESave data :: rest => data :: saves rest
  | _ :: rest => saves rest
  end.

Fixpoint backups (evs : list Event) : nat :=
  match evs with
  | [] => 0
  | EBackup :: rest => S (backups rest)
  | _ :: rest => backups rest
  end.

Fixpoint pages_started (evs : list Event) : nat :=
  match evs with
  | [] => 0
  | EPage _ _ :: rest => S (pages_started rest)
  | _ :: rest => pages_started rest
  end.

End Eff.

Export Eff.

Notation "x <- m ;; k" := (bind m (fun x => k))
  (at level 20, m at level 99, k at level 200, only parsing).
Notation "' pat <- m ;; k" := (bind m (fun x => match x with pat => k end))
  (at level 20, pat pattern, m at level 99, k at level 200, only parsing).
Notation "m ;; k" := (bind m (fun _ => k))
  (at level 100, k at level 200, right associativity, only parsing).

(** What the scrapers take from Python libraries and do not compute. *)
Record PyLib : Type := {
  (* urllib.parse.urljoin(base, url) *)
  urljoin : string -> string -> string;
  (* BeautifulSoup(html, 'html.parser').get_text() *)
  get_text : string -> string;
  (* datetime.strptime(s, fmt).strftime("%d-%m-%Y"), None on ValueError *)
  reformat_date : string -> string -> option string
}.

(** ** The resilient fetcher

    [_fetch_with_retries] is the same in Ahrefs, Backlinko, Moz and Search
    Engine Land; [Page] is what the caller reads off the parsed body. *)
Module Fetcher.

Section Fetch.

Context {Page : Type}.

(** What one [session.get] followed by [raise_for_status] meets. *)
Inductive Reply : Type :=
| Body (page : Page)       (* a 2xx response *)
| BadStatus (code : nat)   (* HTTPError *)
| NetworkError.            (* timeout, connection error *)

Definition is_body (r : Reply) : bool :=
  match r with Body _ => true | _ => false end.

(** The site as the run meets it: the reply to the [n]-th request of the
    run when it asks for [url], the number that
    [random.uniform] draws in RANDOM_DELAY_RANGE before that request, and
    whether [copyfile] succeeds. *)
Record World : Type := {
  net : nat -> string -> Reply;
  uniform : nat -> Q;
  copyfile_ok : bool
}.

Definition MAX_RETRIES : nat := 3.
Definition RETRY_BACKOFF_FACTOR : nat := 2.
Definition RANDOM_DELAY_RANGE : Q * Q := (1%Q, 3%Q).

(** [time.sleep] of a [random.uniform] draw in RANDOM_DELAY_RANGE. *)
Definition polite_delay (w : World) : M unit :=
  fun s => (tt, s, [EDelay (uniform w (clock s))]).

Definition http_get (w : World) (url : string) : M Reply :=
  fun s =>
    let r := net w (clock s) url in
    (r,
     {| clock := S (clock s); json_file := json_file s;
        json_backup := json_backup s |},
     [EGet url (is_body r)]).

(** The body of [for attempt in range(MAX_RETRIES)], over the attempts
    still to make. *)
Fixpoint try_attempts (w : World) (url : string) (attempts : list nat)
    : M (option Page) :=
  match attempts with
  | [] => ret None
  | attempt :: later =>
      polite_delay w ;;
      r <- http_get w url ;;
      match r with
      | Body page => ret (Some page)
      | _ =>
          if attempt + 1 =? MAX_RETRIES then ret None
          else
            emit (ESleep (RETRY_BACKOFF_FACTOR ^ attempt)) ;;
            try_attempts w url later
      end
  end.

Definition _fetch_with_retries (w : World) (url : string) : M (option Page) :=
  try_attempts w url (seq 0 MAX_RETRIES).

End Fetch.

Arguments Reply : clear implicits.
Arguments World : clear implicits.

End Fetcher.

(** ** The incremental update, shared by the request-based scrapers

    [run_update_scrape] has the same text in ahrefs_scraper.py,
    backlinko_scraper.py, moz_scraper.py and search_engine_land_scraper.py
    but for the selectors, the way the article link is read off a card and
    the fields of the new record.  Those are the fields of [Source]; the
    loop is written once. *)
Module Engine.

Import Fetcher.

Section Update.

Context {Soup Card : Type}.

Record Source : Type := {
  (* "titulo_sitio_web" of the default document *)
  site_title : string;
  (* SEED_URLS.items(), in insertion order *)
  seed_urls : list (string * string);
  (* the n of article_cards[:n] *)
  window : nat;
  (* soup.select(SELECTORS['article_card']) *)
  cards : Soup -> list Card;
  (* the article link of a card, None when
     [not link_tag or not link_tag.get('href')] *)
  card_link : Card -> option string;
  (* new_article_data = {...} from the category, the link, the card and
     the parsed article page *)
  new_article_data : string -> string -> Card -> Soup -> Article
}.

Variable src : Source.
Variable w : World Soup.

Definition _load_existing_data : M Database :=
  fun s =>
    (match json_file s with
     | Some data => data
     | None => {| titulo_sitio_web := site_title src; articles := [] |}
     end, s, []).

Definition _save_data (data : Database) : M unit :=
  fun s =>
    (tt,
     {| clock := clock s; json_file := Some data;
        json_backup := json_backup s |},
     [ESave data]).

(** A failed copy is logged and the run goes on. *)
Definition _backup_database : M unit :=
  fun s =>
    match json_file s with
    | Some data =>
        if copyfile_ok w
        then (tt,
              {| clock := clock s; json_file := json_file s;
                 json_backup := Some data |},
              [EBackup])
        else (tt, s, [])
    | None => (tt, s, [])
    end.

(** [for card in article_cards[:5]], over the cards still to inspect;
    returning early is the [break]. *)
Fixpoint scan_cards (category : string) (article_cards : list Card)
    (existing_urls : gset string) (new_articles_found : list Article)
    : M (gset string * list Article) :=
  match article_cards with
  | [] => ret (existing_urls, new_articles_found)
  | card :: rest =>
      match card_link src card with
      | None => scan_cards category rest existing_urls new_articles_found
      | Some article_link =>
          if decide (article_link ∈ existing_urls)
          then ret (existing_urls, new_articles_found)
          else
            article_response <- _fetch_with_retries w article_link ;;
            match article_response with
            | None =>
                scan_cards category rest existing_urls new_articles_found
            | Some article_soup =>
                scan_cards category rest
                  ({[article_link]} ∪ existing_urls)
                  (new_articles_found
                   ++ [new_article_data src category article_link card
                         article_soup])
            end
      end
  end.

(** One turn of [for category, url in SEED_URLS.items()]. *)
Definition update_category (category url : string)
    (existing_urls : gset string) (new_articles_found : list Article)
    : M (gset string * list Article) :=
  response <- _fetch_with_retries w url ;;
  match response with
  | None => ret (existing_urls, new_articles_found)
  | Some soup =>
      match cards src soup with
      | [] => ret (existing_urls, new_articles_found)
      | article_cards =>
          scan_cards category (take (window src) article_cards)
            existing_urls new_articles_found
      end
  end.

Fixpoint update_categories (seeds : list (string * string))
    (existing_urls : gset string) (new_articles_found : list Article)
    : M (gset string * list Article) :=
  match seeds with
  | [] => ret (existing_urls, new_articles_found)
  | (category, url) :: rest =>
      ' (existing_urls', new_articles_found') <-
        update_category category url existing_urls new_articles_found ;;
      update_categories rest existing_urls' new_articles_found'
  end.

(** The run; its result is the list [new_articles_found]. *)
Definition run_update_scrape : M (list Article) :=
  _backup_database ;;
  existing_data <- _load_existing_data ;;
  let existing_urls : gset string :=
    list_to_set (links (articles existing_data)) in
  ' (_, new_articles_found) <-
    update_categories (seed_urls src) existing_urls [] ;;
  match new_articles_found with
  | [] => ret new_articles_found
  | _ =>
      _save_data
        {| titulo_sitio_web := titulo_sitio_web existing_data;
           articles := new_articles_found ++ articles existing_data |} ;;
      ret new_articles_found
  end.

End Update.

Arguments Source : clear implicits.

End Engine.

(** ** Ahrefs (src/scrapers/ahrefs_scraper.py) *)
Module Ahrefs.

Import Fetcher.

(** [header.select_one('h3 a')]: its [href] attribute and its text. *)
Record LinkTag : Type := {
  href : option string;   (* link_tag.get('href') *)
  link_text : string      (* link_tag.get_text(strip=True) *)
}.

(** The tag returned by [current_page_span.find_next_sibling()]; its
    [href] attribute may be missing. *)
Record SiblingTag : Type := {
  sibling_name : string;
  sibling_class : list string;
  sibling_href : option string
}.

(** [div.wp-pagenavi]: its [span.current] with the tag that follows it,
    and its [a.last] with the [href] that this link may carry. *)
Record Pagenavi : Type := {
  current_page_span : option (option SiblingTag);
  last_link : option (option string)
}.

(** What the pagination block gives: the address to follow, nothing, or
    the KeyError of [tag['href']] on a link without [href]. *)
Inductive Next : Type :=
| Follow (next_page_url : string)
| Stop
| NoHref.

(** A parsed response, as far as SELECTORS reads it. *)
Record Soup : Type := {
  (* select('header.post-header'), each with its 'h3 a' *)
  article_headers : list (option LinkTag);
  (* select_one('div.wp-pagenavi') *)
  pagination_container : option Pagenavi;
  (* select_one('div.post-content') *)
  content_container : option Dom.Node;
  (* select_one('span.post-date.published.updated').get_text(strip=True) *)
  date_tag : option string
}.

Definition BASE_URL : string := "https://ahrefs.com/blog/es/".

Definition SEED_URLS : list (string * string) :=
  [("busqueda-con-ia", "https://ahrefs.com/blog/es/category/busqueda-con-ia/");
   ("blog-de-producto", "https://ahrefs.com/blog/es/category/product-blog/");
   ("estudios-y-datos", "https://ahrefs.com/blog/es/category/data-studies/");
   ("seo-general", "https://ahrefs.com/blog/es/category/general-seo/");
   ("investigacion-de-palabras-clave", "https://ahrefs.com/blog/es/category/keyword-research/");
   ("seo-on-page", "https://ahrefs.com/blog/es/category/on-page-seo/");
   ("link-building", "https://ahrefs.com/blog/es/category/link-building/");
   ("seo-tecnico", "https://ahrefs.com/blog/es/category/technical-seo/");
   ("seo-local", "https://ahrefs.com/blog/es/category/local-seo/");
   ("seo-enterprise", "https://ahrefs.com/blog/es/category/enterprise-seo/");
   ("marketing-general", "https://ahrefs.com/blog/es/category/marketing/");
   ("marketing-de-contenidos", "https://ahrefs.com/blog/es/category/content-marketing/");
   ("marketing-de-afiliacion", "https://ahrefs.com/blog/es/category/affiliate-marketing/");
   ("marketing-de-pago", "https://ahrefs.com/blog/es/category/paid-marketing/");
   ("video-marketing", "https://ahrefs.com/blog/es/category/video-marketing/")].

Definition FAVICON_URL : string :=
  "https://ahrefs.com/blog/es/wp-content/themes/Ahrefs-4/images/favicons/favicon-48x48.png".

Definition SITE_TITLE : string := "Ahrefs".

(** ['div.author-desktop, div.post-navigation2, div.post-navigation-left'] *)
Definition unwanted (name : string) (attrs : list (string * string)) : bool :=
  String.eqb name "div"
  && (Dom.has_class "author-desktop" attrs
      || Dom.has_class "post-navigation2" attrs
      || Dom.has_class "post-navigation-left" attrs).

Definition allowed_tags : list string :=
  ["h2"; "h3"; "h4"; "h5"; "h6"; "p"; "figure"; "img"; "table"; "code";
   "blockquote"; "a"; "ul"; "ol"; "li"].

Definition allowed_attrs : list string := ["href"; "src"; "alt"; "title"].

Definition _clean_html_content (content_soup : Dom.Node) : string :=
  Dom.clean_html unwanted allowed_tags allowed_attrs content_soup.

(** [if not link_tag or not link_tag.get('href'): continue], then
    [article_link = link_tag['href']]. *)
Definition usable_link (header : option LinkTag) : option string :=
  match header with
  | Some link_tag =>
      match href link_tag with
      | Some article_link =>
          if String.eqb article_link "" then None else Some article_link
      | None => None
      end
  | None => None
  end.

(** [link_tag.get_text(strip=True)] of a header that has its link. *)
Definition title_of (header : option LinkTag) : string :=
  match header with
  | Some link_tag => link_text link_tag
  | None => ""
  end.

Section Scraper.

Variable lib : PyLib.
Variable w : World Soup.

Definition _create_excerpt (full_content_html : string) : string :=
  let text := PyStr.join " " (PyStr.split (get_text lib full_content_html)) in
  if 70 <? String.length text
  then PyStr.strip (PyStr.slice_to 70 text) +:+ "..."
  else text.

Definition _parse_date (date_str : string) : string :=
  match reformat_date lib "%B %d, %Y" (PyStr.strip date_str) with
  | Some formatted => formatted
  | None => date_str
  end.

(** The dictionary built from a header and its fetched article page. *)
Definition article_data (category article_link : string)
    (header : option LinkTag) (article_soup : Soup) : Article :=
  let full_content :=
    match content_container article_soup with
    | Some container => _clean_html_content container
    | None => ""
    end in
  let date_str :=
    match date_tag article_soup with
    | Some text => text
    | None => ""
    end in
  {| category := category;
     link := article_link;
     titulo_entrada := title_of header;
     url_thumbnail := "";
     full_content := full_content;
     excerpt_content := _create_excerpt full_content;
     date := _parse_date date_str;
     favicon_url := FAVICON_URL |}.

Definition source : Engine.Source Soup (option LinkTag) :=
  {| Engine.site_title := SITE_TITLE;
     Engine.seed_urls := SEED_URLS;
     Engine.window := 5;
     Engine.cards := article_headers;
     Engine.card_link := usable_link;
     Engine.new_article_data := article_data |}.

Definition _save_data : Database -> M unit := Engine._save_data.

Definition run_update_scrape : M (list Article) :=
  Engine.run_update_scrape source w.

(** [for header in article_headers] of [run_initial_scrape]. *)
Fixpoint scrape_headers (category : string) (headers : list (option LinkTag))
    (processed_links : gset string) (all_articles : list Article)
    : M (gset string * list Article) :=
  match headers with
  | [] => ret (processed_links, all_articles)
  | header :: rest =>
      match usable_link header with
      | None => scrape_headers category rest processed_links all_articles
      | Some article_link =>
          if decide (article_link ∈ processed_links)
          then scrape_headers category rest processed_links all_articles
          else
            let processed_links := {[article_link]} ∪ processed_links in
            article_response <- _fetch_with_retries w article_link ;;
            match article_response with
            | None => scrape_headers category rest processed_links all_articles
            | Some article_soup =>
                scrape_headers category rest processed_links
                  (all_articles
                   ++ [article_data category article_link header article_soup])
            end
      end
  end.

(** The pagination block: the link that follows [span.current] when it
    is an [a] of class [page]; the [a.last] link when there is no
    [span.current].  Both are read with [tag['href']]. *)
Definition next_page_url (soup : Soup) : Next :=
  match pagination_container soup with
  | None => Stop
  | Some nav =>
      match current_page_span nav with
      | Some following =>
          match following with
          | Some sibling =>
              if String.eqb (sibling_name sibling) "a"
                 && Dom.mem "page" (sibling_class sibling)
              then match sibling_href sibling with
                   | Some h => Follow h
                   | None => NoHref
                   end
              else Stop
          | None => Stop
          end
      | None =>
          match last_link nav with
          | Some (Some h) => Follow h
          | Some None => NoHref
          | None => Stop
          end
      end
  end.

(** [if next_page_url:] the URL of the next turn. *)
Definition next_url (soup : Soup) : Next :=
  match next_page_url soup with
  | Follow u => if String.eqb u "" then Stop else Follow (urljoin lib BASE_URL u)
  | other => other
  end.

(** [while current_url:] has no bound of its own: [fuel] turns are run,
    and the result is [Unfinished] when they do not reach the end of the
    loop.  The pagination block stands outside the [try] of the headers:
    its KeyError leaves the function. *)
Fixpoint scrape_pages (fuel : nat) (category current_url : string)
    (processed_links : gset string) (all_articles : list Article)
    : M (Ending (gset string * list Article)) :=
  if String.eqb current_url ""
  then ret (Returned (processed_links, all_articles))
  else
    match fuel with
    | 0 => ret Unfinished
    | S fuel' =>
        response <- _fetch_with_retries w current_url ;;
        match response with
        | None => ret (Returned (processed_links, all_articles))
        | Some soup =>
            ' (processed_links', all_articles') <-
              scrape_headers category (article_headers soup)
                processed_links all_articles ;;
            match next_url soup with
            | Follow next =>
                scrape_pages fuel' category next processed_links' all_articles'
            | Stop => ret (Returned (processed_links', all_articles'))
            | NoHref => ret KeyError
            end
        end
    end.

Fixpoint scrape_categories (fuel : nat) (seeds : list (string * string))
    (processed_links : gset string) (all_articles : list Article)
    : M (Ending (gset string * list Article)) :=
  match seeds with
  | [] => ret (Returned (processed_links, all_articles))
  | (category, start_url) :: rest =>
      done <- scrape_pages fuel category start_url
                processed_links all_articles ;;
      match done with
      | Returned (processed_links', all_articles') =>
          scrape_categories fuel rest processed_links' all_articles'
      | KeyError => ret KeyError
      | Unfinished => ret Unfinished
      end
  end.

(** The run; its result is the list [all_articles].  Nothing is saved
    when the traversal does not come to its end. *)
Definition run_initial_scrape (fuel : nat) : M (Ending (list Article)) :=
  done <- scrape_categories fuel SEED_URLS ∅ [] ;;
  match done with
  | Returned (_, all_articles) =>
      _save_data {| titulo_sitio_web := SITE_TITLE; articles := all_articles |} ;;
      ret (Returned all_articles)
  | KeyError => ret KeyError
  | Unfinished => ret Unfinished
  end.

(** [main]: initial mode when the JSON file does not exist, update mode
    otherwise.  An exception that leaves the mode is logged by [main],
    which returns; the result tells how the mode ended. *)
Definition main (fuel : nat) : M (Ending (list Article)) :=
  fun s =>
    match json_file s with
    | None => run_initial_scrape fuel s
    | Some _ => (new <- run_update_scrape ;; ret (Returned new)) s
    end.

End Scraper.

End Ahrefs.

(** ** Backlinko (src/scrapers/backlinko_scraper.py): update mode *)
Module Backlinko.

Import Fetcher.

(** [card.select_one('a')] with what is read inside it. *)
Record LinkTag : Type := {
  href : option string;               (* link_tag.get('href') *)
  titulo_tag : option string;         (* select_one('h2').get_text(strip=True) *)
  thumb_tag : option (option string)  (* select_one('figure picture img'), its src *)
}.

Record Soup : Type := {
  article_cards : list (option LinkTag);  (* select('main article') *)
  next_page_tag : option (option string); (* the li.next link and its href *)
  content_container : option Dom.Node;    (* select_one('div#content') *)
  date_tag : option (option string)       (* 'header time.updated', its datetime *)
}.

Definition BASE_URL : string := "https://backlinko.com/".

Definition SEED_URLS : list (string * string) :=
  [("affiliate-marketing", "https://backlinko.com/blog/categories/affiliate-marketing");
   ("content", "https://backlinko.com/blog/categories/content");
   ("ecommerce", "https://backlinko.com/blog/categories/ecommerce");
   ("seo", "https://backlinko.com/blog/categories/seo");
   ("keyword-research", "https://backlinko.com/blog/categories/keyword-research");
   ("link-building", "https://backlinko.com/blog/categories/link-building");
   ("local-seo", "https://backlinko.com/blog/categories/local-seo");
   ("marketing", "https://backlinko.com/blog/categories/marketing");
   ("research", "https://backlinko.com/blog/categories/research");
   ("technical-seo", "https://backlinko.com/blog/categories/technical-seo")].

Definition FAVICON_URL : string :=
  "https://backlinko.com/favicon-32x32.png?v=KmwbmdMLo6".

(** "Sin Titulo", with its i-acute (code point 237). *)
Definition SIN_TITULO : string := "Sin T" +:+ String (ascii_of_nat 237) "tulo".

Definition allowed_tags : list string :=
  ["h2"; "h3"; "h4"; "h5"; "h6"; "p"; "figure"; "img"; "table"; "code";
   "blockquote"; "a"; "ul"; "ol"; "li"].

Definition allowed_attrs : list string := ["href"; "src"; "alt"; "title"].

(** No deny-list in this scraper. *)
Definition _clean_html_content (content_soup : Dom.Node) : string :=
  Dom.clean_html (fun _ _ => false) allowed_tags allowed_attrs content_soup.

(** [date_str.split('T')[0]] *)
Fixpoint before_T (s : string) : string :=
  match s with
  | EmptyString => ""
  | String c rest => if Ascii.eqb c "T" then "" else String c (before_T rest)
  end.

Section Scraper.

Variable lib : PyLib.

Definition _create_excerpt (full_content_html : string) : string :=
  let text := PyStr.join " " (PyStr.split (get_text lib full_content_html)) in
  if 70 <? String.length text
  then PyStr.strip (PyStr.slice_to 70 text) +:+ "..."
  else text.

Definition _parse_date (date_str : string) : string :=
  match reformat_date lib "%Y-%m-%d" (before_T date_str) with
  | Some formatted => formatted
  | None => date_str
  end.

(** [urljoin(BASE_URL, link_tag['href'])] of a card that has its link. *)
Definition card_link (card : option LinkTag) : option string :=
  match card with
  | Some link_tag =>
      match href link_tag with
      | Some relative_link =>
          if String.eqb relative_link "" then None
          else Some (urljoin lib BASE_URL relative_link)
      | None => None
      end
  | None => None
  end.

Definition new_article_data (category article_link : string)
    (card : option LinkTag) (article_soup : Soup) : Article :=
  let article_title :=
    match card with
    | Some link_tag =>
        match titulo_tag link_tag with
        | Some text => text
        | None => SIN_TITULO
        end
    | None => SIN_TITULO
    end in
  let thumbnail :=
    match card with
    | Some link_tag =>
        match thumb_tag link_tag with
        | Some (Some src) => src
        | _ => ""
        end
    | None => ""
    end in
  let full_content :=
    match content_container article_soup with
    | Some container => _clean_html_content container
    | None => ""
    end in
  let date_str :=
    match date_tag article_soup with
    | Some (Some datetime) => datetime
    | _ => ""
    end in
  {| category := category;
     link := article_link;
     titulo_entrada := article_title;
     url_thumbnail := thumbnail;
     full_content := full_content;
     excerpt_content := _create_excerpt full_content;
     date := _parse_date date_str;
     favicon_url := FAVICON_URL |}.

Definition source : Engine.Source Soup (option LinkTag) :=
  {| Engine.site_title := "Backlinko";
     Engine.seed_urls := SEED_URLS;
     Engine.window := 5;
     Engine.cards := article_cards;
     Engine.card_link := card_link;
     Engine.new_article_data := new_article_data |}.

Definition run_update_scrape (w : World Soup) : M (list Article) :=
  Engine.run_update_scrape source w.

End Scraper.

(** *** The initial scrape *)
Section Initial.

Variable lib : PyLib.
Variable w : World Soup.

(** [any(a['link'] == article_link for a in all_articles)] *)
Definition already_collected (article_link : string)
    (all_articles : list Article) : bool :=
  existsb (fun a => String.eqb (link a) article_link) all_articles.

(** [for card in article_cards] of [run_initial_scrape]: a link is
    skipped when a record of [all_articles] already carries it. *)
Fixpoint scrape_cards (category : string) (cards : list (option LinkTag))
    (all_articles : list Article) : M (list Article) :=
  match cards with
  | [] => ret all_articles
  | card :: rest =>
      match card_link lib card with
      | None => scrape_cards category rest all_articles
      | Some article_link =>
          if already_collected article_link all_articles
          then scrape_cards category rest all_articles
          else
            article_response <- _fetch_with_retries w article_link ;;
            match article_response with
            | None => scrape_cards category rest all_articles
            | Some article_soup =>
                scrape_cards category rest
                  (all_articles
                   ++ [new_article_data lib category article_link card
                         article_soup])
            end
      end
  end.

(** [if next_page_tag and next_page_tag.get('href')]: the URL of the
    next turn, [None] to stop. *)
Definition next_url (soup : Soup) : option string :=
  match next_page_tag soup with
  | Some (Some h) =>
      if String.eqb h "" then None else Some (urljoin lib BASE_URL h)
  | _ => None
  end.

(** [while current_url:], run for at most [fuel] turns; [None] when they
    do not reach the end of the loop. *)
Fixpoint scrape_pages (fuel : nat) (category current_url : string)
    (all_articles : list Article) : M (option (list Article)) :=
  if String.eqb current_url "" then ret (Some all_articles)
  else
    match fuel with
    | 0 => ret None
    | S fuel' =>
        response <- _fetch_with_retries w current_url ;;
        match response with
        | None => ret (Some all_articles)
        | Some soup =>
            all_articles' <-
              scrape_cards category (article_cards soup) all_articles ;;
            match next_url soup with
            | Some next => scrape_pages fuel' category next all_articles'
            | None => ret (Some all_articles')
            end
        end
    end.

Fixpoint scrape_categories (fuel : nat) (seeds : list (string * string))
    (all_articles : list Article) : M (option (list Article)) :=
  match seeds with
  | [] => ret (Some all_articles)
  | (category, start_url) :: rest =>
      done <- scrape_pages fuel category start_url all_articles ;;
      match done with
      | None => ret None
      | Some all_articles' => scrape_categories fuel rest all_articles'
      end
  end.

Definition run_initial_scrape (fuel : nat) : M (option (list Article)) :=
  done <- scrape_categories fuel SEED_URLS [] ;;
  match done with
  | None => ret None
  | Some all_articles =>
      Engine._save_data
        {| titulo_sitio_web := "Backlinko"; articles := all_articles |} ;;
      ret (Some all_articles)
  end.

Definition main (fuel : nat) : M (option (list Article)) :=
  fun s =>
    match json_file s with
    | None => run_initial_scrape fuel s
    | Some _ => (new <- run_update_scrape lib w ;; ret (Some new)) s
    end.

End Initial.

End Backlinko.

(** ** Moz (src/scrapers/moz_scraper.py) *)
Module Moz.

Import Fetcher.

Record LinkTag : Type := {
  href : option string;   (* link_tag.get('href') *)
  link_text : string      (* link_tag.get_text(strip=True) *)
}.

(** One [article.blog-card] with what the selectors find in it. *)
Record Card : Type := {
  link_tag : option LinkTag;            (* 'h2 a.stretched-link' *)
  thumb_tag : option (option string);   (* the image and its src *)
  excerpt_tag : option string;          (* 'div.position-relative p', its text *)
  date_tag : option (option string)     (* 'footer time' and its datetime *)
}.

Record Soup : Type := {
  article_cards : list Card;              (* select('article.blog-card') *)
  next_page_tag : option (option string); (* 'a.page-link[aria-label=next]', its href *)
  content_container : option Dom.Node     (* select_one('div.article-body') *)
}.

Definition BASE_URL : string := "https://moz.com/".

Definition SEED_URLS : list (string * string) :=
  [("seo-ai", "https://moz.com/blog/category/seo-ai");
   ("advanced-seo", "https://moz.com/blog/category/advanced-seo");
   ("algorithm-updates", "https://moz.com/blog/category/algorithm-updates");
   ("blogging", "https://moz.com/blog/category/blogging");
   ("branding", "https://moz.com/blog/category/branding");
   ("competitive-research", "https://moz.com/blog/category/competitive-research");
   ("content-marketing", "https://moz.com/blog/category/content-marketing");
   ("conversion-rate-optimization-cro", "https://moz.com/blog/category/conversion-rate-optimization-cro");
   ("design", "https://moz.com/blog/category/design");
   ("public-relations", "https://moz.com/blog/category/public-relations");
   ("e-commerce-seo", "https://moz.com/blog/category/e-commerce-seo");
   ("international-seo", "https://moz.com/blog/category/international-seo");
   ("keyword-research", "https://moz.com/blog/category/keyword-research");
   ("link-building", "https://moz.com/blog/category/link-building");
   ("local-seo", "https://moz.com/blog/category/local-seo")].

Definition MAX_PAGES_TO_SCRAPE : nat := 5.

Definition FAVICON_URL : string :=
  "https://cdn-1.webcatalog.io/catalog/moz/moz-icon-filled-256.png?v=1714775184396".

(** ['.page-section-wrapper-cta-block, .blog-social-wrapper'] *)
Definition unwanted (name : string) (attrs : list (string * string)) : bool :=
  Dom.has_class "page-section-wrapper-cta-block" attrs
  || Dom.has_class "blog-social-wrapper" attrs.

Definition allowed_tags : list string :=
  ["h2"; "h3"; "h4"; "h5"; "h6"; "p"; "figure"; "img"; "table"; "code";
   "blockquote"; "a"; "ul"; "ol"; "li"; "iframe"].

Definition allowed_attrs : list string :=
  ["href"; "src"; "alt"; "title"; "width"; "height"; "frameborder"].

Definition _clean_html_content (content_soup : Dom.Node) : string :=
  Dom.clean_html unwanted allowed_tags allowed_attrs content_soup.

Definition _create_excerpt (text : string) : string :=
  let clean_text := PyStr.join " " (PyStr.split text) in
  if 70 <? String.length clean_text
  then PyStr.strip (PyStr.slice_to 70 clean_text) +:+ "..."
  else clean_text.

Section Scraper.

Variable lib : PyLib.
Variable w : World Soup.

Definition _parse_date (date_str : string) : string :=
  match reformat_date lib "%Y-%m-%d" (PyStr.strip date_str) with
  | Some formatted => formatted
  | None => date_str
  end.

(** [urljoin(BASE_URL, link_tag['href'])] of a card that has its link. *)
Definition card_link (card : Card) : option string :=
  match link_tag card with
  | Some tag =>
      match href tag with
      | Some h => if String.eqb h "" then None else Some (urljoin lib BASE_URL h)
      | None => None
      end
  | None => None
  end.

Definition article_data (category article_link : string) (card : Card)
    (article_soup : Soup) : Article :=
  let full_content :=
    match content_container article_soup with
    | Some container => _clean_html_content container
    | None => ""
    end in
  let excerpt_text :=
    match excerpt_tag card with Some text => text | None => "" end in
  let date_str :=
    match date_tag card with Some (Some datetime) => datetime | _ => "" end in
  {| category := category;
     link := article_link;
     titulo_entrada :=
       match link_tag card with Some tag => link_text tag | None => "" end;
     url_thumbnail :=
       match thumb_tag card with Some (Some src) => src | _ => "" end;
     full_content := full_content;
     excerpt_content := _create_excerpt excerpt_text;
     date := _parse_date date_str;
     favicon_url := FAVICON_URL |}.

Definition source : Engine.Source Soup Card :=
  {| Engine.site_title := "MOZ";
     Engine.seed_urls := SEED_URLS;
     Engine.window := 5;
     Engine.cards := article_cards;
     Engine.card_link := card_link;
     Engine.new_article_data := article_data |}.

Definition run_update_scrape : M (list Article) :=
  Engine.run_update_scrape source w.

(** [for card in article_cards] of [run_initial_scrape]. *)
Fixpoint scrape_cards (category : string) (cards : list Card)
    (processed_links : gset string) (all_articles : list Article)
    : M (gset string * list Article) :=
  match cards with
  | [] => ret (processed_links, all_articles)
  | card :: rest =>
      match card_link card with
      | None => scrape_cards category rest processed_links all_articles
      | Some article_link =>
          if decide (article_link ∈ processed_links)
          then scrape_cards category rest processed_links all_articles
          else
            let processed_links := {[article_link]} ∪ processed_links in
            article_response <- _fetch_with_retries w article_link ;;
            match article_response with
            | None => scrape_cards category rest processed_links all_articles
            | Some article_soup =>
                scrape_cards category rest processed_links
                  (all_articles
                   ++ [article_data category article_link card article_soup])
            end
      end
  end.

Definition next_url (soup : Soup) : string :=
  match next_page_tag soup with
  | Some (Some h) => if String.eqb h "" then "" else urljoin lib BASE_URL h
  | _ => ""
  end.

(** [while current_url and page_count <= MAX_PAGES_TO_SCRAPE], run for at
    most [fuel] turns; [None] when they do not reach the end of the
    loop. *)
Fixpoint scrape_pages (fuel : nat) (category current_url : string)
    (page_count : nat)
    (processed_links : gset string) (all_articles : list Article)
    : M (option (gset string * list Article)) :=
  if String.eqb current_url "" || (MAX_PAGES_TO_SCRAPE <? page_count)
  then ret (Some (processed_links, all_articles))
  else
    match fuel with
    | 0 => ret None
    | S fuel' =>
        emit (EPage category page_count) ;;
        response <- _fetch_with_retries w current_url ;;
        match response with
        | None => ret (Some (processed_links, all_articles))
        | Some soup =>
            ' (processed_links', all_articles') <-
              scrape_cards category (article_cards soup)
                processed_links all_articles ;;
            scrape_pages fuel' category (next_url soup) (page_count + 1)
              processed_links' all_articles'
        end
    end.

Definition _save_data : Database -> M unit := Engine._save_data.

Fixpoint scrape_categories (fuel : nat) (seeds : list (string * string))
    (processed_links : gset string) (all_articles : list Article)
    : M (option (gset string * list Article)) :=
  match seeds with
  | [] => ret (Some (processed_links, all_articles))
  | (category, start_url) :: rest =>
      done <- scrape_pages fuel category start_url 1
                processed_links all_articles ;;
      match done with
      | None => ret None
      | Some (processed_links', all_articles') =>
          scrape_categories fuel rest processed_links' all_articles'
      end
  end.

(** The run; [None] when a pagination loop did not end within [fuel]
    turns. *)
Definition run_initial_scrape (fuel : nat) : M (option (list Article)) :=
  done <- scrape_categories fuel SEED_URLS ∅ [] ;;
  match done with
  | None => ret None
  | Some (_, all_articles) =>
      _save_data {| titulo_sitio_web := "MOZ"; articles := all_articles |} ;;
      ret (Some all_articles)
  end.

Definition main (fuel : nat) : M (option (list Article)) :=
  fun s =>
    match json_file s with
    | None => run_initial_scrape fuel s
    | Some _ => (new <- run_update_scrape ;; ret (Some new)) s
    end.

End Scraper.

End Moz.

(** ** Google Developers (src/scrapers/developer_google_scraper.py) *)
Module Google.

Import Fetcher.

(** One [div.devsite-card-wrapper] with what the selectors find in it. *)
Record Card : Type := {
  link_tag : option (option string);   (* the card link and its href *)
  title_tag : option string;           (* 'h3.no-link', its text *)
  thumb_tag : option (option string);  (* 'img.devsite-card-image', its src *)
  excerpt_tag : option string;         (* 'p.devsite-card-summary', its text *)
  date_tag : option string             (* 'p.devsite-card-attribution-date', its text *)
}.

(** A parsed article page. *)
Record Soup : Type := {
  content_container : option Dom.Node  (* select_one('div.devsite-article-body') *)
}.

Definition BASE_URL : string := "https://developers.google.com/".

Definition FAVICON_URL : string :=
  "https://www.gstatic.com/devrel-devsite/prod/vc12d84b6edb3e25e1619b575cf813e1849a1c95098b711a6c56ab3968c9a4fa9/developers/images/favicon-new.png".

Definition SIN_TITULO : string := "Sin T" +:+ String (ascii_of_nat 237) "tulo".

Definition allowed_tags : list string :=
  ["h2"; "h3"; "h4"; "h5"; "h6"; "p"; "figure"; "img"; "table"; "code";
   "blockquote"; "a"; "ul"; "ol"; "li"].

Definition allowed_attrs : list string := ["href"; "src"; "alt"; "title"].

Definition _clean_html_content (content_soup : Dom.Node) : string :=
  Dom.clean_html (fun _ _ => false) allowed_tags allowed_attrs content_soup.

Section Scraper.

Variable lib : PyLib.
Variable w : World Soup.

Definition _parse_date (date_str : string) : string :=
  match reformat_date lib "%d de %B de %Y" (PyStr.strip date_str) with
  | Some formatted => formatted
  | None => date_str
  end.

(** The loop of [_fetch_article_content]: the sanitised body of the
    article, [""] when the page has no content root or no attempt is
    answered. *)
Fixpoint try_content (article_url : string) (attempts : list nat) : M string :=
  match attempts with
  | [] => ret ""
  | attempt :: later =>
      polite_delay w ;;
      r <- http_get w article_url ;;
      match r with
      | Body soup =>
          ret (match content_container soup with
               | Some container => _clean_html_content container
               | None => ""
               end)
      | _ =>
          if attempt + 1 =? MAX_RETRIES then ret ""
          else
            emit (ESleep (RETRY_BACKOFF_FACTOR ^ attempt)) ;;
            try_content article_url later
      end
  end.

Definition _fetch_article_content (article_url : string) : M string :=
  try_content article_url (seq 0 MAX_RETRIES).

Definition card_link (card : Card) : option string :=
  match link_tag card with
  | Some (Some h) => if String.eqb h "" then None else Some (urljoin lib BASE_URL h)
  | _ => None
  end.

(** The dictionary [article_data].  Its excerpt is the card's summary;
    without one the code calls [self._create_excerpt], which this class
    does not define: AttributeError, here [None]. *)
Definition article_data (category article_link : string) (card : Card)
    (full_content : string) : option Article :=
  match excerpt_tag card with
  | Some summary =>
      Some {| category := category;
              link := article_link;
              titulo_entrada :=
                match title_tag card with Some t => t | None => SIN_TITULO end;
              url_thumbnail :=
                match thumb_tag card with Some (Some src) => src | _ => "" end;
              full_content := full_content;
              excerpt_content := summary;
              date :=
                match date_tag card with
                | Some text => _parse_date text
                | None => ""
                end;
              favicon_url := FAVICON_URL |}
  | None => None
  end.

(** [for card in article_cards] of [run_initial_scrape]; the [except
    Exception] of the card logs the error and the loop goes on. *)
Fixpoint scrape_cards (category : string) (cards : list Card)
    (processed_links : gset string) (all_articles : list Article)
    : M (gset string * list Article) :=
  match cards with
  | [] => ret (processed_links, all_articles)
  | card :: rest =>
      match card_link card with
      | None => scrape_cards category rest processed_links all_articles
      | Some article_link =>
          if decide (article_link ∈ processed_links)
          then scrape_cards category rest processed_links all_articles
          else
            let processed_links := {[article_link]} ∪ processed_links in
            full_content <- _fetch_article_content article_link ;;
            if String.eqb full_content ""
            then scrape_cards category rest processed_links all_articles
            else
              match article_data category article_link card full_content with
              | Some data =>
                  scrape_cards category rest processed_links
                    (all_articles ++ [data])
              | None =>
                  scrape_cards category rest processed_links all_articles
              end
      end
  end.

End Scraper.

(** *** The "load more" loop of [_scrape_category_page]

    The headless browser is an abstract machine: [Driver] is its state,
    and every call of the script is a transition.  A call that raises
    returns [None]. *)
Section Browser.

Variables Driver Button : Type.

Record Selenium : Type := {
  get : string -> Driver -> Driver;               (* driver.get(url) *)
  sleep : nat -> Driver -> Driver;                (* time.sleep(n): the page goes on loading *)
  find_elements : Driver -> option (list Button); (* the 'Mas' buttons *)
  is_displayed : Driver -> Button -> option bool;
  is_enabled : Driver -> Button -> option bool;
  js_click : Driver -> Button -> option Driver;   (* execute_script("arguments[0].click();", button) *)
  page_source : Driver -> string
}.

Variable selenium : Selenium.

(** [for button in load_more_buttons]: the browser afterwards, and
    [clicked_any], [None] when a call raised. *)
Fixpoint press_buttons (buttons : list Button) (d : Driver) (clicked_any : bool)
    : Driver * option bool :=
  match buttons with
  | [] => (d, Some clicked_any)
  | button :: rest =>
      match is_displayed selenium d button with
      | None => (d, None)
      | Some false => press_buttons rest d clicked_any
      | Some true =>
          match is_enabled selenium d button with
          | None => (d, None)
          | Some false => press_buttons rest d clicked_any
          | Some true =>
              match js_click selenium d button with
              | None => (d, None)
              | Some d' => press_buttons rest (sleep selenium 2 d') true
              end
          end
      end
  end.

(** One turn of [while True]: three seconds of rest, then every button
    is pressed. *)
Definition poll_cycle (d : Driver) : Driver * option bool :=
  let d := sleep selenium 3 d in
  match find_elements selenium d with
  | None => (d, None)
  | Some load_more_buttons => press_buttons load_more_buttons d false
  end.

(** [while True], run for at most [fuel] turns: it ends on a turn that
    pressed nothing ([if not clicked_any: break]) or raised (each
    [except] breaks). *)
Fixpoint load_more_loop (fuel : nat) (d : Driver) : option Driver :=
  match fuel with
  | 0 => None
  | S fuel' =>
      match poll_cycle d with
      | (d', Some true) => load_more_loop fuel' d'
      | (d', _) => Some d'
      end
  end.

Definition _scrape_category_page (fuel : nat) (category_url : string)
    (d : Driver) : option (Driver * string) :=
  match load_more_loop fuel (get selenium category_url d) with
  | Some d' => Some (d', page_source selenium d')
  | None => None
  end.

End Browser.

End Google.

(** ** El Placer del SEO (src/scrapers/el_placer_del_seo_scraper.py):
    the scroll loop of [_scrape_category_page] *)
Module ElPlacer.

Section Browser.

Variable Driver : Type.

Record Selenium : Type := {
  get : string -> Driver -> Driver;        (* driver.get(url) *)
  scroll_height : Driver -> nat;           (* "return document.body.scrollHeight" *)
  scroll_to_bottom : Driver -> Driver;     (* "window.scrollTo(0, document.body.scrollHeight);" *)
  sleep : nat -> Driver -> Driver;         (* time.sleep(n): the page goes on loading *)
  page_source : Driver -> string
}.

Variable selenium : Selenium.

(** [while True], run for at most [fuel] turns. *)
Fixpoint scroll_loop (fuel : nat) (d : Driver) (last_height : nat)
    : option Driver :=
  match fuel with
  | 0 => None
  | S fuel' =>
      let d := sleep selenium 4 (scroll_to_bottom selenium d) in
      let new_height := scroll_height selenium d in
      if new_height =? last_height then Some d
      else scroll_loop fuel' d new_height
  end.

Definition _scrape_category_page (fuel : nat) (category_url : string)
    (d : Driver) : option (Driver * string) :=
  let d := get selenium category_url d in
  let last_height := scroll_height selenium d in
  match scroll_loop fuel d last_height with
  | Some d' => Some (d', page_source selenium d')
  | None => None
  end.

End Browser.

(** *** Cards, article pages and the initial loop *)

(** [card.select_one('h2.elementor-post__title a')] *)
Record LinkTag : Type := {
  href : option string;   (* link_tag.get('href') *)
  text : string           (* link_tag.text *)
}.

(** One [article.elementor-post] with what the selectors find in it. *)
Record Card : Type := {
  link_tag : option LinkTag;
  (* 'a.elementor-post__thumbnail__link', its 'img', the src of the image *)
  thumb_container : option (option (option string));
  (* 'span.elementor-post-date', its text *)
  date_tag : option string
}.

(** A parsed article page. *)
Record Soup : Type := {
  content_container : option Dom.Node  (* select_one('div.entry-content') *)
}.

Definition FAVICON_URL : string :=
  "https://elplacerdelseo.com/wp-content/uploads/2022/10/cropped-captura-de-pantalla-2022-10-19-a-las-17.14.18-32x32.png".

(** [find_all("div", style=lambda value: value and 'margin: 20px 0;' in
    value)]: the blocks of share buttons. *)
Definition share_div (name : string) (attrs : list (string * string)) : bool :=
  String.eqb name "div"
  && match Dom.attr "style" attrs with
     | Some value => PyStr.contains "margin: 20px 0;" value
     | None => false
     end.

Definition allowed_tags : list string :=
  ["h2"; "h3"; "h4"; "h5"; "h6"; "p"; "figure"; "img"; "table"; "code";
   "blockquote"; "a"; "ul"; "ol"; "li"].

Definition allowed_attrs : list string := ["href"; "src"; "alt"; "title"].

Definition _clean_html_content (content_soup : Dom.Node) : string :=
  Dom.clean_html share_div allowed_tags allowed_attrs content_soup.

Section Scraper.

Import Fetcher.

Variable lib : PyLib.
Variable w : World Soup.

Definition _create_excerpt (full_content_html : string) : string :=
  let text := PyStr.join " " (PyStr.split (get_text lib full_content_html)) in
  if 70 <? String.length text
  then PyStr.strip (PyStr.slice_to 70 text) +:+ "..."
  else text.

Definition _parse_date (date_str : string) : string :=
  match reformat_date lib "%B %d, %Y" (PyStr.strip date_str) with
  | Some formatted => formatted
  | None => date_str
  end.

(** The loop of [_fetch_article_content]: the sanitised body of the
    article, the empty string when the page has no content root or no
    attempt is answered. *)
Fixpoint try_content (article_url : string) (attempts : list nat) : M string :=
  match attempts with
  | [] => ret ""
  | attempt :: later =>
      polite_delay w ;;
      r <- http_get w article_url ;;
      match r with
      | Body soup =>
          ret (match content_container soup with
               | Some container => _clean_html_content container
               | None => ""
               end)
      | _ =>
          if attempt + 1 =? MAX_RETRIES then ret ""
          else
            emit (ESleep (RETRY_BACKOFF_FACTOR ^ attempt)) ;;
            try_content article_url later
      end
  end.

Definition _fetch_article_content (article_url : string) : M string :=
  try_content article_url (seq 0 MAX_RETRIES).

(** [if not link_tag or not link_tag.get('href'): continue], then
    [article_link = link_tag['href']]. *)
Definition card_link (card : Card) : option string :=
  match link_tag card with
  | Some tag =>
      match href tag with
      | Some article_link =>
          if String.eqb article_link "" then None else Some article_link
      | None => None
      end
  | None => None
  end.

Definition article_data (category article_link : string) (card : Card)
    (full_content : string) : Article :=
  {| category := category;
     link := article_link;
     titulo_entrada :=
       match link_tag card with
       | Some tag => PyStr.strip (text tag)
       | None => ""
       end;
     url_thumbnail :=
       match thumb_container card with
       | Some (Some (Some src)) => src
       | _ => ""
       end;
     full_content := full_content;
     excerpt_content := _create_excerpt full_content;
     date :=
       match date_tag card with
       | Some t => _parse_date (PyStr.strip t)
       | None => ""
       end;
     favicon_url := FAVICON_URL |}.

(** [for card in article_cards] of [run_initial_scrape]: no record is
    kept of the links already met. *)
Fixpoint scrape_cards (category : string) (cards : list Card)
    (all_articles : list Article) : M (list Article) :=
  match cards with
  | [] => ret all_articles
  | card :: rest =>
      match card_link card with
      | None => scrape_cards category rest all_articles
      | Some article_link =>
          full_content <- _fetch_article_content article_link ;;
          if String.eqb full_content ""
          then scrape_cards category rest all_articles
          else
            scrape_cards category rest
              (all_articles
               ++ [article_data category article_link card full_content])
      end
  end.

End Scraper.

End ElPlacer.

(** ** The launcher (src/run_all.py) *)
Module RunAll.

(** What [subprocess.run([sys.executable, scraper_path], check=True,
    capture_output=True, text=True)] comes to. *)
Inductive Outcome : Type :=
| Completed (stdout stderr : string)            (* exit status 0 *)
| CalledProcessError (stdout stderr : string)   (* another exit status *)
| FileNotFoundError                             (* nothing to execute *)
| Raised.                                       (* any other exception *)

Definition SCRAPERS : list string :=
  ["scrapers/ahrefs_scraper.py";
   "scrapers/backlinko_scraper.py";
   "scrapers/carlos_sanchez_scraper.py";
   "scrapers/developer_google_scraper.py";
   "scrapers/el_placer_del_seo_scraper.py";
   "scrapers/moz_scraper.py";
   "scrapers/search_engine_land_scraper.py"].

(** What is printed. *)
Inductive Line : Type :=
| PStart                                          (* "--- INICIANDO ..." *)
| PRunning (scraper_path : string)                (* ">>> Ejecutando: ..." *)
| POutput (scraper_path stdout : string)          (* "--- Salida de ...", stdout *)
| PErrors (scraper_path stderr : string)          (* "--- Errores (stderr) de ...", stderr *)
| PDone (scraper_path : string)                   (* ">>> ... completado exitosamente." *)
| PFailed (scraper_path stdout stderr : string)   (* "!!! ERROR al ejecutar ...", both streams *)
| PNotFound (scraper_path : string)               (* "!!! ERROR: No se encontro ..." *)
| PEnd.                                           (* "--- TODOS LOS SCRAPERS HAN FINALIZADO ..." *)

(** [for scraper_path in SCRAPERS], from the [n]-th launch on: what is
    printed, and whether the loop reached its end; [run n path] is the
    outcome of launching [path] as the [n]-th process. *)
Fixpoint run_each (run : nat -> string -> Outcome) (n : nat)
    (scrapers : list string) : list Line * bool :=
  match scrapers with
  | [] => ([], true)
  | scraper_path :: rest =>
      match run n scraper_path with
      | Completed stdout stderr =>
          let '(printed, finished) := run_each run (S n) rest in
          ([PRunning scraper_path; POutput scraper_path stdout]
           ++ (if String.eqb stderr "" then [] else [PErrors scraper_path stderr])
           ++ [PDone scraper_path] ++ printed,
           finished)
      | CalledProcessError stdout stderr =>
          let '(printed, finished) := run_each run (S n) rest in
          ([PRunning scraper_path; PFailed scraper_path stdout stderr]
           ++ printed,
           finished)
      | FileNotFoundError =>
          let '(printed, finished) := run_each run (S n) rest in
          ([PRunning scraper_path; PNotFound scraper_path] ++ printed,
           finished)
      | Raised => ([PRunning scraper_path], false)
      end
  end.

Definition run_scrapers (run : nat -> string -> Outcome) : list Line * bool :=
  let '(printed, finished) := run_each run 0 SCRAPERS in
  (PStart :: printed ++ (if finished then [PEnd] else []), finished).

(** The scripts launched, in order. *)
Fixpoint launched (printed : list Line) : list string :=
  match printed with
  | [] => []
  | PRunning scraper_path :: rest => scraper_path :: launched rest
  | _ :: rest => launched rest
  end.

End RunAll.

(** ** Notions used to state the properties *)
Module Obs.

Import Fetcher.

(** The state after [n] more requests. *)
Definition tick (n : nat) (s : State) : State :=
  {| clock := n + clock s; json_file := json_file s;
     json_backup := json_backup s |}.

Section Worlds.

Context {Page : Type}.



(** Upstream does not change: the reply to a request depends on the URL
    alone. *)
Definition steady (w : World Page) : Prop :=
  forall n m url, net w n url = net w m url.

End Worlds.

(** The links of the cards that carry one, in page order. *)
Definition card_links {Soup Card : Type} (src : Engine.Source Soup Card)
    (article_cards : list Card) : list string :=
  omap (Engine.card_link src) article_cards.

(** The record built by a source carries the link it was built for. *)
Definition keeps_link {Soup Card : Type} (src : Engine.Source Soup Card)
    : Prop :=
  forall category article_link card soup,
    link (Engine.new_article_data src category article_link card soup)
    = article_link.


(** What the JSON file holds before a run. *)
Definition stored (s : State) : list Article :=
  match json_file s with Some data => articles data | None => [] end.

Definition stored_title {Soup Card : Type} (src : Engine.Source Soup Card)
    (s : State) : string :=
  match json_file s with
  | Some data => titulo_sitio_web data
  | None => Engine.site_title src
  end.

(** What a loop of the initial scrape adds to [all_articles]: new records
    with links that are pairwise distinct, were not processed before, are
    marked processed and were requested; the files are left alone. *)
Definition adds (P : gset string) (A : list Article) (s : State)
    (P' : gset string) (A' : list Article) (s' : State) (evs : list Event)
    : Prop :=
  exists added,
    A' = A ++ added
    /\ P ⊆ P'
    /\ NoDup (links added)
    /\ (forall l, l ∈ links added ->
          (l ∉ P) /\ (l ∈ P') /\ (l ∈ requested evs))
    /\ json_file s' = json_file s /\ json_backup s' = json_backup s
    /\ saves evs = [] /\ backups evs = 0.

(** The pagination of an Ahrefs site ends when some measure of its URLs
    goes down along every next-page link. *)
Definition descending (lib : PyLib) (w : World Ahrefs.Soup)
    (rank : string -> nat) : Prop :=
  forall n url soup next,
    net w n url = Body soup -> Ahrefs.next_url lib soup = Ahrefs.Follow next ->
    rank next < rank url.




(** Every next-page link of the Ahrefs site carries its [href]. *)
Definition well_linked (lib : PyLib) (w : World Ahrefs.Soup) : Prop :=
  forall n url soup,
    net w n url = Body soup -> Ahrefs.next_url lib soup <> Ahrefs.NoHref.

(** Google: the browser after [n] turns of the "load more" loop. *)
Fixpoint after_cycles {Driver Button : Type}
    (selenium : Google.Selenium Driver Button) (n : nat) (d : Driver) : Driver :=
  match n with
  | 0 => d
  | S n' =>
      after_cycles selenium n'
        (fst (Google.poll_cycle Driver Button selenium d))
  end.

(** El Placer: the browser after [n] scrolls. *)
Fixpoint after_scrolls {Driver : Type} (selenium : ElPlacer.Selenium Driver)
    (n : nat) (d : Driver) : Driver :=
  match n with
  | 0 => d
  | S n' =>
      after_scrolls selenium n'
        (ElPlacer.sleep _ selenium 4 (ElPlacer.scroll_to_bottom _ selenium d))
  end.

(** The double quote, as a string. *)
Definition quote : string := String Dom.dquote "".

(** No request for [url] is ever answered with a page. *)
Definition unreachable {Page : Type} (w : World Page) (url : string) : Prop :=
  forall n, is_body (net w n url) = false.

(** The events of a fetch of [url] that starts in [s] and whose attempts
    all fail. *)
Definition three_failures {Page : Type} (w : World Page) (url : string)
    (s : State) : list Event :=
  [EDelay (uniform w (clock s)); EGet url false; ESleep 1;
   EDelay (uniform w (S (clock s))); EGet url false; ESleep 2;
   EDelay (uniform w (S (S (clock s)))); EGet url false].

(** The site is down: no request is answered with a page. *)
Definition down {Page : Type} (w : World Page) : Prop :=
  forall n url, is_body (net w n url) = false.

(** The URLs that were answered with a page, in order. *)
Fixpoint fetched (evs : list Event) : list string :=
  match evs with
  | [] => []
  | EGet url true :: rest => url :: fetched rest
  | _ :: rest => fetched rest
  end.

(** The politeness delays taken. *)
Fixpoint delays (evs : list Event) : nat :=
  match evs with
  | [] => 0
  | EDelay _ :: rest => S (delays rest)
  | _ :: rest => delays rest
  end.

(** Every draw of the random delay lies in RANDOM_DELAY_RANGE, as
    [random.uniform(1, 3)] promises. *)
Definition in_range {Page : Type} (w : World Page) : Prop :=
  forall n, (fst RANDOM_DELAY_RANGE <= uniform w n <= snd RANDOM_DELAY_RANGE)%Q.

(** The time slept before each request, in seconds: [pause] is what was
    slept since the last request. *)
Fixpoint pauses (pause : Q) (evs : list Event) : list Q :=
  match evs with
  | [] => []
  | EGet _ _ :: rest => pause :: pauses 0%Q rest
  | EDelay d :: rest => pauses (pause + d)%Q rest
  | ESleep n :: rest => pauses (pause + inject_Z (Z.of_nat n))%Q rest
  | _ :: rest => pauses pause rest
  end.

(** The time slept between one request and the next. *)
Definition inter_attempt_delays (evs : list Event) : list Q :=
  tl (pauses 0%Q evs).

(** The pagination of a Backlinko site ends when some measure of its
    URLs goes down along every next-page link. *)
Definition backlinko_descending (lib : PyLib) (w : World Backlinko.Soup)
    (rank : string -> nat) : Prop :=
  forall n url soup next,
    net w n url = Body soup -> Backlinko.next_url lib soup = Some next ->
    rank next < rank url.

(** What a loop of the initial scrape of Backlinko adds to
    [all_articles]: new records that keep the links distinct and whose
    pages were fetched; the files are left alone. *)
Definition collects (A : list Article) (s : State)
    (A' : list Article) (s' : State) (evs : list Event) : Prop :=
  exists added,
    A' = A ++ added
    /\ (NoDup (links A) -> NoDup (links A'))
    /\ sublist (links added) (fetched evs)
    /\ json_file s' = json_file s /\ json_backup s' = json_backup s
    /\ saves evs = [] /\ backups evs = 0.



(** A text that is empty or begins with a character that is not blank. *)
Definition starts_well (s : string) : Prop :=
  match s with
  | EmptyString => True
  | String c _ => PyStr.isspace c = false
  end.

(** El Placer del SEO: every request for [url] is answered with an
    article page whose sanitised content is not empty. *)
Definition readable (w : World ElPlacer.Soup) (url : string) : Prop :=
  forall n, exists soup container,
    net w n url = Body soup
    /\ ElPlacer.content_container soup = Some container
    /\ ElPlacer._clean_html_content container <> "".

(** What the listing page at [url] shows is in [known], or cannot be
    fetched. *)
Definition covered {Soup Card : Type} (src : Engine.Source Soup Card)
    (w : World Soup) (url : string) (known : list string) : Prop :=
  forall soup, net w 0 url = Body soup ->
  forall l, l ∈ card_links src (Engine.cards src soup) ->
            l ∈ known \/ unreachable w l.

End Obs.

Export Obs.

(** ** Sample sites and states, for the examples *)
Module Sample.

Import Fetcher.

(** The text outside the tags of a serialised fragment. *)
Fixpoint strip_tags (inside : bool) (html : string) : string :=
  match html with
  | EmptyString => ""
  | String c rest =>
      if Ascii.eqb c "<" then strip_tags true rest
      else if Ascii.eqb c ">" then strip_tags false rest
      else if inside then strip_tags inside rest
      else String c (strip_tags inside rest)
  end.

(** Absolute links only, and a calendar that parses nothing. *)
Definition lib : PyLib :=
  {| urljoin := fun _ url => url;
     get_text := strip_tags false;
     reformat_date := fun _ _ => None |}.

(** A site whose pages never change: [pages] maps a URL to its parsed
    body; any other request fails. *)
Definition site {Page : Type} (pages : list (string * Page)) : World Page :=
  {| net := fun _ url =>
       match List.find (fun p => String.eqb (fst p) url) pages with
       | Some p => Body (snd p)
       | None => NetworkError
       end;
     uniform := fun _ => 2%Q;
     copyfile_ok := true |}.

Definition header (article_link : string) : option Ahrefs.LinkTag :=
  Some {| Ahrefs.href := Some article_link; Ahrefs.link_text := "Title" |}.

Definition listing (article_links : list string) (next : option string)
    : Ahrefs.Soup :=
  {| Ahrefs.article_headers := List.map header article_links;
     Ahrefs.pagination_container :=
       match next with
       | Some u => Some {| Ahrefs.current_page_span := None;
                           Ahrefs.last_link := Some (Some u) |}
       | None => None
       end;
     Ahrefs.content_container := None;
     Ahrefs.date_tag := None |}.

Definition article : Ahrefs.Soup :=
  {| Ahrefs.article_headers := [];
     Ahrefs.pagination_container := None;
     Ahrefs.content_container :=
       Some (Dom.Elem "div" [("class", "post-content")]
               [Dom.Elem "p" [] [Dom.Text "Hello"]]);
     Ahrefs.date_tag := Some "enero 1, 2025" |}.


Definition first_seed : string :=
  "https://ahrefs.com/blog/es/category/busqueda-con-ia/".

(** The first category lists six new articles, then a stored one. *)
Definition six_new : World Ahrefs.Soup :=
  site [(first_seed, listing ["a0"; "a1"; "a2"; "a3"; "a4"; "a5"; "old"] None);
        ("a0", article); ("a1", article); ("a2", article); ("a3", article);
        ("a4", article); ("a5", article); ("old", article)].

Definition old_record : Article :=
  {| category := "busqueda-con-ia"; link := "old"; titulo_entrada := "Old";
     url_thumbnail := ""; full_content := "<p>Old</p>";
     excerpt_content := "Old"; date := "01-01-2024";
     favicon_url := Ahrefs.FAVICON_URL |}.

Definition start (data : option Database) : State :=
  {| clock := 0; json_file := data; json_backup := None |}.

Definition one_stored : State :=
  start (Some {| titulo_sitio_web := "Ahrefs"; articles := [old_record] |}).


Definition offline : World Ahrefs.Soup := site [].


Definition second_seed : string :=
  "https://ahrefs.com/blog/es/category/product-blog/".

(** An article listed under two categories: [x] heads the first and
    comes second in the next, in front of [z], which is new. *)
Definition cross_listed : World Ahrefs.Soup :=
  site [(first_seed, listing ["x"; "old"] None);
        (second_seed, listing ["y"; "x"; "z"; "old"] None);
        ("x", article); ("y", article); ("z", article); ("old", article)].

(** A site on which the first three requests fail: [a0] is listed and
    cannot be fetched at first. *)
Definition recovering : World Ahrefs.Soup :=
  {| net := fun n url =>
       if String.eqb url first_seed then Body (listing ["a0"; "old"] None)
       else if String.eqb url "a0"
            then if n <? 4 then NetworkError else Body article
            else NetworkError;
     uniform := fun _ => 2%Q;
     copyfile_ok := true |}.

(** A listing page whose [a.last] link carries no [href]. *)
Definition broken_listing : Ahrefs.Soup :=
  {| Ahrefs.article_headers := [header "a0"];
     Ahrefs.pagination_container :=
       Some {| Ahrefs.current_page_span := None;
               Ahrefs.last_link := Some None |};
     Ahrefs.content_container := None;
     Ahrefs.date_tag := None |}.

(** The first category starts with such a page. *)
Definition broken_link : World Ahrefs.Soup :=
  site [(first_seed, broken_listing); ("a0", article)].

(** A site that is down, on which the draws of the random delay go
    3, 3, 1. *)
Definition jittery : World Ahrefs.Soup :=
  {| net := fun _ _ => NetworkError;
     uniform := fun n => if n <? 2 then 3%Q else 1%Q;
     copyfile_ok := true |}.

(** Python's [s * n]. *)
Fixpoint copies (n : nat) (s : string) : string :=
  match n with
  | 0 => ""
  | S n' => s +:+ copies n' s
  end.

(** Two texts of 200 characters: the 70th character of the first is a
    letter, that of the second a space. *)
Definition long_text : string := copies 49 "abc " +:+ "abcd".

Definition long_text_cut_at_a_space : string :=
  copies 39 "abcd " +:+ "abcde".

(** A Moz listing whose every page has a next page. *)
Definition moz_endless : World Moz.Soup :=
  {| net := fun _ _ =>
       Body {| Moz.article_cards := [];
               Moz.next_page_tag := Some (Some "/blog?page=next");
               Moz.content_container := None |};
     uniform := fun _ => 2%Q;
     copyfile_ok := true |}.



(** Every page links to a further page. *)
Definition endless : World Ahrefs.Soup :=
  {| net := fun _ _ => Body (listing [] (Some "again"));
     uniform := fun _ => 2%Q;
     copyfile_ok := true |}.

(** A "load more" button that never goes away; the browser state counts
    the clicks. *)
Definition sticky_button : Google.Selenium nat unit :=
  {| Google.get := fun _ _ => 0;
     Google.sleep := fun _ d => d;
     Google.find_elements := fun _ => Some [tt];
     Google.is_displayed := fun _ _ => Some true;
     Google.is_enabled := fun _ _ => Some true;
     Google.js_click := fun d _ => Some (S d);
     Google.page_source := fun _ => "" |}.

(** A page that grows at every scroll; the browser state is its
    height. *)
Definition bottomless : ElPlacer.Selenium nat :=
  {| ElPlacer.get := fun _ _ => 0;
     ElPlacer.scroll_height := fun d => d;
     ElPlacer.scroll_to_bottom := fun d => S d;
     ElPlacer.sleep := fun _ d => d;
     ElPlacer.page_source := fun _ => "" |}.

(** Markup in which no tag is allowed. *)
Definition wrappers_only : Dom.Node :=
  Dom.Elem "div" [("class", "post-content")]
    [Dom.Elem "div" [("id", "intro")] [Dom.Elem "span" [] [Dom.Text "hi"]];
     Dom.Text "bare text"].

(** An El Placer del SEO site with one article, and a card for it. *)
Definition el_placer_site : World ElPlacer.Soup :=
  site [("e0",
         {| ElPlacer.content_container :=
              Some (Dom.Elem "div" [("class", "entry-content")]
                      [Dom.Elem "p" [] [Dom.Text "Hola"]]) |})].

Definition el_placer_card : ElPlacer.Card :=
  {| ElPlacer.link_tag :=
       Some {| ElPlacer.href := Some "e0"; ElPlacer.text := " Hola " |};
     ElPlacer.thumb_container := None;
     ElPlacer.date_tag := None |}.

(** Launches of which the third ends with a non-zero status, or raises
    an exception that the launcher does not expect. *)
Definition third_fails (n : nat) (scraper_path : string) : RunAll.Outcome :=
  if n =? 2 then RunAll.CalledProcessError "" "Traceback"
  else RunAll.Completed "ok" "".

Definition third_raises (n : nat) (scraper_path : string) : RunAll.Outcome :=
  if n =? 2 then RunAll.Raised else RunAll.Completed "ok" "".

(** A Backlinko site: one category lists two articles, of which the
    second cannot be fetched; every other request fails. *)
Definition backlinko_card (article_link : string)
    : option Backlinko.LinkTag :=
  Some {| Backlinko.href := Some article_link;
          Backlinko.titulo_tag := Some "Title";
          Backlinko.thumb_tag := None |}.

Definition backlinko_site : World Backlinko.Soup :=
  site [("https://backlinko.com/blog/categories/seo",
         {| Backlinko.article_cards := [backlinko_card "b0"; backlinko_card "gone"];
            Backlinko.next_page_tag := None;
            Backlinko.content_container := None;
            Backlinko.date_tag := None |});
        ("b0",
         {| Backlinko.article_cards := [];
            Backlinko.next_page_tag := None;
            Backlinko.content_container :=
              Some (Dom.Elem "div" [("id", "content")]
                      [Dom.Elem "p" [] [Dom.Text "Hello"]]);
            Backlinko.date_tag := None |})].

(** A Moz site of the same shape. *)
Definition moz_card (article_link : string) : Moz.Card :=
  {| Moz.link_tag := Some {| Moz.href := Some article_link;
                             Moz.link_text := "Title" |};
     Moz.thumb_tag := None;
     Moz.excerpt_tag := None;
     Moz.date_tag := None |}.

Definition moz_site : World Moz.Soup :=
  site [("https://moz.com/blog/category/seo-ai",
         {| Moz.article_cards := [moz_card "m0"; moz_card "gone"];
            Moz.next_page_tag := None;
            Moz.content_container := None |});
        ("m0",
         {| Moz.article_cards := [];
            Moz.next_page_tag := None;
            Moz.content_container :=
              Some (Dom.Elem "div" [("class", "article-body")]
                      [Dom.Elem "p" [] [Dom.Text "Hello"]]) |})].

End Sample.

(** * Properties *)

(** ** Python strings *)
Section PyStrFacts.

Import PyStr.

Lemma str_append_cons (c : ascii) (s t : string) :
  String c s +:+ t = String c (s +:+ t).
Proof. reflexivity. Qed.

Lemma str_append_nil_r (s : string) : s +:+ "" = s.
Proof.
  induction s as [|c s IH]; [reflexivity |].
  now rewrite str_append_cons, IH.
Qed.


Lemma str_append_length (a b : string) :
  String.length (a +:+ b) = String.length a + String.length b.
Proof.
  induction a as [|x a IH]; [reflexivity |].
  rewrite str_append_cons. simpl. now rewrite IH.
Qed.

Lemma spacefree_app (a b : string) :
  spacefree (a +:+ b) = spacefree a && spacefree b.
Proof.
  induction a as [|x a IH]; [reflexivity |].
  rewrite str_append_cons. simpl. rewrite IH. now rewrite andb_assoc.
Qed.





Lemma split_from_words (s w : string) :
  spacefree w = true -> Forall word_ok (split_from w s).
Proof.
  revert w. induction s as [|c s IH]; intros w Hw; simpl.
  - destruct w; constructor; [split; [discriminate | assumption] | constructor].
  - destruct (isspace c) eqn:Hc.
    + destruct w.
      * now apply IH.
      * constructor; [split; [discriminate | assumption] | now apply IH].
    + apply IH. rewrite spacefree_app, Hw. simpl. now rewrite Hc.
Qed.



Lemma slice_to_prefix (n : nat) (s : string) : is_prefix (slice_to n s) s.
Proof.
  revert s. induction n as [|n IH]; intros s.
  - exists s. reflexivity.
  - destruct s as [|c s]; [exists ""; reflexivity |].
    destruct (IH s) as [rest Hrest]. exists rest. simpl.
    rewrite str_append_cons. now rewrite <- Hrest.
Qed.

End PyStrFacts.

(** ** Events *)
Section EventFacts.

Lemma requested_app (a b : list Event) :
  requested (a ++ b) = requested a ++ requested b.
Proof.
  induction a as [|e a IH]; [reflexivity |].
  destruct e; simpl; now rewrite IH.
Qed.

Lemma backoffs_app (a b : list Event) :
  backoffs (a ++ b) = backoffs a ++ backoffs b.
Proof.
  induction a as [|e a IH]; [reflexivity |].
  destruct e; simpl; now rewrite IH.
Qed.

Lemma saves_app (a b : list Event) : saves (a ++ b) = saves a ++ saves b.
Proof.
  induction a as [|e a IH]; [reflexivity |].
  destruct e; simpl; now rewrite IH.
Qed.

Lemma backups_app (a b : list Event) : backups (a ++ b) = backups a + backups b.
Proof.
  induction a as [|e a IH]; [reflexivity |].
  destruct e; simpl; now rewrite IH.
Qed.

Lemma pages_started_app (a b : list Event) :
  pages_started (a ++ b) = pages_started a + pages_started b.
Proof.
  induction a as [|e a IH]; [reflexivity |].
  destruct e; simpl; now rewrite IH.
Qed.

Lemma fetched_app (a b : list Event) : fetched (a ++ b) = fetched a ++ fetched b.
Proof.
  induction a as [|e a IH]; [reflexivity |].
  destruct e as [d | url [|] | | | |]; simpl; now rewrite IH.
Qed.

End EventFacts.

(** ** The fetcher *)
Section FetcherFacts.

Import Fetcher.

Context {Page : Type}.

(** The four ways a fetch can go, read off the three replies. *)
Lemma fetch_outcomes (w : World Page) (url : string) (s : State) :
  let u0 := uniform w (clock s) in
  let u1 := uniform w (S (clock s)) in
  let u2 := uniform w (S (S (clock s))) in
  _fetch_with_retries w url s =
  match net w (clock s) url with
  | Body page => (Some page, tick 1 s, [EDelay u0; EGet url true])
  | _ =>
      match net w (S (clock s)) url with
      | Body page =>
          (Some page, tick 2 s,
           [EDelay u0; EGet url false; ESleep 1; EDelay u1; EGet url true])
      | _ =>
          match net w (S (S (clock s))) url with
          | Body page =>
              (Some page, tick 3 s,
               [EDelay u0; EGet url false; ESleep 1;
                EDelay u1; EGet url false; ESleep 2; EDelay u2; EGet url true])
          | _ =>
              (None, tick 3 s,
               [EDelay u0; EGet url false; ESleep 1;
                EDelay u1; EGet url false; ESleep 2; EDelay u2; EGet url false])
          end
      end
  end.
Proof.
  unfold _fetch_with_retries. cbn [seq MAX_RETRIES try_attempts].
  unfold bind, emit, polite_delay, http_get, ret, tick.
  cbn [clock Nat.eqb Nat.add MAX_RETRIES].
  destruct (net w (clock s) url); cbn; try reflexivity;
    destruct (net w (S (clock s)) url); cbn; try reflexivity;
    destruct (net w (S (S (clock s))) url); cbn; reflexivity.
Qed.

Lemma fetch_frame (w : World Page) (url : string) (s s' : State)
    (r : option Page) (evs : list Event) :
  _fetch_with_retries w url s = (r, s', evs) ->
  json_file s' = json_file s /\ json_backup s' = json_backup s
  /\ clock s <= clock s'
  /\ saves evs = [] /\ backups evs = 0 /\ pages_started evs = 0
  /\ Forall (eq url) (requested evs).
Proof.
  rewrite fetch_outcomes. intros H.
  destruct (net w (clock s) url);
    [| destruct (net w (S (clock s)) url);
       [| destruct (net w (S (S (clock s))) url) ..] ..];
    injection H as <- <- <-; cbn; repeat split; try lia;
    repeat constructor.
Qed.

(** A request answered at once costs one attempt. *)
Lemma fetch_first_ok (w : World Page) (url : string) (s : State) (page : Page) :
  net w (clock s) url = Body page ->
  _fetch_with_retries w url s
  = (Some page, tick 1 s, [EDelay (uniform w (clock s)); EGet url true]).
Proof. intros H. rewrite fetch_outcomes, H. reflexivity. Qed.


End FetcherFacts.

(** ** The incremental update *)
Section EngineFacts.

Import Fetcher Engine.

Context {Soup Card : Type}.
Variable src : Source Soup Card.
Variable w : World Soup.

Lemma fetch_requested (url : string) (s s' : State) (r : option Soup) (evs : list Event) :
  _fetch_with_retries w url s = (r, s', evs) -> requested evs <> [] .
Proof.
  rewrite fetch_outcomes. intros H.
  destruct (net w (clock s) url);
    [| destruct (net w (S (clock s)) url);
       [| destruct (net w (S (S (clock s))) url) ..] ..];
    injection H as <- <- <-; discriminate.
Qed.

Lemma links_app (a b : list Article) : links (a ++ b) = links a ++ links b.
Proof. apply map_app. Qed.

Lemma links_cons (a : Article) (b : list Article) :
  links (a :: b) = link a :: links b.
Proof. reflexivity. Qed.

Lemma card_links_none (card : Card) (rest : list Card) :
  card_link src card = None -> card_links src (card :: rest) = card_links src rest.
Proof. intros H. unfold card_links. cbn. now rewrite H. Qed.

Lemma card_links_some (card : Card) (rest : list Card) (l : string) :
  card_link src card = Some l ->
  card_links src (card :: rest) = l :: card_links src rest.
Proof. intros H. unfold card_links. cbn. now rewrite H. Qed.

Lemma scan_cards_inv (category : string) (cs : list Card) :
  forall E new s E' new' s' evs,
  scan_cards src w category cs E new s = (E', new', s', evs) ->
  exists added,
    new' = new ++ added
    /\ E ⊆ E'
    /\ length added <= length cs
    /\ Forall (fun u => u ∈ card_links src cs) (requested evs)
    /\ json_file s' = json_file s /\ json_backup s' = json_backup s
    /\ saves evs = [] /\ backups evs = 0
    /\ (keeps_link src ->
        E' = E ∪ list_to_set (links added)
        /\ NoDup (links added)
        /\ (forall l, l ∈ links added -> l ∉ E)
        /\ sublist (links added) (card_links src cs)).
Proof.
  induction cs as [|card rest IH]; intros E new s E' new' s' evs H;
    cbn [scan_cards] in H.
  - unfold ret in H. simplify_eq. exists []. rewrite app_nil_r.
    repeat split; try done; try constructor; cbn; set_solver.
  - destruct (card_link src card) as [l|] eqn:Hl.
    2:{ rewrite (card_links_none _ _ Hl). apply IH in H.
        destruct H as (added & ? & ? & ? & ? & ? & ? & ? & ? & ?).
        exists added. split_and!; try done. cbn; lia. }
    rewrite (card_links_some _ _ _ Hl).
    destruct (decide (l ∈ E)) as [Hin|Hnin].
    { unfold ret in H. simplify_eq. exists []. rewrite app_nil_r.
      split_and!; try done; try (cbn; lia); try apply Forall_nil_2.
      intros _. split_and!; cbn; try apply NoDup_nil_2; try set_solver.
      apply sublist_nil_l. }
    unfold bind in H.
    destruct (_fetch_with_retries w l s) as [[r s1] e1] eqn:Ef.
    pose proof (fetch_frame _ _ _ _ _ _ Ef) as (F1 & F2 & F3 & F4 & F5 & F6 & F7).
    destruct r as [article_soup|].
    + destruct (scan_cards src w category rest _ _ s1) as [[[E2 n2] s2] e2] eqn:Es.
      simplify_eq. apply IH in Es.
      destruct Es as (added & -> & Hsub & Hlen & Hreq & G1 & G2 & G3 & G4 & Hk).
      exists (new_article_data src category l card article_soup :: added).
      rewrite <- app_assoc. cbn [app].
      split_and!.
      * done.
      * set_solver.
      * cbn; lia.
      * rewrite requested_app. apply Forall_app. split.
        -- eapply Forall_impl; [exact F7 |]. intros u <-. set_solver.
        -- eapply Forall_impl; [exact Hreq |]. intros u Hu. cbn in *. set_solver.
      * congruence.
      * congruence.
      * rewrite saves_app, F4, G3. reflexivity.
      * rewrite backups_app, F5, G4. reflexivity.
      * intros H. destruct (Hk H) as (-> & Hnd & Hfresh & Hsl).
        rewrite links_cons, (H category l card article_soup). split_and!.
        -- rewrite list_to_set_cons. set_solver.
        -- constructor; [| done]. intros Hl2. apply Hfresh in Hl2. set_solver.
        -- intros l0 Hl0.
           apply elem_of_cons in Hl0 as [->|Hl0]; [done |].
           apply Hfresh in Hl0. set_solver.
        -- now apply sublist_skip.
    + destruct (scan_cards src w category rest _ _ s1) as [[[E2 n2] s2] e2] eqn:Es.
      simplify_eq. apply IH in Es.
      destruct Es as (added & -> & Hsub & Hlen & Hreq & G1 & G2 & G3 & G4 & Hk).
      exists added. split_and!.
      * done.
      * done.
      * cbn; lia.
      * rewrite requested_app. apply Forall_app. split.
        -- eapply Forall_impl; [exact F7 |]. intros u <-. set_solver.
        -- eapply Forall_impl; [exact Hreq |]. intros u Hu. cbn in *. set_solver.
      * congruence.
      * congruence.
      * rewrite saves_app, F4, G3. reflexivity.
      * rewrite backups_app, F5, G4. reflexivity.
      * intros H. destruct (Hk H) as (-> & Hnd & Hfresh & Hsl). split_and!; try done.
        now apply sublist_cons.
Qed.

Lemma update_category_inv (category url : string) :
  forall E new s E' new' s' evs,
  update_category src w category url E new s = (E', new', s', evs) ->
  exists r s1 e1 e2 added,
    _fetch_with_retries w url s = (r, s1, e1)
    /\ evs = e1 ++ e2
    /\ new' = new ++ added
    /\ E ⊆ E'
    /\ json_file s' = json_file s /\ json_backup s' = json_backup s
    /\ saves evs = [] /\ backups evs = 0
    /\ let inspected :=
         match r with
         | Some soup => take (window src) (cards src soup)
         | None => []
         end in
       length added <= length inspected
       /\ Forall (fun u => u ∈ card_links src inspected) (requested e2)
       /\ (keeps_link src ->
           E' = E ∪ list_to_set (links added)
           /\ NoDup (links added)
           /\ (forall l, l ∈ links added -> l ∉ E)
           /\ sublist (links added) (card_links src inspected)).
Proof.
  intros E new s E' new' s' evs H. unfold update_category, bind in H.
  destruct (_fetch_with_retries w url s) as [[r s1] e1] eqn:Ef.
  pose proof (fetch_frame _ _ _ _ _ _ Ef) as (F1 & F2 & F3 & F4 & F5 & F6 & F7).
  exists r, s1, e1.
  assert (Hnothing : forall inspected : list Card,
    length (@nil Article) <= length inspected
    /\ Forall (fun u => u ∈ card_links src inspected) (requested [])
    /\ (keeps_link src ->
        E = E ∪ list_to_set (links [])
        /\ NoDup (links [])
        /\ (forall l, l ∈ links [] -> l ∉ E)
        /\ sublist (links []) (card_links src inspected))).
  { intros inspected. split_and!; [cbn; lia | apply Forall_nil_2 |].
    intros _. split_and!; cbn; try apply NoDup_nil_2; try set_solver.
    apply sublist_nil_l. }
  destruct r as [soup|]; [| unfold ret in H].
  2:{ simplify_eq. exists [], []. rewrite !app_nil_r. split_and!; try done;
      apply Hnothing. }
  destruct (cards src soup) as [|c0 cs0] eqn:Hc; [unfold ret in H |].
  { simplify_eq. exists [], []. rewrite !app_nil_r. split_and!; try done;
    apply Hnothing. }
  destruct (scan_cards src w category _ E new s1) as [[[E2 n2] s2] e2] eqn:Es.
  simplify_eq. apply scan_cards_inv in Es.
  destruct Es as (added & -> & Hsub & Hlen & Hreq & G1 & G2 & G3 & G4 & Hk).
  exists e2, added. split_and!; try done; try congruence.
  - rewrite saves_app, F4, G3. reflexivity.
  - rewrite backups_app, F5, G4. reflexivity.
Qed.

Lemma update_categories_inv (seeds : list (string * string)) :
  forall E new s E' new' s' evs,
  update_categories src w seeds E new s = (E', new', s', evs) ->
  exists added,
    new' = new ++ added
    /\ E ⊆ E'
    /\ json_file s' = json_file s /\ json_backup s' = json_backup s
    /\ saves evs = [] /\ backups evs = 0
    /\ (keeps_link src ->
        E' = E ∪ list_to_set (links added)
        /\ NoDup (links added)
        /\ (forall l, l ∈ links added -> l ∉ E)).
Proof.
  induction seeds as [|[category url] rest IH]; intros E new s E' new' s' evs H;
    cbn [update_categories] in H.
  - unfold ret in H. simplify_eq. exists []. rewrite app_nil_r.
    split_and!; try done. intros _. cbn.
    split_and!; try apply NoDup_nil_2; set_solver.
  - unfold bind in H.
    destruct (update_category src w category url E new s)
      as [[[E1 n1] s1] e1] eqn:E1c.
    destruct (update_categories src w rest E1 n1 s1) as [[[E2 n2] s2] e2] eqn:E2c.
    simplify_eq.
    apply update_category_inv in E1c.
    destruct E1c as (r & s0 & e0 & e0' & added1 & _ & -> & -> & Hs1 & F1 & F2 & F3 & F4
                     & _ & _ & Hk1).
    apply IH in E2c.
    destruct E2c as (added2 & -> & Hs2 & G1 & G2 & G3 & G4 & Hk2).
    exists (added1 ++ added2). rewrite app_assoc.
    split_and!; try done; try congruence.
    + set_solver.
    + rewrite saves_app, F3, G3. reflexivity.
    + rewrite backups_app, F4, G4. reflexivity.
    + intros Hl. destruct (Hk1 Hl) as (-> & Hn1 & Hf1 & _).
      destruct (Hk2 Hl) as (-> & Hn2 & Hf2).
      rewrite links_app. split_and!.
      * rewrite list_to_set_app_L. set_solver.
      * apply NoDup_app. split_and!; try done.
        intros l Hl1 Hl2. apply Hf2 in Hl2. set_solver.
      * intros l Hl1. apply elem_of_app in Hl1 as [Hl1|Hl1]; [auto |].
        apply Hf2 in Hl1. set_solver.
Qed.

Lemma run_update_spec (s s' : State) (new : list Article) (evs : list Event) :
  run_update_scrape src w s = (new, s', evs) ->
  (new = [] -> json_file s' = json_file s /\ saves evs = [])
  /\ (new <> [] ->
      json_file s' = Some {| titulo_sitio_web := stored_title src s;
                             articles := new ++ stored s |}
      /\ saves evs = [{| titulo_sitio_web := stored_title src s;
                         articles := new ++ stored s |}])
  /\ json_backup s' =
     match json_file s with
     | Some data => if copyfile_ok w then Some data else json_backup s
     | None => json_backup s
     end
  /\ backups evs =
     match json_file s with
     | Some _ => if copyfile_ok w then 1 else 0
     | None => 0
     end
  /\ (keeps_link src ->
      NoDup (links new) /\ forall l, l ∈ links new -> l ∉ links (stored s)).
Proof.
  unfold run_update_scrape, bind, stored, stored_title. intros H.
  destruct (_backup_database w s) as [[[] s0] e0] eqn:Eb.
  assert (Hb : json_file s0 = json_file s
               /\ json_backup s0 =
                  match json_file s with
                  | Some data => if copyfile_ok w then Some data else json_backup s
                  | None => json_backup s
                  end
               /\ saves e0 = []
               /\ backups e0 =
                  match json_file s with
                  | Some _ => if copyfile_ok w then 1 else 0
                  | None => 0
                  end).
  { unfold _backup_database in Eb.
    destruct (json_file s) eqn:Ej; [destruct (copyfile_ok w) |];
      simplify_eq; cbn; rewrite ?Ej; done. }
  destruct Hb as (B1 & B2 & B3 & B4).
  unfold _load_existing_data in H. cbn beta iota in H.
  rewrite B1 in H.
  match type of H with
  | context [update_categories src w ?sd ?E0 [] s0] =>
      destruct (update_categories src w sd E0 [] s0) as [[[E1 n1] s1] e1] eqn:Eu
  end.
  apply update_categories_inv in Eu.
  destruct Eu as (added & Hadd & _ & F1 & F2 & F3 & F4 & Hk).
  cbn [app] in Hadd. subst n1.
  assert (Hfresh : keeps_link src ->
            NoDup (links added)
            /\ forall l, l ∈ links added ->
                 l ∉ links match json_file s with
                           | Some data => articles data
                           | None => []
                           end).
  { intros Hl. destruct (Hk Hl) as (_ & Hn & Hf). split; [done |].
    intros l Hin Hold. apply (Hf l Hin). apply elem_of_list_to_set.
    destruct (json_file s); exact Hold. }
  destruct added as [|a added].
  - unfold ret in H. simplify_eq.
    split_and!; try done; try congruence.
    + intros _. split; [congruence |].
      rewrite !saves_app, B3, F3. reflexivity.
    + rewrite !backups_app, B4, F4. cbn. lia.
  - unfold _save_data, ret in H. cbn in H. simplify_eq. cbn [json_file json_backup].
    split_and!; try done; try congruence.
    + intros _. split.
      * destruct (json_file s); reflexivity.
      * rewrite !saves_app, B3, F3. cbn.
        destruct (json_file s); reflexivity.
    + rewrite !backups_app, B4, F4. cbn. lia.
Qed.


(** A fetch that finds its page asks for that page alone, and is
    answered once. *)
Lemma fetch_some_events (url : string) (s s' : State) (page : Soup)
    (evs : list Event) :
  _fetch_with_retries w url s = (Some page, s', evs) ->
  fetched evs = [url] /\ Forall (eq url) (requested evs).
Proof.
  rewrite fetch_outcomes. intros H.
  destruct (net w (clock s) url);
    [| destruct (net w (S (clock s)) url);
       [| destruct (net w (S (S (clock s))) url) ..] ..];
    simplify_eq; cbn; split; try reflexivity; repeat constructor.
Qed.



Lemma update_category_unfold (category url : string) (E : gset string)
    (new : list Article) (s s1 : State) (soup : Soup) (e1 : list Event) :
  _fetch_with_retries w url s = (Some soup, s1, e1) ->
  update_category src w category url E new s =
  let '(r, s2, e2) :=
    scan_cards src w category (take (window src) (cards src soup)) E new s1 in
  (r, s2, e1 ++ e2).
Proof.
  intros Hf. unfold update_category, bind. rewrite Hf.
  destruct (cards src soup); [| reflexivity].
  now rewrite take_nil.
Qed.



(** *** Unchanged upstream *)





Lemma backup_frame (s s0 : State) (e0 : list Event) :
  _backup_database w s = (tt, s0, e0) -> json_file s0 = json_file s.
Proof.
  unfold _backup_database.
  destruct (json_file s) eqn:Ej; [destruct (copyfile_ok w) |];
    intros H; simplify_eq; cbn; congruence.
Qed.

Lemma existing_articles (s s0 : State) :
  json_file s0 = json_file s ->
  articles (fst (fst (_load_existing_data src s0))) = stored s.
Proof.
  intros H. unfold _load_existing_data, stored. cbn. rewrite H.
  now destruct (json_file s).
Qed.


Lemma run_update_nothing (s : State) :
  (forall s0, exists s1 e1,
     update_categories src w (seed_urls src)
       (list_to_set (links (stored s))) [] s0
     = (list_to_set (links (stored s)), [], s1, e1)) ->
  exists s' evs, run_update_scrape src w s = ([], s', evs).
Proof.
  intros Hscan. unfold run_update_scrape, bind.
  destruct (_backup_database w s) as [[[] s0] e0] eqn:Eb.
  pose proof (backup_frame _ _ _ Eb) as B1.
  pose proof (existing_articles s s0 B1) as Hex.
  unfold _load_existing_data in *. cbn beta iota. cbn [fst] in Hex.
  rewrite Hex. destruct (Hscan s0) as (s1 & e1 & ->). unfold ret. eauto.
Qed.

End EngineFacts.

(** The three cited sources build their records for the link they were
    given, and inspect five cards. *)
Lemma ahrefs_keeps_link (lib : PyLib) : keeps_link (Ahrefs.source lib).
Proof. intros category article_link card soup. reflexivity. Qed.

Lemma backlinko_keeps_link (lib : PyLib) : keeps_link (Backlinko.source lib).
Proof. intros category article_link card soup. reflexivity. Qed.

Lemma moz_keeps_link (lib : PyLib) : keeps_link (Moz.source lib).
Proof. intros category article_link card soup. reflexivity. Qed.

Lemma update_windows (lib : PyLib) :
  Engine.window (Ahrefs.source lib) = 5
  /\ Engine.window (Backlinko.source lib) = 5
  /\ Engine.window (Moz.source lib) = 5.
Proof. repeat split. Qed.

Section UpdateTheorems.

Import Fetcher Engine.

Context {Soup Card : Type}.
Variable src : Source Soup Card.
Variable w : World Soup.

(** C10. In an update run of a source that scans [article_cards[:5]]
    (Ahrefs, Backlinko and Moz do), a category is examined through the
    first five cards of its listing page and no further: after the
    listing page has been fetched, every request asks for the link of one
    of these five cards, at most five records are added, and their links
    are, in page order, among the links of these five cards.  A card at
    position six or later is thus neither fetched nor collected, whatever
    the store holds and even when no known link was met. *)
Theorem C10_update_inspects_first_five
    (category url : string) (E : gset string) (new : list Article) (s : State) :
  window src = 5 ->
  keeps_link src ->
  let '(r, _, listing_evs) := _fetch_with_retries w url s in
  let inspected :=
    match r with
    | Some soup => take 5 (cards src soup)
    | None => []
    end in
  let '(_, new', _, evs) := update_category src w category url E new s in
  exists article_evs added,
    evs = listing_evs ++ article_evs
    /\ new' = new ++ added
    /\ length added <= 5
    /\ Forall (fun u => u ∈ card_links src inspected) (requested article_evs)
    /\ sublist (links added) (card_links src inspected).
Proof.
  intros Hwin Hk.
  destruct (update_category src w category url E new s)
    as [[[E' new'] s'] evs] eqn:Hu.
  apply update_category_inv in Hu.
  destruct Hu as (r & s1 & e1 & e2 & added & -> & -> & -> & _ & _ & _ & _ & _
                  & Hlen & Hreq & Hkk).
  rewrite Hwin in *.
  exists e2, added. split_and!; try done.
  - etransitivity; [exact Hlen |]. destruct r; [| cbn; lia].
    rewrite length_take. lia.
  - now destruct (Hkk Hk) as (_ & _ & _ & ?).
Qed.


End UpdateTheorems.

Section Concrete.
Import Fetcher Engine.

(** Six new entries in front of a stored one: the scan of the first
    Ahrefs category stays within the first five. *)
Lemma C10_witness_six_new_entries :
  window (Ahrefs.source Sample.lib) = 5
  /\ keeps_link (Ahrefs.source Sample.lib)
  /\ let src := Ahrefs.source Sample.lib in
     let '(r, _, listing_evs) :=
       _fetch_with_retries Sample.six_new Sample.first_seed (Sample.start None) in
     let inspected :=
       match r with
       | Some soup => take 5 (cards src soup)
       | None => []
       end in
     let '(_, new', _, evs) :=
       update_category src Sample.six_new "busqueda-con-ia" Sample.first_seed
         {["old"]} [] (Sample.start None) in
     exists article_evs added,
       evs = listing_evs ++ article_evs
       /\ new' = [] ++ added
       /\ length added <= 5
       /\ Forall (fun u => u ∈ card_links src inspected) (requested article_evs)
       /\ sublist (links added) (card_links src inspected).
Proof.
  split; [reflexivity |]. split; [apply ahrefs_keeps_link |].
  apply (C10_update_inspects_first_five (Ahrefs.source Sample.lib)
           Sample.six_new "busqueda-con-ia" Sample.first_seed {["old"]} []
           (Sample.start None));
    [reflexivity | intros category article_link card soup; reflexivity].
Defined.

(** The sixth entry, [a5], is neither requested nor collected. *)
Example update_skips_the_sixth_entry :
  let '(_, new', _, evs) :=
    update_category (Ahrefs.source Sample.lib) Sample.six_new
      "busqueda-con-ia" Sample.first_seed {["old"]} [] (Sample.start None) in
  links new' = ["a0"; "a1"; "a2"; "a3"; "a4"]
  /\ requested evs = [Sample.first_seed; "a0"; "a1"; "a2"; "a3"; "a4"].
Proof. vm_compute. split; reflexivity. Qed.



(** An article listed under two categories stops the scan of the second
    one: [x] is collected under the first category, so that under the
    second only [y] is collected, and [z], which stands behind [x], is
    never asked for although the persisted collection does not hold
    it. *)
Example cross_listed_entry_stops_the_scan :
  let '(new, _, evs) :=
    run_update_scrape (Ahrefs.source Sample.lib) Sample.cross_listed
      Sample.one_stored in
  links new = ["x"; "y"]
  /\ fetched evs = [Sample.first_seed; "x"; Sample.second_seed; "y"]
  /\ existsb (String.eqb "z") (requested evs) = false.
Proof. vm_compute. repeat split. Qed.

End Concrete.

Section RunTheorems.

Import Fetcher Engine.

Context {Soup Card : Type}.
Variable src : Source Soup Card.
Variable w : World Soup.




End RunTheorems.

Section AhrefsInitial.

Import Fetcher Ahrefs.

Variable lib : PyLib.
Variable w : World Soup.

Lemma adds_refl (P : gset string) (A : list Article) (s : State) :
  adds P A s P A s [].
Proof.
  exists []. rewrite app_nil_r. split_and!; try done.
  - apply NoDup_nil_2.
  - intros l Hl. cbn in Hl. set_solver.
Qed.

Lemma adds_trans P A s P1 A1 s1 e1 P2 A2 s2 e2 :
  adds P A s P1 A1 s1 e1 -> adds P1 A1 s1 P2 A2 s2 e2 ->
  adds P A s P2 A2 s2 (e1 ++ e2).
Proof.
  intros (a1 & -> & Hs1 & Hn1 & Hf1 & F1 & F2 & F3 & F4)
         (a2 & -> & Hs2 & Hn2 & Hf2 & G1 & G2 & G3 & G4).
  exists (a1 ++ a2). rewrite app_assoc, links_app, requested_app.
  split_and!; try done; try congruence.
  - set_solver.
  - apply NoDup_app. split_and!; try done.
    intros l Hl1 Hl2. destruct (Hf1 l Hl1) as (_ & ? & _).
    destruct (Hf2 l Hl2) as (? & _). done.
  - intros l Hl. apply elem_of_app in Hl as [Hl|Hl].
    + destruct (Hf1 l Hl) as (? & ? & ?). split_and!; set_solver.
    + destruct (Hf2 l Hl) as (? & ? & ?). split_and!; set_solver.
  - rewrite saves_app, F3, G3. reflexivity.
  - rewrite backups_app, F4, G4. reflexivity.
Qed.

Lemma fetch_asks (url : string) (s s' : State) (r : option Soup)
    (evs : list Event) :
  _fetch_with_retries w url s = (r, s', evs) -> url ∈ requested evs.
Proof.
  rewrite fetch_outcomes. intros H.
  destruct (net w (clock s) url);
    [| destruct (net w (S (clock s)) url);
       [| destruct (net w (S (S (clock s))) url) ..] ..];
    injection H as <- <- <-; cbn; set_solver.
Qed.

Lemma adds_skip_fetch P A s P' A' s' e2 (l : string) (s0 : State)
    (r : option Soup) (e1 : list Event) :
  _fetch_with_retries w l s0 = (r, s, e1) ->
  adds ({[l]} ∪ P) A s P' A' s' e2 ->
  adds P A s0 P' A' s' (e1 ++ e2).
Proof.
  intros Hf (a & -> & Hs & Hn & Hfr & G1 & G2 & G3 & G4).
  pose proof (fetch_frame _ _ _ _ _ _ Hf) as (F1 & F2 & _ & F3 & F4 & _).
  exists a. rewrite requested_app. split_and!; try done; try congruence.
  - set_solver.
  - intros l0 Hl0. destruct (Hfr l0 Hl0) as (? & ? & ?). split_and!; set_solver.
  - rewrite saves_app, F3, G3. reflexivity.
  - rewrite backups_app, F4, G4. reflexivity.
Qed.

Lemma scrape_headers_adds (category : string) (headers : list (option LinkTag)) :
  forall P A s P' A' s' evs,
  scrape_headers lib w category headers P A s = (P', A', s', evs) ->
  adds P A s P' A' s' evs.
Proof.
  induction headers as [|header rest IH]; intros P A s P' A' s' evs H;
    cbn [scrape_headers] in H.
  - unfold ret in H. simplify_eq. apply adds_refl.
  - destruct (usable_link header) as [l|] eqn:Hl; [| now apply IH].
    destruct (decide (l ∈ P)) as [Hin|Hnin]; [now apply IH |].
    unfold bind in H.
    destruct (_fetch_with_retries w l s) as [[r s1] e1] eqn:Ef.
    destruct r as [article_soup|].
    + destruct (scrape_headers lib w category rest _ _ s1)
        as [[[P2 A2] s2] e2] eqn:Es.
      simplify_eq. apply IH in Es.
      destruct Es as (a & -> & Hs & Hn & Hfr & G1 & G2 & G3 & G4).
      pose proof (fetch_frame _ _ _ _ _ _ Ef) as (F1 & F2 & _ & F3 & F4 & _).
      pose proof (fetch_asks _ _ _ _ _ Ef) as Hasked.
      exists (article_data lib category l header article_soup :: a).
      rewrite <- app_assoc, requested_app. cbn [app links List.map link article_data].
      split_and!; try done; try congruence.
      * set_solver.
      * apply NoDup_cons. split; [| done].
        intros Hl2. destruct (Hfr l Hl2) as (? & _). set_solver.
      * intros l0 Hl0. apply elem_of_cons in Hl0 as [->|Hl0].
        -- split_and!; set_solver.
        -- destruct (Hfr l0 Hl0) as (? & ? & ?). split_and!; set_solver.
      * rewrite saves_app, F3, G3. reflexivity.
      * rewrite backups_app, F4, G4. reflexivity.
    + destruct (scrape_headers lib w category rest _ _ s1)
        as [[[P2 A2] s2] e2] eqn:Es.
      simplify_eq. apply IH in Es. eapply adds_skip_fetch; eauto.
Qed.

Lemma adds_after_fetch P A s P' A' s' e2 (url : string) (s0 : State)
    (r : option Soup) (e1 : list Event) :
  _fetch_with_retries w url s0 = (r, s, e1) ->
  adds P A s P' A' s' e2 ->
  adds P A s0 P' A' s' (e1 ++ e2).
Proof.
  intros Hf Ha.
  pose proof (fetch_frame _ _ _ _ _ _ Hf) as (F1 & F2 & _ & F3 & F4 & _).
  eapply (adds_trans P A s0 P A s e1); [| exact Ha].
  exists []. rewrite app_nil_r. split_and!; try done.
  - apply NoDup_nil_2.
  - intros l Hl. cbn in Hl. set_solver.
Qed.

Lemma scrape_pages_adds (fuel : nat) (category : string) :
  forall current_url P A s P' A' s' evs,
  scrape_pages lib w fuel category current_url P A s = (Returned (P', A'), s', evs) ->
  adds P A s P' A' s' evs.
Proof.
  induction fuel as [|fuel IH]; intros current_url P A s P' A' s' evs H;
    cbn [scrape_pages] in H;
    (destruct (String.eqb current_url "");
     [unfold ret in H; simplify_eq; apply adds_refl |]).
  - discriminate.
  - unfold bind in H.
    destruct (_fetch_with_retries w current_url s) as [[r s1] e1] eqn:Ef.
    destruct r as [soup|].
    2:{ unfold ret in H. simplify_eq. eapply adds_after_fetch; [exact Ef |].
        apply adds_refl. }
    destruct (scrape_headers lib w category (article_headers soup) P A s1)
      as [[[P1 A1] s2] e2] eqn:Eh.
    apply scrape_headers_adds in Eh.
    destruct (next_url lib soup) as [next| |].
    + destruct (scrape_pages lib w fuel category next P1 A1 s2)
        as [[o s3] e3] eqn:Ep.
      simplify_eq. apply IH in Ep.
      eapply adds_after_fetch; [exact Ef |]. eapply adds_trans; eauto.
    + unfold ret in H. simplify_eq. rewrite app_nil_r.
      eapply adds_after_fetch; eauto.
    + unfold ret in H. simplify_eq.
Qed.




(** Every link of a listing page is processed: it was processed before,
    or its article page is requested now. *)
Lemma scrape_headers_covers (category : string) (headers : list (option LinkTag)) :
  forall P A s P' A' s' evs,
  scrape_headers lib w category headers P A s = (P', A', s', evs) ->
  forall l, l ∈ omap usable_link headers ->
  l ∈ P' /\ (l ∈ P \/ l ∈ requested evs).
Proof.
  induction headers as [|header rest IH]; intros P A s P' A' s' evs H l Hl;
    cbn [scrape_headers] in H.
  - cbn in Hl. set_solver.
  - cbn [omap list_omap] in Hl.
    destruct (usable_link header) as [l0|] eqn:Hl0; [| eauto].
    apply elem_of_cons in Hl as [-> | Hl].
    + destruct (decide (l0 ∈ P)) as [Hin|Hnin].
      * apply scrape_headers_adds in H. destruct H as (_ & _ & Hs & _).
        split; [set_solver | now left].
      * unfold bind in H.
        destruct (_fetch_with_retries w l0 s) as [[r s1] e1] eqn:Ef.
        pose proof (fetch_asks _ _ _ _ _ Ef) as Hasked.
        destruct r;
          destruct (scrape_headers lib w category rest _ _ s1)
            as [[[P2 A2] s2] e2] eqn:Es;
          simplify_eq; apply scrape_headers_adds in Es;
          destruct Es as (_ & _ & Hs & _);
          (split; [set_solver | right; rewrite requested_app; set_solver]).
    + destruct (decide (l0 ∈ P)) as [Hin|Hnin]; [eauto |].
      unfold bind in H.
      destruct (_fetch_with_retries w l0 s) as [[r s1] e1] eqn:Ef.
      destruct r;
        destruct (scrape_headers lib w category rest _ _ s1)
          as [[[P2 A2] s2] e2] eqn:Es;
        simplify_eq; destruct (IH _ _ _ _ _ _ _ Es l Hl) as [H1 H2];
        (split; [done |]); rewrite requested_app;
        destruct (decide (l = l0)) as [-> | Hne];
        try (right; apply elem_of_app; left;
             exact (fetch_asks _ _ _ _ _ Ef));
        destruct H2 as [H2|H2]; set_solver.
Qed.

Lemma fetch_some_body (url : string) (s s' : State) (page : Soup)
    (evs : list Event) :
  _fetch_with_retries w url s = (Some page, s', evs) ->
  exists n, net w n url = Body page.
Proof.
  rewrite fetch_outcomes. intros H.
  destruct (net w (clock s) url) eqn:E0;
    [| destruct (net w (S (clock s)) url) eqn:E1;
       [| destruct (net w (S (S (clock s))) url) eqn:E2 ..] ..];
    simplify_eq; eauto.
Qed.

Ltac ended :=
  unfold ret; eexists _, _, _; split_and!; [reflexivity | discriminate | eauto].

(** With next-page links that go down along a rank, the loop comes to
    its end: it returns, unless a next-page link has no [href]. *)
Lemma scrape_pages_returns (rank : string -> nat) (category : string) :
  descending lib w rank ->
  forall fuel current_url P A s,
  rank current_url < fuel ->
  exists e s' evs,
    scrape_pages lib w fuel category current_url P A s = (e, s', evs)
    /\ e <> Unfinished
    /\ (well_linked lib w -> exists r, e = Returned r).
Proof.
  intros Hd. induction fuel as [|fuel IH]; intros current_url P A s Hr; [lia |].
  cbn [scrape_pages].
  destruct (String.eqb current_url ""); [ended |].
  unfold bind.
  destruct (_fetch_with_retries w current_url s) as [[r s1] e1] eqn:Ef.
  destruct r as [soup|]; [| ended].
  destruct (scrape_headers lib w category (article_headers soup) P A s1)
    as [[[P1 A1] s2] e2] eqn:Eh.
  destruct (fetch_some_body _ _ _ _ _ Ef) as [n Hbody].
  destruct (next_url lib soup) as [next| |] eqn:Hn.
  - pose proof (Hd _ _ _ _ Hbody Hn) as Hlt.
    destruct (IH next P1 A1 s2 ltac:(lia)) as (e & s3 & e3 & -> & Hne & Hw).
    eexists _, _, _. split_and!; [reflexivity | done | done].
  - ended.
  - unfold ret. eexists _, _, _. split_and!; [reflexivity | discriminate |].
    intros Hw. exfalso. exact (Hw _ _ _ Hbody Hn).
Qed.



(** *** The seed pages are asked for, in order *)




(** *** The traversal, on a site whose replies depend on the URL alone *)











End AhrefsInitial.

Section Pagination.

Import Fetcher.

(** Moz *)
Lemma moz_scrape_cards_pages (lib : PyLib) (w : World Moz.Soup)
    (category : string) (cards : list Moz.Card) :
  forall P A s P' A' s' evs,
  Moz.scrape_cards lib w category cards P A s = (P', A', s', evs) ->
  pages_started evs = 0.
Proof.
  induction cards as [|card rest IH]; intros P A s P' A' s' evs H;
    cbn [Moz.scrape_cards] in H.
  - unfold ret in H. now simplify_eq.
  - destruct (Moz.card_link lib card) as [l|]; [| eauto].
    destruct (decide (l ∈ P)); [eauto |].
    unfold bind in H.
    destruct (_fetch_with_retries w l s) as [[r s1] e1] eqn:Ef.
    pose proof (fetch_frame _ _ _ _ _ _ Ef) as (_ & _ & _ & _ & _ & F6 & _).
    destruct r;
      destruct (Moz.scrape_cards lib w category rest _ _ s1)
        as [[[P2 A2] s2] e2] eqn:Es;
      simplify_eq; rewrite pages_started_app, F6; eauto.
Qed.

Lemma moz_scrape_pages_bounded (lib : PyLib) (w : World Moz.Soup)
    (category : string) :
  forall fuel current_url page_count P A s,
  Moz.MAX_PAGES_TO_SCRAPE + 1 - page_count <= fuel ->
  exists r s' evs,
    Moz.scrape_pages lib w fuel category current_url page_count P A s
    = (Some r, s', evs)
    /\ pages_started evs <= Moz.MAX_PAGES_TO_SCRAPE + 1 - page_count.
Proof.
  unfold Moz.MAX_PAGES_TO_SCRAPE.
  induction fuel as [|fuel IH]; intros current_url page_count P A s Hf;
    cbn [Moz.scrape_pages]; unfold Moz.MAX_PAGES_TO_SCRAPE;
    destruct (String.eqb current_url "" || (5 <? page_count))
      eqn:Hstop;
    try (unfold ret; eexists _, _, _; split; [reflexivity | cbn; lia]);
    apply orb_false_iff in Hstop as [_ Hp]; apply Nat.ltb_ge in Hp; [lia |].
  unfold bind, emit.
  destruct (_fetch_with_retries w current_url s) as [[r s1] e1] eqn:Ef.
  pose proof (fetch_frame _ _ _ _ _ _ Ef) as (_ & _ & _ & _ & _ & F6 & _).
  destruct r as [soup|].
  2:{ unfold ret. eexists _, _, _. split; [reflexivity |].
      rewrite !pages_started_app, F6. cbn. lia. }
  destruct (Moz.scrape_cards lib w category (Moz.article_cards soup) P A s1)
    as [[[P1 A1] s2] e2] eqn:Ec.
  pose proof (moz_scrape_cards_pages _ _ _ _ _ _ _ _ _ _ _ Ec) as Hc.
  destruct (IH (Moz.next_url lib soup) (page_count + 1) P1 A1 s2 ltac:(lia))
    as (r & s3 & e3 & -> & Hb).
  eexists _, _, _. split; [reflexivity |].
  rewrite !pages_started_app, F6, Hc. cbn. lia.
Qed.

Lemma load_more_stops {Driver Button : Type}
    (selenium : Google.Selenium Driver Button) (n : nat) :
  forall d fuel,
  (forall i, i < n ->
     snd (Google.poll_cycle _ _ selenium (after_cycles selenium i d)) = Some true) ->
  snd (Google.poll_cycle _ _ selenium (after_cycles selenium n d)) <> Some true ->
  n < fuel ->
  Google.load_more_loop _ _ selenium fuel d
  = Some (fst (Google.poll_cycle _ _ selenium (after_cycles selenium n d))).
Proof.
  induction n as [|n IH]; intros d fuel Hbefore Hstop Hfuel;
    (destruct fuel as [|fuel]; [lia |]); cbn [Google.load_more_loop].
  - cbn [after_cycles] in Hstop |- *.
    destruct (Google.poll_cycle _ _ selenium d) as [d' [[|]|]]; cbn in *;
      first [congruence | reflexivity].
  - pose proof (Hbefore 0 ltac:(lia)) as H0. cbn [after_cycles] in H0.
    cbn [after_cycles] in Hstop |- *.
    destruct (Google.poll_cycle _ _ selenium d) as [d' o] eqn:Hc.
    cbn [fst snd] in *. subst o.
    apply IH; [| exact Hstop | lia].
    intros i Hi. specialize (Hbefore (S i) ltac:(lia)). cbn [after_cycles] in Hbefore.
    now rewrite Hc in Hbefore.
Qed.

Lemma scroll_stops {Driver : Type} (selenium : ElPlacer.Selenium Driver)
    (n : nat) :
  forall d fuel,
  (forall i, i < n ->
     ElPlacer.scroll_height _ selenium (after_scrolls selenium (S i) d)
     <> ElPlacer.scroll_height _ selenium (after_scrolls selenium i d)) ->
  ElPlacer.scroll_height _ selenium (after_scrolls selenium (S n) d)
  = ElPlacer.scroll_height _ selenium (after_scrolls selenium n d) ->
  n < fuel ->
  ElPlacer.scroll_loop _ selenium fuel d (ElPlacer.scroll_height _ selenium d)
  = Some (after_scrolls selenium (S n) d).
Proof.
  induction n as [|n IH]; intros d fuel Hgrow Hstop Hfuel;
    (destruct fuel as [|fuel]; [lia |]); cbn [ElPlacer.scroll_loop].
  - cbn [after_scrolls] in Hstop |- *. now rewrite Hstop, Nat.eqb_refl.
  - pose proof (Hgrow 0 ltac:(lia)) as H0. cbn [after_scrolls] in H0.
    apply Nat.eqb_neq in H0. rewrite H0.
    cbn [after_scrolls] in Hstop |- *.
    apply IH; [| exact Hstop | lia].
    intros i Hi. specialize (Hgrow (S i) ltac:(lia)). exact Hgrow.
Qed.

End Pagination.

Section PaginationTheorems.
Import Fetcher.

Lemma endless_runs_out (fuel : nat) :
  forall url P A s,
  url <> "" ->
  exists s' evs,
    Ahrefs.scrape_pages Sample.lib Sample.endless fuel "c" url P A s
    = (Unfinished, s', evs)
    /\ length (requested evs) = fuel.
Proof.
  induction fuel as [|fuel IH]; intros url P A s Hu; cbn [Ahrefs.scrape_pages];
    (destruct (String.eqb url "") eqn:He;
     [apply String.eqb_eq in He; done |]).
  - unfold ret. eauto.
  - unfold bind. rewrite (fetch_first_ok Sample.endless url s
                            (Sample.listing [] (Some "again")) eq_refl).
    cbn [Sample.listing Ahrefs.article_headers List.map Ahrefs.scrape_headers].
    unfold ret at 1.
    change (Ahrefs.next_url Sample.lib _) with (Ahrefs.Follow "again").
    cbn beta iota.
    destruct (IH "again" P A (tick 1 s) ltac:(discriminate)) as (s' & evs & -> & Hl).
    eexists _, _. split; [reflexivity |]. cbn. now rewrite Hl.
Qed.

(** A site whose every listing page names a next page: the Ahrefs loop
    does not end, however many turns it is given; six turns make six
    requests. *)
Lemma C8_counterexample_endless_pagination :
  ~ (exists fuel e s' evs,
       Ahrefs.scrape_pages Sample.lib Sample.endless fuel "c" "start" ∅ []
         (Sample.start None) = (e, s', evs)
       /\ e <> Unfinished)
  /\ (let '(r, _, evs) :=
        Ahrefs.scrape_pages Sample.lib Sample.endless 6 "c" "start" ∅ []
          (Sample.start None) in
      r = Unfinished /\ length (requested evs) = 6).
Proof.
  split.
  - intros (fuel & e & s' & evs & H & Hne).
    destruct (endless_runs_out fuel "start" ∅ [] (Sample.start None)
                ltac:(discriminate)) as (s2 & e2 & H2 & _).
    congruence.
  - vm_compute. split; reflexivity.
Qed.

(** A button that stays displayed and enabled is pressed at every turn,
    and no number of turns ends the load-more loop. *)
Example sticky_button_never_ends (fuel : nat) (d : nat) :
  Google.load_more_loop nat unit Sample.sticky_button fuel d = None.
Proof. revert d. induction fuel as [|fuel IH]; intros d; [reflexivity |]. cbn. apply IH. Qed.

(** On a page that grows at every scroll, no number of scrolls ends the
    scroll loop. *)
Example bottomless_page_never_ends (fuel : nat) (d : nat) :
  ElPlacer.scroll_loop nat Sample.bottomless fuel d d = None.
Proof.
  revert d. induction fuel as [|fuel IH]; intros d; [reflexivity |].
  cbn [ElPlacer.scroll_loop Sample.bottomless ElPlacer.sleep
       ElPlacer.scroll_to_bottom ElPlacer.scroll_height].
  replace (S d =? d) with false by (symmetry; apply Nat.eqb_neq; lia).
  apply IH.
Qed.

(** C8. Each pagination loop ends on its own condition.  Moz follows
    next-page links for at most MAX_PAGES_TO_SCRAPE = 5 pages, whatever
    the site answers.  Ahrefs follows them with no cap; its loop comes
    to its end when the links go down along some rank, and it returns
    when moreover every next-page link carries its [href].  The
    load-more loop of Google Developers ends at the first turn that
    pressed no displayed and enabled button (or raised), and returns the
    browser of that turn.  The scroll loop of El Placer del SEO ends at
    the first scroll after which the page height is what it was
    before. *)
Theorem C8_pagination_ends_on_its_own_condition :
  (forall (lib : PyLib) (w : World Moz.Soup) category url P A s fuel,
     Moz.MAX_PAGES_TO_SCRAPE <= fuel ->
     exists r s' evs,
       Moz.scrape_pages lib w fuel category url 1 P A s = (Some r, s', evs)
       /\ pages_started evs <= Moz.MAX_PAGES_TO_SCRAPE)
  /\ (forall (lib : PyLib) (w : World Ahrefs.Soup) rank category url P A s fuel,
        descending lib w rank ->
        rank url < fuel ->
        exists e s' evs,
          Ahrefs.scrape_pages lib w fuel category url P A s = (e, s', evs)
          /\ e <> Unfinished
          /\ (well_linked lib w -> exists r, e = Returned r))
  /\ (forall (Driver Button : Type) (selenium : Google.Selenium Driver Button)
             n d fuel,
        (forall i, i < n ->
           snd (Google.poll_cycle _ _ selenium (after_cycles selenium i d))
           = Some true) ->
        snd (Google.poll_cycle _ _ selenium (after_cycles selenium n d))
        <> Some true ->
        n < fuel ->
        Google.load_more_loop _ _ selenium fuel d
        = Some (fst (Google.poll_cycle _ _ selenium (after_cycles selenium n d))))
  /\ (forall (Driver : Type) (selenium : ElPlacer.Selenium Driver) n d fuel,
        (forall i, i < n ->
           ElPlacer.scroll_height _ selenium (after_scrolls selenium (S i) d)
           <> ElPlacer.scroll_height _ selenium (after_scrolls selenium i d)) ->
        ElPlacer.scroll_height _ selenium (after_scrolls selenium (S n) d)
        = ElPlacer.scroll_height _ selenium (after_scrolls selenium n d) ->
        n < fuel ->
        ElPlacer.scroll_loop _ selenium fuel d (ElPlacer.scroll_height _ selenium d)
        = Some (after_scrolls selenium (S n) d)).
Proof.
  split_and!.
  - intros lib w category url P A s fuel Hf.
    destruct (moz_scrape_pages_bounded lib w category fuel url 1 P A s
                ltac:(unfold Moz.MAX_PAGES_TO_SCRAPE in *; lia))
      as (r & s' & evs & H & Hb).
    exists r, s', evs. split; [exact H |].
    unfold Moz.MAX_PAGES_TO_SCRAPE in *. lia.
  - intros lib w rank category url P A s fuel Hd Hr.
    now apply (scrape_pages_returns lib w rank).
  - intros. now apply load_more_stops.
  - intros. now apply scroll_stops.
Qed.
End PaginationTheorems.

Section ContentRoot.
Import Fetcher.

Variable lib : PyLib.






End ContentRoot.


Section Excerpt.
Import PyStr.

Lemma rstrip_keeps_head (c : ascii) (s : string) :
  isspace c = false -> exists kept, rstrip (String c s) = String c kept.
Proof.
  intros Hc. cbn [rstrip]. destruct (rstrip s); [rewrite Hc |]; eauto.
Qed.

Lemma rstrip_app (a b : string) :
  rstrip b <> "" -> rstrip (a +:+ b) = a +:+ rstrip b.
Proof.
  intros Hb. induction a as [|c a IH]; [reflexivity |].
  rewrite !str_append_cons. cbn [rstrip]. rewrite IH.
  destruct (a +:+ rstrip b) eqn:E; [| reflexivity].
  destruct a; [change (rstrip b = "") in E; congruence |].
  rewrite str_append_cons in E. discriminate.
Qed.

Lemma rstrip_spacefree (s : string) : spacefree s = true -> rstrip s = s.
Proof.
  induction s as [|c s IH]; [reflexivity |].
  cbn [spacefree]. intros H. apply andb_true_iff in H as [Hc Hs].
  apply negb_true_iff in Hc. cbn [rstrip]. rewrite (IH Hs).
  destruct s; [now rewrite Hc | reflexivity].
Qed.

Lemma lstrip_starts_well (s : string) : starts_well s -> lstrip s = s.
Proof. destruct s as [|c s]; [reflexivity |]. cbn. now intros ->. Qed.

Lemma word_starts_well (w rest : string) :
  word_ok w -> starts_well (w +:+ rest).
Proof.
  intros [Hne Hsf]. destruct w as [|c w]; [done |].
  rewrite str_append_cons. cbn in *.
  apply andb_true_iff in Hsf as [Hc _]. now apply negb_true_iff in Hc.
Qed.

Lemma join_words (ws : list string) :
  Forall word_ok ws ->
  starts_well (join " " ws) /\ rstrip (join " " ws) = join " " ws
  /\ (ws <> [] -> join " " ws <> "").
Proof.
  induction 1 as [|w ws Hw Hws IH]; [done |].
  destruct IH as (_ & IHr & IHn).
  destruct ws as [|v vs].
  - cbn [join]. split_and!.
    + rewrite <- (str_append_nil_r w). now apply word_starts_well.
    + apply rstrip_spacefree, Hw.
    + intros _. apply Hw.
  - change (join " " (w :: v :: vs)) with (w +:+ " " +:+ join " " (v :: vs)).
    split_and!.
    + now apply word_starts_well.
    + assert (Hj : rstrip (" " +:+ join " " (v :: vs))
                   = " " +:+ join " " (v :: vs)).
      { rewrite rstrip_app; [now rewrite IHr |].
        rewrite IHr. now apply IHn. }
      rewrite rstrip_app; rewrite Hj; [reflexivity | discriminate].
    + intros _. destruct Hw as [Hne _]. destruct w; [done | discriminate].
Qed.

Lemma strip_fixed (s : string) :
  starts_well s -> rstrip s = s -> strip s = s.
Proof. intros H1 H2. unfold strip. now rewrite (lstrip_starts_well _ H1). Qed.












(** Fifty characters come back as they are. *)
Example excerpt_of_fifty_characters :
  Moz._create_excerpt "Fifty characters of plain text with single spaces."
  = "Fifty characters of plain text with single spaces.".
Proof. reflexivity. Qed.

(** A derived text of 200 characters whose 70th character is a blank:
    the excerpt is made of 69 characters and the three dots, not of
    70. *)
Lemma C6_counterexample_cut_at_a_space :
  let text := Sample.long_text_cut_at_a_space in
  collapse text = text
  /\ String.length text = 200
  /\ Moz._create_excerpt text = slice_to 69 text +:+ "..."
  /\ String.length (Moz._create_excerpt text) = 72
  /\ Moz._create_excerpt text <> slice_to 70 text +:+ "...".
Proof.
  cbv zeta. split_and!; [vm_compute; reflexivity .. |].
  intros H. apply (f_equal String.length) in H. vm_compute in H.
  discriminate H.
Qed.

End Excerpt.

Section Normaliser.
Import Dom.

(** C3. The allow-list is applied to an element by itself, not to what
    is inside it.  On this content root the normalisers of Ahrefs and of
    Moz return a paragraph that still holds a [span] with its [style],
    and a list whose item still carries [onclick]: a tag and two
    attributes that are in no allow-list; and the list item comes out a
    second time, after the list that contains it. *)
Example C3_nested_markup_survives_the_allow_list :
  let content_soup :=
    Elem "div" [("class", "post-content")]
      [Elem "p" [("id", "intro")]
         [Elem "span" [("style", "color:red")] [Text "hi"]];
       Elem "ul" [("class", "list")]
         [Elem "li" [("onclick", "run()")] [Text "item"]]] in
  let expected :=
    "<p><span style=" +:+ quote +:+ "color:red" +:+ quote +:+ ">hi</span></p>"
    +:+ newline
    +:+ "<ul><li onclick=" +:+ quote +:+ "run()" +:+ quote +:+ ">item</li></ul>"
    +:+ newline
    +:+ "<li>item</li>" in
  Ahrefs._clean_html_content content_soup = expected
  /\ Moz._clean_html_content content_soup = expected
  /\ Dom.mem "span" Ahrefs.allowed_tags = false
  /\ Dom.mem "style" Ahrefs.allowed_attrs = false
  /\ Dom.mem "onclick" Moz.allowed_attrs = false.
Proof. vm_compute. repeat split. Qed.

(** Attributes are written in the order of their names, a comment
    between its delimiters, the text of a [script] as it is, and an
    empty [br] is closed in place. *)
Example serialisation_follows_the_formatter :
  str_node
    (Elem "p" [("title", "t"); ("class", "c")]
       [Text "a<b"; Comment " note "; Elem "br" [] [];
        Elem "script" [] [Text "a<b"]])
  = "<p class=" +:+ quote +:+ "c" +:+ quote
    +:+ " title=" +:+ quote +:+ "t" +:+ quote
    +:+ ">a&lt;b<!-- note --><br/><script>a<b</script></p>".
Proof. vm_compute. reflexivity. Qed.

End Normaliser.

(** ** Runs on the sample sites *)
Section Runs.
Import Fetcher Engine.


(** The draws of the random delay go 3, 3, 1: the time slept between
    the first and the second attempt is 1 + 3 = 4 seconds, between the
    second and the third 2 + 1 = 3 seconds.  The backoff pauses go up,
    the delays between attempts go down. *)
Lemma C5_counterexample_later_delay_is_shorter :
  in_range Sample.jittery
  /\ let '(r, _, evs) :=
       _fetch_with_retries Sample.jittery "u" (Sample.start None) in
     r = None
     /\ backoffs evs = [1; 2]
     /\ (exists d1 d2,
           inter_attempt_delays evs = [d1; d2]
           /\ (d1 == 4)%Q /\ (d2 == 3)%Q /\ (d2 < d1)%Q)
     /\ ~ StronglySorted Qlt (inter_attempt_delays evs).
Proof.
  split.
  - intros n. unfold Sample.jittery. cbn [uniform RANDOM_DELAY_RANGE fst snd].
    destruct (n <? 2); split; discriminate.
  - vm_compute. split_and!; try reflexivity.
    + eexists _, _. split_and!; [reflexivity | | |]; reflexivity.
    + intros Hs. inversion Hs as [|? ? _ Hf]; subst.
      inversion Hf as [|? ? Hlt _]; subst. discriminate Hlt.
Qed.



(** Without the condition on the site the second run can find
    something: [a0] is listed and its requests fail during the first
    run, which finds nothing; the next run fetches it, collects it and
    saves. *)
Example a_link_that_failed_is_collected_by_the_next_run :
  let '(new1, s1, evs1) :=
    Ahrefs.run_update_scrape Sample.lib Sample.recovering Sample.one_stored in
  let '(new2, s2, evs2) :=
    Ahrefs.run_update_scrape Sample.lib Sample.recovering s1 in
  new1 = [] /\ saves evs1 = []
  /\ links new2 = ["a0"] /\ length (saves evs2) = 1
  /\ json_file s2 <> json_file s1.
Proof. vm_compute. split_and!; try reflexivity. discriminate. Qed.


(** The batch is [a0] ... [a4]; the backup holds the file as it was. *)
Example update_prepends_the_new_batch :
  let '(new, s', evs) :=
    Ahrefs.run_update_scrape Sample.lib Sample.six_new Sample.one_stored in
  links new = ["a0"; "a1"; "a2"; "a3"; "a4"]
  /\ option_map (fun data => links (articles data)) (json_file s')
     = Some ["a0"; "a1"; "a2"; "a3"; "a4"; "old"]
  /\ json_backup s' = json_file Sample.one_stored
  /\ length (saves evs) = 1.
Proof. vm_compute. repeat split. Qed.




(** The first run on the sample site records the seven articles of its
    one listing page, in page order. *)
Example first_run_records_the_listed_articles :
  let '(r, _, evs) :=
    Ahrefs.main Sample.lib Sample.six_new 2 (Sample.start None) in
  match r with
  | Returned all => links all = ["a0"; "a1"; "a2"; "a3"; "a4"; "a5"; "old"]
  | _ => False
  end
  /\ length (saves evs) = 1.
Proof. vm_compute. split; reflexivity. Qed.


(** Moz, on a listing whose every page names a next page. *)
Lemma C8_witness_moz_stops_at_five :
  exists r s' evs,
    Moz.scrape_pages Sample.lib Sample.moz_endless 9 "seo-ai"
      "https://moz.com/blog/category/seo-ai" 1 ∅ [] (Sample.start None)
    = (Some r, s', evs)
    /\ pages_started evs <= Moz.MAX_PAGES_TO_SCRAPE.
Proof.
  destruct C8_pagination_ends_on_its_own_condition as (H & _).
  apply H. unfold Moz.MAX_PAGES_TO_SCRAPE. lia.
Defined.

(** Five pages are fetched, and the loop is over. *)
Example moz_endless_site_costs_five_pages :
  let '(r, _, evs) :=
    Moz.scrape_pages Sample.lib Sample.moz_endless 9 "seo-ai"
      "https://moz.com/blog/category/seo-ai" 1 ∅ [] (Sample.start None) in
  is_Some r /\ pages_started evs = 5 /\ length (requested evs) = 5.
Proof. vm_compute. repeat split. eauto. Qed.



(** Its excerpt is its first 70 characters and three dots. *)
Example excerpt_of_two_hundred_characters :
  String.length Sample.long_text = 200
  /\ Moz._create_excerpt Sample.long_text
     = PyStr.slice_to 70 Sample.long_text +:+ "..."
  /\ String.length (Moz._create_excerpt Sample.long_text) = 73.
Proof. vm_compute. repeat split. Qed.

(** When the 70th character is a space, the stripped prefix has 69
    characters. *)
Example excerpt_cut_at_a_space :
  String.length Sample.long_text_cut_at_a_space = 200
  /\ Moz._create_excerpt Sample.long_text_cut_at_a_space
     = PyStr.slice_to 69 Sample.long_text_cut_at_a_space +:+ "..."
  /\ String.length (Moz._create_excerpt Sample.long_text_cut_at_a_space) = 72.
Proof. vm_compute. repeat split. Qed.

End Runs.

(** * Further properties of the code *)

Section MoreEventFacts.

Lemma delays_app (a b : list Event) : delays (a ++ b) = delays a + delays b.
Proof.
  induction a as [|e a IH]; [reflexivity |].
  destruct e; simpl; now rewrite IH.
Qed.

End MoreEventFacts.

Section FetcherBounds.
Import Fetcher.
Context {Page : Type}.

(** X3. Whatever the site answers, one call of [_fetch_with_retries]
    sends between one and MAX_RETRIES = 3 requests, all of them for the
    URL it was given; it takes one politeness delay per request and one
    backoff pause between two requests; the URL counts as fetched
    exactly when a page is returned; and the call leaves the JSON file
    and its backup alone. *)
Theorem fetch_effects_are_bounded (w : World Page) (url : string) (s : State) :
  let '(r, s', evs) := _fetch_with_retries w url s in
  let n := length (requested evs) in
  1 <= n <= MAX_RETRIES
  /\ requested evs = repeat url n
  /\ delays evs = n
  /\ length (backoffs evs) = n - 1
  /\ fetched evs = match r with Some _ => [url] | None => [] end
  /\ clock s' = clock s + n
  /\ json_file s' = json_file s
  /\ json_backup s' = json_backup s
  /\ saves evs = []
  /\ backups evs = 0.
Proof.
  rewrite fetch_outcomes. unfold MAX_RETRIES.
  destruct (net w (clock s) url);
    [| destruct (net w (S (clock s)) url);
       [| destruct (net w (S (S (clock s))) url) ..] ..];
    cbn; repeat split; lia.
Qed.

Lemma down_fetch (w : World Page) (url : string) (s : State) :
  unreachable w url ->
  _fetch_with_retries w url s = (None, tick 3 s, three_failures w url s).
Proof.
  intros H. rewrite fetch_outcomes.
  pose proof (H (clock s)) as H0. pose proof (H (S (clock s))) as H1.
  pose proof (H (S (S (clock s)))) as H2.
  destruct (net w (clock s) url); try discriminate;
    destruct (net w (S (clock s)) url); try discriminate;
    destruct (net w (S (S (clock s))) url); try discriminate; reflexivity.
Qed.

Lemma fetch_count (w : World Page) (url : string) (s s' : State)
    (r : option Page) (evs : list Event) :
  _fetch_with_retries w url s = (r, s', evs) ->
  length (requested evs) <= 3
  /\ fetched evs = match r with Some _ => [url] | None => [] end.
Proof.
  rewrite fetch_outcomes. intros H.
  destruct (net w (clock s) url);
    [| destruct (net w (S (clock s)) url);
       [| destruct (net w (S (S (clock s))) url) ..] ..];
    injection H as <- <- <-; cbn; split; (lia || reflexivity).
Qed.

End FetcherBounds.

Section UpdateRuns.
Import Fetcher Engine.
Context {Soup Card : Type}.
Variable src : Source Soup Card.
Variable w : World Soup.

Lemma scan_cards_budget (category : string) (cs : list Card) :
  forall E new s E' new' s' evs,
  scan_cards src w category cs E new s = (E', new', s', evs) ->
  length (requested evs) <= 3 * length cs
  /\ exists added,
       new' = new ++ added
       /\ length added <= length cs
       /\ (keeps_link src -> links added = fetched evs).
Proof.
  induction cs as [|card rest IH]; intros E new s E' new' s' evs H;
    cbn [scan_cards] in H.
  - unfold ret in H. simplify_eq. split; [cbn; lia |].
    exists []. now rewrite app_nil_r.
  - destruct (card_link src card) as [l|] eqn:Hl.
    2:{ destruct (IH _ _ _ _ _ _ _ H) as (Hb & added & -> & Hlen & Hf).
        split; [cbn [length]; lia |]. exists added. split_and!; try done.
        cbn [length]; lia. }
    destruct (decide (l ∈ E)).
    { unfold ret in H. simplify_eq. split; [cbn; lia |].
      exists []. rewrite app_nil_r. split_and!; try done. cbn; lia. }
    unfold bind in H.
    destruct (_fetch_with_retries w l s) as [[r s1] e1] eqn:Ef.
    destruct (fetch_count _ _ _ _ _ _ Ef) as [Hc Hfe].
    destruct r as [article_soup|];
      destruct (scan_cards src w category rest _ _ s1) as [[[E2 n2] s2] e2] eqn:Es;
      simplify_eq;
      destruct (IH _ _ _ _ _ _ _ Es) as (Hb & added & -> & Hlen & Hf);
      rewrite requested_app, length_app, fetched_app, Hfe;
      (split; [cbn [length]; lia |]).
    + exists (new_article_data src category l card article_soup :: added).
      rewrite <- app_assoc. split; [reflexivity |]. split; [cbn [length]; lia |].
      intros Hk. rewrite links_cons, Hk, (Hf Hk). reflexivity.
    + exists added. split; [reflexivity |]. split; [cbn [length]; lia |].
      intros Hk. now rewrite (Hf Hk).
Qed.

Lemma update_category_budget (category url : string) :
  forall E new s E' new' s' evs,
  update_category src w category url E new s = (E', new', s', evs) ->
  length (requested evs) <= 3 * (1 + window src)
  /\ exists added,
       new' = new ++ added
       /\ length added <= window src
       /\ (keeps_link src -> sublist (links added) (fetched evs)).
Proof.
  intros E new s E' new' s' evs H. unfold update_category, bind in H.
  destruct (_fetch_with_retries w url s) as [[r s1] e1] eqn:Ef.
  destruct (fetch_count _ _ _ _ _ _ Ef) as [Hc Hfe].
  assert (Hnone : (E', new', s', evs) = (E, new, s1, e1 ++ []) ->
            length (requested evs) <= 3 * (1 + window src)
            /\ exists added,
                 new' = new ++ added
                 /\ length added <= window src
                 /\ (keeps_link src -> sublist (links added) (fetched evs))).
  { intros Heq. simplify_eq. rewrite app_nil_r. split; [lia |].
    exists []. rewrite app_nil_r. split_and!; try done; [cbn; lia |].
    intros _. apply sublist_nil_l. }
  destruct r as [soup|]; [| unfold ret in H; apply Hnone; now rewrite <- H].
  destruct (cards src soup) as [|c0 cs0] eqn:Hcs;
    [unfold ret in H; apply Hnone; now rewrite <- H |].
  destruct (scan_cards src w category _ E new s1) as [[[E2 n2] s2] e2] eqn:Es.
  simplify_eq.
  destruct (scan_cards_budget _ _ _ _ _ _ _ _ _ Es) as (Hb & added & -> & Hlen & Hf).
  pose proof (length_take_le (c0 :: cs0) (window src)) as Ht.
  rewrite length_take in Hb, Hlen.
  rewrite requested_app, length_app, fetched_app.
  split; [lia |].
  exists added. split_and!; try done; [lia |].
  intros Hk. rewrite <- (Hf Hk). apply sublist_inserts_l. reflexivity.
Qed.

Lemma update_categories_budget (seeds : list (string * string)) :
  forall E new s E' new' s' evs,
  update_categories src w seeds E new s = (E', new', s', evs) ->
  length (requested evs) <= 3 * (1 + window src) * length seeds
  /\ exists added,
       new' = new ++ added
       /\ length added <= window src * length seeds
       /\ (keeps_link src -> sublist (links added) (fetched evs)).
Proof.
  induction seeds as [|[category url] rest IH]; intros E new s E' new' s' evs H;
    cbn [update_categories] in H.
  - unfold ret in H. simplify_eq. split; [cbn; lia |].
    exists []. rewrite app_nil_r.
    split_and!; [done | cbn; lia | intros _; apply sublist_nil_l].
  - unfold bind in H.
    destruct (update_category src w category url E new s)
      as [[[E1 n1] s1] e1] eqn:E1c.
    destruct (update_categories src w rest E1 n1 s1) as [[[E2 n2] s2] e2] eqn:E2c.
    simplify_eq.
    destruct (update_category_budget _ _ _ _ _ _ _ _ _ E1c)
      as (Hb1 & a1 & -> & Hl1 & Hf1).
    destruct (IH _ _ _ _ _ _ _ E2c) as (Hb2 & a2 & -> & Hl2 & Hf2).
    rewrite requested_app, length_app, fetched_app. cbn [length].
    split; [lia |].
    exists (a1 ++ a2). rewrite app_assoc, length_app.
    split_and!; [done | lia |].
    intros Hk. rewrite links_app. apply sublist_app; auto.
Qed.

(** X4. The cost of an update run is bounded by the configuration alone:
    over the run, at most MAX_RETRIES * (1 + window) requests and
    [window] new records for each category of SEED_URLS (270 requests
    and 75 records for the 15 categories of Ahrefs), whatever the
    listing pages hold. *)
Theorem update_run_budget (s : State) :
  let '(new, _, evs) := run_update_scrape src w s in
  length (requested evs) <= MAX_RETRIES * (1 + window src) * length (seed_urls src)
  /\ length new <= window src * length (seed_urls src).
Proof.
  unfold run_update_scrape, bind, MAX_RETRIES.
  destruct (_backup_database w s) as [[[] s0] e0] eqn:Eb.
  assert (Hb : requested e0 = []).
  { unfold _backup_database in Eb.
    destruct (json_file s); [destruct (copyfile_ok w) |]; now simplify_eq. }
  unfold _load_existing_data. cbn beta iota.
  match goal with
  | |- context [update_categories src w ?sd ?E0 [] s0] =>
      destruct (update_categories src w sd E0 [] s0) as [[[E1 n1] s1] e1] eqn:Eu
  end.
  destruct (update_categories_budget _ _ _ _ _ _ _ _ Eu)
    as (Hr & added & Hadd & Hlen & _).
  cbn [app] in Hadd. subst n1.
  destruct added as [|a added]; unfold _save_data, ret; cbn -[Nat.mul];
    rewrite ?requested_app, ?length_app, Hb; cbn -[Nat.mul] in *; split; lia.
Qed.

(** X5. Every record an update run collects was built from a page that
    this run fetched: the links of the new records are, in order, among
    the URLs answered with a page during the run, and none of them was
    in the store. *)
Theorem update_records_come_from_fetched_pages (s : State) :
  keeps_link src ->
  let '(new, _, evs) := run_update_scrape src w s in
  sublist (links new) (fetched evs)
  /\ Forall (fun l => l ∉ links (stored s)) (links new).
Proof.
  intros Hk.
  destruct (run_update_scrape src w s) as [[new s'] evs] eqn:H.
  pose proof (run_update_spec src w _ _ _ _ H) as (_ & _ & _ & _ & Hfresh).
  destruct (Hfresh Hk) as [_ Hf].
  split; [| apply Forall_forall; exact Hf].
  clear Hfresh Hf. unfold run_update_scrape, bind in H.
  destruct (_backup_database w s) as [[[] s0] e0] eqn:Eb.
  assert (Hb : fetched e0 = []).
  { unfold _backup_database in Eb.
    destruct (json_file s); [destruct (copyfile_ok w) |]; now simplify_eq. }
  unfold _load_existing_data in H. cbn beta iota in H.
  match type of H with
  | context [update_categories src w ?sd ?E0 [] s0] =>
      destruct (update_categories src w sd E0 [] s0) as [[[E1 n1] s1] e1] eqn:Eu
  end.
  destruct (update_categories_budget _ _ _ _ _ _ _ _ Eu)
    as (_ & added & Hadd & _ & Hsub).
  cbn [app] in Hadd. subst n1. specialize (Hsub Hk).
  destruct added as [|a added]; unfold _save_data, ret in H; cbn in H;
    simplify_eq; rewrite !fetched_app, Hb; cbn [app].
  - apply sublist_nil_l.
  - cbn. now rewrite app_nil_r.
Qed.

Lemma scan_cards_down (category : string) (cs : list Card) :
  down w ->
  forall E new s, exists s' evs,
    scan_cards src w category cs E new s = (E, new, s', evs)
    /\ fetched evs = [].
Proof.
  intros Hd. induction cs as [|card rest IH]; intros E new s; cbn [scan_cards].
  - unfold ret. eauto.
  - destruct (card_link src card) as [l|]; [| apply IH].
    destruct (decide (l ∈ E)); [unfold ret; eauto |].
    unfold bind. rewrite (down_fetch w l s (fun n => Hd n l)).
    destruct (IH E new (tick 3 s)) as (s' & evs & -> & Hf).
    eexists _, _. split; [reflexivity |]. rewrite fetched_app. exact Hf.
Qed.

Lemma update_categories_down (seeds : list (string * string)) :
  down w ->
  forall E new s, exists s' evs,
    update_categories src w seeds E new s = (E, new, s', evs)
    /\ requested evs
       = flat_map (fun seed => repeat (snd seed) MAX_RETRIES) seeds
    /\ fetched evs = [] /\ saves evs = []
    /\ json_file s' = json_file s /\ json_backup s' = json_backup s.
Proof.
  intros Hd. induction seeds as [|[category url] rest IH]; intros E new s;
    cbn [update_categories flat_map].
  - unfold ret. eexists _, _. split_and!; reflexivity.
  - unfold bind, update_category, bind.
    rewrite (down_fetch w url s (fun n => Hd n url)). unfold ret.
    destruct (IH E new (tick 3 s)) as (s' & evs & -> & Hr & Hf & Hsv & Hj & Hb).
    eexists _, _. split; [reflexivity |].
    rewrite !requested_app, !fetched_app, !saves_app, Hr, Hf, Hsv.
    split_and!; try done.
Qed.

(** X6. When the site is down, an update run asks for each category
    page MAX_RETRIES times, in the order of SEED_URLS, and for nothing
    else; it finds nothing, saves nothing and leaves the JSON file as it
    was. *)
Theorem update_when_the_site_is_down (s : State) :
  down w ->
  let '(new, s', evs) := run_update_scrape src w s in
  new = []
  /\ requested evs
     = flat_map (fun seed => repeat (snd seed) MAX_RETRIES) (seed_urls src)
  /\ fetched evs = []
  /\ json_file s' = json_file s
  /\ saves evs = [].
Proof.
  intros Hd. unfold run_update_scrape, bind.
  destruct (_backup_database w s) as [[[] s0] e0] eqn:Eb.
  assert (Hb : requested e0 = [] /\ fetched e0 = [] /\ saves e0 = []
               /\ json_file s0 = json_file s).
  { unfold _backup_database in Eb.
    destruct (json_file s) eqn:Ej; [destruct (copyfile_ok w) |];
      simplify_eq; cbn; rewrite ?Ej; done. }
  destruct Hb as (B1 & B2 & B3 & B4).
  unfold _load_existing_data. cbn beta iota.
  match goal with
  | |- context [update_categories src w ?sd ?E0 [] s0] =>
      destruct (update_categories_down sd Hd E0 [] s0)
        as (s1 & e1 & -> & Fr & Ff & Fs & F1 & F2)
  end.
  unfold ret. rewrite !app_nil_r, requested_app, fetched_app, saves_app, B1, B2, B3.
  cbn [app]. split_and!; try done; try congruence.
Qed.

(** X7. When the JSON file does not exist, or when copying it fails,
    an update run writes no backup and goes on all the same: what it
    finds is saved in front of the stored records (under the default
    title when there was no file), and when it finds nothing the file is
    left as it was. *)
Theorem update_without_a_backup (s : State) :
  json_file s = None \/ copyfile_ok w = false ->
  let '(new, s', evs) := run_update_scrape src w s in
  backups evs = 0
  /\ json_backup s' = json_backup s
  /\ (new <> [] ->
      json_file s' = Some {| titulo_sitio_web := stored_title src s;
                             articles := new ++ stored s |})
  /\ (new = [] -> json_file s' = json_file s).
Proof.
  intros Hcase.
  destruct (run_update_scrape src w s) as [[new s'] evs] eqn:H.
  pose proof (run_update_spec src w _ _ _ _ H) as (Hnone & Hsome & Hbak & Hnb & _).
  split_and!.
  - rewrite Hnb. destruct Hcase as [-> | ->]; [done | now destruct (json_file s)].
  - rewrite Hbak. destruct Hcase as [-> | ->]; [done | now destruct (json_file s)].
  - intros Hn. now destruct (Hsome Hn).
  - intros Hn. now destruct (Hnone Hn).
Qed.

End UpdateRuns.

Section ListFacts.

Lemma omap_cons_none {A B : Type} (f : A -> option B) (x : A) (l : list A) :
  f x = None -> omap f (x :: l) = omap f l.
Proof. intros H. cbn. now rewrite H. Qed.

Lemma omap_cons_some {A B : Type} (f : A -> option B) (x : A) (l : list A)
    (y : B) :
  f x = Some y -> omap f (x :: l) = y :: omap f l.
Proof. intros H. cbn. now rewrite H. Qed.

End ListFacts.

Section SteadyWorlds.
Import Fetcher Engine.
Context {Soup Card : Type}.
Variable src : Source Soup Card.
Variable w : World Soup.

Lemma steady_none (url : string) (s s' : State) (evs : list Event) :
  steady w ->
  _fetch_with_retries w url s = (None, s', evs) -> unreachable w url.
Proof.
  intros Hs. rewrite fetch_outcomes. intros H n.
  rewrite (Hs n (clock s)).
  destruct (net w (clock s) url); [discriminate | reflexivity ..].
Qed.

Lemma steady_some (url : string) (s s' : State) (soup : Soup)
    (evs : list Event) :
  steady w ->
  _fetch_with_retries w url s = (Some soup, s', evs) ->
  forall n, net w n url = Body soup.
Proof.
  intros Hs. rewrite fetch_outcomes. intros H n.
  rewrite (Hs n (clock s)).
  destruct (net w (clock s) url) eqn:E0; [now simplify_eq |
    rewrite (Hs (S (clock s)) (clock s)), E0 in H;
    rewrite (Hs (S (S (clock s))) (clock s)), E0 in H; discriminate ..].
Qed.

Lemma scan_cards_all_known (category : string) (cs : list Card)
    (E : gset string) :
  (forall l, l ∈ card_links src cs -> l ∈ E \/ unreachable w l) ->
  forall new s, exists s' evs,
    scan_cards src w category cs E new s = (E, new, s', evs).
Proof.
  induction cs as [|card rest IH]; intros Hall new s; cbn [scan_cards].
  - unfold ret. eauto.
  - destruct (card_link src card) as [l|] eqn:Hl.
    2:{ apply IH. intros l Hin. apply Hall. now rewrite (card_links_none _ _ _ Hl). }
    rewrite (card_links_some _ _ _ _ Hl) in Hall.
    destruct (decide (l ∈ E)); [unfold ret; eauto |].
    destruct (Hall l) as [? | Hun]; [set_solver | done |].
    unfold bind. rewrite (down_fetch w l s Hun).
    destruct (IH ltac:(intros l0 Hl0; apply Hall; set_solver) new (tick 3 s))
      as (s' & evs & ->). eauto.
Qed.

Lemma update_categories_all_known (seeds : list (string * string))
    (E : gset string) (known : list string) :
  steady w ->
  (forall l, l ∈ known -> l ∈ E) ->
  Forall (fun seed => covered src w (snd seed) known) seeds ->
  forall new s, exists s' evs,
    update_categories src w seeds E new s = (E, new, s', evs).
Proof.
  intros Hs HE. induction 1 as [|[category url] rest Hu Hrest IH]; intros new s;
    cbn [update_categories].
  - unfold ret. eauto.
  - unfold bind.
    assert (Hcat : exists s1 e1,
              update_category src w category url E new s = (E, new, s1, e1)).
    { destruct (_fetch_with_retries w url s) as [[r s1] e1] eqn:Ef.
      destruct r as [soup|].
      - rewrite (update_category_unfold _ _ _ _ _ _ _ _ _ _ Ef).
        destruct (scan_cards_all_known category
                    (take (window src) (cards src soup)) E) with (new := new) (s := s1)
          as (s2 & e2 & ->); [| eauto].
        intros l Hl. cbn [snd] in Hu.
        destruct (Hu soup (steady_some _ _ _ _ _ Hs Ef 0) l) as [? | ?];
          [| left; auto | now right].
        unfold card_links in *.
        apply list_elem_of_omap in Hl as (c & Hc & Hlc).
        apply list_elem_of_omap. exists c. split; [| done].
        eapply elem_of_sublist; [exact Hc | apply sublist_take].
      - unfold update_category, bind. rewrite Ef. unfold ret. eauto. }
    destruct Hcat as (s1 & e1 & ->).
    destruct (IH new s1) as (s2 & e2 & ->). eauto.
Qed.

(** An update run on a store that covers the first page of every
    category finds nothing. *)
Lemma run_update_all_known (s : State) :
  steady w ->
  Forall (fun seed => covered src w (snd seed) (links (stored s)))
         (seed_urls src) ->
  exists s' evs,
    run_update_scrape src w s = ([], s', evs)
    /\ json_file s' = json_file s /\ saves evs = [].
Proof.
  intros Hs Hcov.
  destruct (run_update_nothing src w s) as (s' & evs & H).
  { intros s0. apply (update_categories_all_known _ _ (links (stored s)));
      try done. intros l Hl. now apply elem_of_list_to_set. }
  pose proof (run_update_spec _ _ _ _ _ _ H) as (Hnone & _).
  destruct (Hnone eq_refl). eauto.
Qed.

End SteadyWorlds.

Section AhrefsInitialRuns.
Import Fetcher Ahrefs.

Variable lib : PyLib.
Variable w : World Soup.

(** *** The site is down *)

Lemma scrape_categories_down (fuel : nat) (seeds : list (string * string)) :
  down w ->
  Forall (fun seed => snd seed <> "") seeds ->
  forall P A s, exists s' evs,
    scrape_categories lib w (S fuel) seeds P A s = (Returned (P, A), s', evs)
    /\ requested evs
       = flat_map (fun seed => repeat (snd seed) MAX_RETRIES) seeds
    /\ fetched evs = [] /\ saves evs = [] /\ backups evs = 0.
Proof.
  intros Hd. induction 1 as [|[category url] rest Hu Hrest IH]; intros P A s;
    cbn [scrape_categories flat_map].
  - unfold ret. eexists _, _. split_and!; reflexivity.
  - cbn [snd] in Hu. unfold bind. cbn [scrape_pages].
    destruct (String.eqb url "") eqn:He; [apply String.eqb_eq in He; done |].
    unfold bind. rewrite (down_fetch w url s (fun n => Hd n url)). unfold ret.
    destruct (IH P A (tick 3 s)) as (s' & evs & -> & Hr & Hf & Hsv & Hb).
    eexists _, _. split; [reflexivity |].
    rewrite !requested_app, !fetched_app, !saves_app, !backups_app,
      Hr, Hf, Hsv, Hb.
    split_and!; done.
Qed.

(** X8. When the site is down, the initial scrape of Ahrefs still ends
    and still saves: it asks for each seed URL MAX_RETRIES times and
    writes a collection with no article.  The file exists from then on,
    so the following runs are update runs. *)
Theorem initial_run_when_the_site_is_down (fuel : nat) (s : State) :
  down w ->
  let '(r, s', evs) := run_initial_scrape lib w (S fuel) s in
  r = Returned []
  /\ json_file s' = Some {| titulo_sitio_web := SITE_TITLE; articles := [] |}
  /\ saves evs = [{| titulo_sitio_web := SITE_TITLE; articles := [] |}]
  /\ requested evs
     = flat_map (fun seed => repeat (snd seed) MAX_RETRIES) SEED_URLS
  /\ fetched evs = [].
Proof.
  intros Hd. unfold run_initial_scrape, bind.
  destruct (scrape_categories_down fuel SEED_URLS Hd
              ltac:(repeat constructor; discriminate) ∅ [] s)
    as (s' & e1 & -> & Hr & Hf & Hsv & Hb).
  unfold _save_data, Engine._save_data, ret. cbn [json_file].
  rewrite !requested_app, !fetched_app, !saves_app, Hr, Hf, Hsv.
  cbn [requested fetched saves app]. rewrite !app_nil_r.
  split_and!; reflexivity.
Qed.

(** *** A link is fetched once *)

Lemma count_occ_fetch (u url : string) (s s' : State) (r : option Soup)
    (evs : list Event) :
  _fetch_with_retries w url s = (r, s', evs) ->
  count_occ string_dec (requested evs) u <= 3
  /\ (u <> url -> count_occ string_dec (requested evs) u = 0).
Proof.
  intros Hf.
  pose proof (fetch_frame _ _ _ _ _ _ Hf) as (_ & _ & _ & _ & _ & _ & Hall).
  pose proof (fetch_count _ _ _ _ _ _ Hf) as [Hlen _].
  split.
  - etransitivity; [apply count_occ_bound | exact Hlen].
  - intros Hne. apply count_occ_not_In. intros Hin.
    apply list.Forall_forall with (x := u) in Hall; [congruence |].
    now apply list_elem_of_In.
Qed.

(** X9. While the initial scrape of Ahrefs scans a listing page, every
    request is for a link of the page that was not processed before, and
    that link is processed from then on; no link is the object of more
    than one fetch, that is of more than MAX_RETRIES requests, however
    often the page lists it and whether or not the fetch succeeded. *)
Theorem initial_scan_fetches_a_link_once
    (category : string) (headers : list (option LinkTag))
    (P : gset string) (A : list Article) (s : State) :
  let '(P', _, _, evs) := scrape_headers lib w category headers P A s in
  Forall (fun u => u ∈ omap usable_link headers /\ (u ∉ P) /\ u ∈ P')
         (requested evs)
  /\ forall u, count_occ string_dec (requested evs) u <= MAX_RETRIES.
Proof.
  unfold MAX_RETRIES.
  revert P A s. induction headers as [|header rest IH]; intros P A s;
    cbn [scrape_headers].
  - unfold ret. split; [apply Forall_nil_2 | intros u; cbn; lia].
  - destruct (usable_link header) as [l|] eqn:Hl.
    2:{ specialize (IH P A s).
        destruct (scrape_headers lib w category rest P A s) as [[[P' A'] s'] evs].
        destruct IH as [IH1 IH2]. split; [| exact IH2].
        eapply Forall_impl; [exact IH1 |]. rewrite (omap_cons_none _ _ _ Hl). done. }
    destruct (decide (l ∈ P)) as [Hin|Hnin].
    { specialize (IH P A s).
      destruct (scrape_headers lib w category rest P A s) as [[[P' A'] s'] evs].
      destruct IH as [IH1 IH2]. split; [| exact IH2].
      eapply Forall_impl; [exact IH1 |]. rewrite (omap_cons_some _ _ _ _ Hl).
      intros u (? & ? & ?). split_and!; try done. set_solver. }
    unfold bind.
    destruct (_fetch_with_retries w l s) as [[r s1] e1] eqn:Ef.
    pose proof (fetch_frame _ _ _ _ _ _ Ef) as (_ & _ & _ & _ & _ & _ & Hall).
    assert (Hgen : forall A1,
      let '(P', _, _, e2) :=
        scrape_headers lib w category rest ({[l]} ∪ P) A1 s1 in
      Forall (fun u => u ∈ omap usable_link (header :: rest) /\ (u ∉ P) /\ u ∈ P')
             (requested (e1 ++ e2))
      /\ forall u, count_occ string_dec (requested (e1 ++ e2)) u <= 3).
    { intros A1. specialize (IH ({[l]} ∪ P) A1 s1).
      destruct (scrape_headers lib w category rest ({[l]} ∪ P) A1 s1)
        as [[[P' A'] s'] e2] eqn:Es.
      destruct IH as [IH1 IH2].
      pose proof (scrape_headers_adds lib w _ _ _ _ _ _ _ _ _ Es)
        as (a0 & _ & Hsub & _).
      rewrite requested_app. split.
      - apply Forall_app. split.
        + eapply Forall_impl; [exact Hall |]. intros u <-.
          rewrite (omap_cons_some _ _ _ _ Hl). split_and!; set_solver.
        + eapply Forall_impl; [exact IH1 |]. rewrite (omap_cons_some _ _ _ _ Hl).
          intros u (? & ? & ?). split_and!; set_solver.
      - intros u. rewrite count_occ_app.
        destruct (count_occ_fetch u _ _ _ _ _ Ef) as [Hc Hz].
        destruct (decide (u = l)) as [-> | Hne].
        + assert (count_occ string_dec (requested e2) l = 0) as ->; [| lia].
          apply count_occ_not_In. intros Hin.
          apply list.Forall_forall with (x := l) in IH1;
            [| now apply list_elem_of_In].
          set_solver.
        + rewrite (Hz Hne). apply IH2. }
    destruct r as [article_soup|].
    + specialize (Hgen (A ++ [article_data lib category l header article_soup])).
      destruct (scrape_headers lib w category rest ({[l]} ∪ P) _ s1)
        as [[[P' A'] s'] e2]. exact Hgen.
    + specialize (Hgen A).
      destruct (scrape_headers lib w category rest ({[l]} ∪ P) _ s1)
        as [[[P' A'] s'] e2]. exact Hgen.
Qed.

(** *** The first update after the initial run *)


End AhrefsInitialRuns.

Section BacklinkoInitial.
Import Fetcher Backlinko.

Variable lib : PyLib.
Variable w : World Soup.

Lemma already_collected_spec (l : string) (A : list Article) :
  already_collected l A = true <-> l ∈ links A.
Proof.
  unfold already_collected, links. rewrite existsb_exists. split.
  - intros (a & Hin & Heq). apply String.eqb_eq in Heq. subst l.
    apply list_elem_of_fmap. exists a. split; [done |]. now apply list_elem_of_In.
  - intros Hin. apply list_elem_of_fmap in Hin as (a & -> & Hin).
    exists a. split; [now apply list_elem_of_In | apply String.eqb_refl].
Qed.

Lemma collects_refl (A : list Article) (s : State) : collects A s A s [].
Proof.
  exists []. rewrite app_nil_r. split_and!; first [done | apply sublist_nil_l].
Qed.

Lemma collects_trans A s A1 s1 e1 A2 s2 e2 :
  collects A s A1 s1 e1 -> collects A1 s1 A2 s2 e2 ->
  collects A s A2 s2 (e1 ++ e2).
Proof.
  intros (a1 & -> & Hn1 & Hs1 & F1 & F2 & F3 & F4)
         (a2 & -> & Hn2 & Hs2 & G1 & G2 & G3 & G4).
  exists (a1 ++ a2). split_and!.
  - now rewrite app_assoc.
  - auto.
  - rewrite links_app, fetched_app. now apply sublist_app.
  - congruence.
  - congruence.
  - rewrite saves_app, F3, G3. reflexivity.
  - rewrite backups_app, F4, G4. reflexivity.
Qed.

Lemma collects_fetch (url : string) (s s' : State) (r : option Soup)
    (evs : list Event) (A : list Article) :
  _fetch_with_retries w url s = (r, s', evs) -> collects A s A s' evs.
Proof.
  intros Hf.
  pose proof (fetch_frame _ _ _ _ _ _ Hf) as (F1 & F2 & _ & F3 & F4 & _).
  exists []. rewrite app_nil_r. split_and!; first [done | apply sublist_nil_l].
Qed.

Lemma scrape_cards_collects (category : string) (cards : list (option LinkTag)) :
  forall A s A' s' evs,
  scrape_cards lib w category cards A s = (A', s', evs) ->
  collects A s A' s' evs.
Proof.
  induction cards as [|card rest IH]; intros A s A' s' evs H;
    cbn [scrape_cards] in H.
  - unfold ret in H. simplify_eq. apply collects_refl.
  - destruct (card_link lib card) as [l|] eqn:Hl; [| now apply IH].
    destruct (already_collected l A) eqn:Hc; [now apply IH |].
    unfold bind in H.
    destruct (_fetch_with_retries w l s) as [[r s1] e1] eqn:Ef.
    pose proof (fetch_frame _ _ _ _ _ _ Ef) as (F1 & F2 & _ & F3 & F4 & _).
    pose proof (fetch_count _ _ _ _ _ _ Ef) as [_ Hfe].
    destruct r as [article_soup|];
      destruct (scrape_cards lib w category rest _ s1) as [[A2 s2] e2] eqn:Es;
      simplify_eq; apply IH in Es.
    + eapply (collects_trans A s _ s1 e1); [| exact Es].
      exists [new_article_data lib category l card article_soup].
      rewrite Hfe. split_and!; try done.
      intros Hnd. rewrite links_app. apply NoDup_app. split_and!; try done.
      * intros x Hx Hx'. cbn in Hx'. apply list_elem_of_singleton in Hx'. subst x.
        apply already_collected_spec in Hx. congruence.
      * cbn. apply NoDup_singleton.
    + eapply collects_trans; [eapply collects_fetch; exact Ef | exact Es].
Qed.

Lemma scrape_pages_collects (fuel : nat) (category : string) :
  forall current_url A s A' s' evs,
  scrape_pages lib w fuel category current_url A s = (Some A', s', evs) ->
  collects A s A' s' evs.
Proof.
  induction fuel as [|fuel IH]; intros current_url A s A' s' evs H;
    cbn [scrape_pages] in H;
    (destruct (String.eqb current_url "");
     [unfold ret in H; simplify_eq; apply collects_refl |]).
  - discriminate.
  - unfold bind in H.
    destruct (_fetch_with_retries w current_url s) as [[r s1] e1] eqn:Ef.
    pose proof (collects_fetch _ _ _ _ _ A Ef) as Hc.
    destruct r as [soup|].
    2:{ unfold ret in H. simplify_eq. now rewrite app_nil_r. }
    destruct (scrape_cards lib w category (article_cards soup) A s1)
      as [[A1 s2] e2] eqn:Eh.
    apply scrape_cards_collects in Eh.
    destruct (next_url lib soup) as [next|].
    + destruct (scrape_pages lib w fuel category next A1 s2) as [[o s3] e3] eqn:Ep.
      simplify_eq. apply IH in Ep.
      eapply collects_trans; [exact Hc |]. eapply collects_trans; eauto.
    + unfold ret in H. simplify_eq. rewrite app_nil_r.
      eapply collects_trans; eauto.
Qed.

Lemma scrape_categories_collects (fuel : nat) (seeds : list (string * string)) :
  forall A s A' s' evs,
  scrape_categories lib w fuel seeds A s = (Some A', s', evs) ->
  collects A s A' s' evs.
Proof.
  induction seeds as [|[category start_url] rest IH]; intros A s A' s' evs H;
    cbn [scrape_categories] in H.
  - unfold ret in H. simplify_eq. apply collects_refl.
  - unfold bind in H.
    destruct (scrape_pages lib w fuel category start_url A s) as [[o s1] e1] eqn:Ep.
    destruct o as [A1|]; [| unfold ret in H; simplify_eq].
    destruct (scrape_categories lib w fuel rest A1 s1) as [[o s2] e2] eqn:Ec.
    simplify_eq. apply scrape_pages_collects in Ep. apply IH in Ec.
    eapply collects_trans; eauto.
Qed.

Lemma backlinko_fetch_some_body (url : string) (s s' : State) (page : Soup)
    (evs : list Event) :
  _fetch_with_retries w url s = (Some page, s', evs) ->
  exists n, net w n url = Body page.
Proof.
  rewrite fetch_outcomes. intros H.
  destruct (net w (clock s) url) eqn:E0;
    [| destruct (net w (S (clock s)) url) eqn:E1;
       [| destruct (net w (S (S (clock s))) url) eqn:E2 ..] ..];
    simplify_eq; eauto.
Qed.

Lemma backlinko_scrape_pages_returns (rank : string -> nat) (category : string) :
  backlinko_descending lib w rank ->
  forall fuel current_url A s,
  rank current_url < fuel ->
  exists r s' evs,
    scrape_pages lib w fuel category current_url A s = (Some r, s', evs).
Proof.
  intros Hd. induction fuel as [|fuel IH]; intros current_url A s Hr; [lia |].
  cbn [scrape_pages].
  destruct (String.eqb current_url ""); [unfold ret; eauto |].
  unfold bind.
  destruct (_fetch_with_retries w current_url s) as [[r s1] e1] eqn:Ef.
  destruct r as [soup|]; [| unfold ret; eauto].
  destruct (scrape_cards lib w category (article_cards soup) A s1)
    as [[A1 s2] e2] eqn:Eh.
  destruct (next_url lib soup) as [next|] eqn:Hn; [| unfold ret; eauto].
  destruct (backlinko_fetch_some_body _ _ _ _ _ Ef) as [n Hbody].
  pose proof (Hd _ _ _ _ Hbody Hn) as Hlt.
  destruct (IH next A1 s2 ltac:(lia)) as (r & s3 & e3 & ->). eauto.
Qed.

Lemma backlinko_scrape_categories_returns (rank : string -> nat) (fuel : nat) :
  backlinko_descending lib w rank ->
  forall seeds A s,
  Forall (fun seed => rank (snd seed) < fuel) seeds ->
  exists r s' evs,
    scrape_categories lib w fuel seeds A s = (Some r, s', evs).
Proof.
  intros Hd. induction seeds as [|[category start_url] rest IH];
    intros A s Hall; cbn [scrape_categories].
  - unfold ret. eauto.
  - apply Forall_cons in Hall as [Hr Hall]. cbn in Hr.
    destruct (backlinko_scrape_pages_returns rank category Hd fuel start_url A s Hr)
      as (A1 & s1 & e1 & Hp).
    unfold bind. rewrite Hp.
    destruct (IH A1 s1 Hall) as (r & s2 & e2 & ->). eauto.
Qed.

(** X11. Backlinko: an initial scrape that ends replaces the store by
    exactly the records it accumulated, saved once and never backed up;
    no two of them have the same link, and their links are, in order,
    among the URLs fetched during the run.  The scrape ends whenever the
    next-page links go down along some rank, within as many turns as the
    rank of the seed URLs.  It is what [main] runs when there is no JSON
    file. *)
Theorem backlinko_initial_run_stores_unique_links (fuel : nat) (s : State) :
  (forall all s' evs,
     run_initial_scrape lib w fuel s = (Some all, s', evs) ->
     json_file s' = Some {| titulo_sitio_web := "Backlinko"; articles := all |}
     /\ saves evs = [{| titulo_sitio_web := "Backlinko"; articles := all |}]
     /\ json_backup s' = json_backup s
     /\ backups evs = 0
     /\ NoDup (links all)
     /\ sublist (links all) (fetched evs))
  /\ (forall rank,
        backlinko_descending lib w rank ->
        Forall (fun seed => rank (snd seed) < fuel) SEED_URLS ->
        exists all s' evs,
          run_initial_scrape lib w fuel s = (Some all, s', evs))
  /\ (json_file s = None ->
      main lib w fuel s = run_initial_scrape lib w fuel s).
Proof.
  split; [| split; [| intros Hnone; unfold main; now rewrite Hnone]].
  - intros all s' evs H. unfold run_initial_scrape, bind in H.
    destruct (scrape_categories lib w fuel SEED_URLS [] s) as [[o s1] e1] eqn:Ec.
    destruct o as [A1|]; [| unfold ret in H; simplify_eq].
    unfold Engine._save_data, ret in H. cbn in H. simplify_eq.
    apply scrape_categories_collects in Ec.
    destruct Ec as (a & Ha & Hn & Hsub & G1 & G2 & G3 & G4).
    cbn [app] in Ha. subst a. cbn [json_file json_backup].
    rewrite saves_app, backups_app, fetched_app, G3, G4. cbn.
    rewrite app_nil_r. split_and!; try done. apply Hn. apply NoDup_nil_2.
  - intros rank Hd Hall. unfold run_initial_scrape, bind.
    destruct (backlinko_scrape_categories_returns rank fuel Hd SEED_URLS [] s Hall)
      as (A1 & s1 & e1 & ->).
    unfold Engine._save_data, ret. cbn. eauto.
Qed.

End BacklinkoInitial.

Section Retry.
Import Fetcher.

Lemma fetch_asks_for {Page : Type} (w : World Page) (url : string)
    (s s' : State) (r : option Page) (evs : list Event) :
  _fetch_with_retries w url s = (r, s', evs) ->
  url ∈ requested evs /\ Forall (eq url) (requested evs).
Proof.
  intros H. pose proof (fetch_frame _ _ _ _ _ _ H) as (_ & _ & _ & _ & _ & _ & Hall).
  split; [| exact Hall]. revert H. rewrite fetch_outcomes. intros H.
  destruct (net w (clock s) url);
    [| destruct (net w (S (clock s)) url);
       [| destruct (net w (S (S (clock s))) url) ..] ..];
    injection H as <- <- <-; cbn; set_solver.
Qed.

(** Backlinko: a link that no record carries is requested by a card
    loop that meets it. *)
Lemma backlinko_asks_for_unrecorded_link (lib : PyLib)
    (w : World Backlinko.Soup) (category : string)
    (cards : list (option Backlinko.LinkTag)) (card : option Backlinko.LinkTag)
    (l : string) :
  card ∈ cards ->
  Backlinko.card_link lib card = Some l ->
  forall A s A' s' evs,
  l ∉ links A ->
  Backlinko.scrape_cards lib w category cards A s = (A', s', evs) ->
  l ∈ requested evs.
Proof.
  intros Hin Hl. induction cards as [|card0 rest IH]; intros A s A' s' evs Hn H;
    [set_solver |].
  cbn [Backlinko.scrape_cards] in H.
  apply elem_of_cons in Hin as [<- | Hrest].
  - rewrite Hl in H.
    destruct (Backlinko.already_collected l A) eqn:Hc.
    { apply already_collected_spec in Hc. done. }
    unfold bind in H.
    destruct (_fetch_with_retries w l s) as [[r s1] e1] eqn:Ef.
    destruct (fetch_asks_for _ _ _ _ _ _ Ef) as [Hasked _].
    destruct r;
      destruct (Backlinko.scrape_cards lib w category rest _ s1)
        as [[A2 s2] e2];
      simplify_eq; rewrite requested_app; set_solver.
  - destruct (Backlinko.card_link lib card0) as [l0|] eqn:Hl0; [| eauto].
    destruct (Backlinko.already_collected l0 A); [eauto |].
    unfold bind in H.
    destruct (_fetch_with_retries w l0 s) as [[r s1] e1] eqn:Ef.
    destruct (fetch_asks_for _ _ _ _ _ _ Ef) as [Hasked _].
    destruct r as [soup|];
      destruct (Backlinko.scrape_cards lib w category rest _ s1)
        as [[A2 s2] e2] eqn:Es;
      simplify_eq; rewrite requested_app.
    + destruct (decide (l = l0)) as [-> | Hll]; [set_solver |].
      apply elem_of_app. right. eapply (IH Hrest); [| exact Es].
      rewrite links_app. cbn. set_solver.
    + apply elem_of_app. right. eapply (IH Hrest); [| exact Es]. done.
Qed.

(** Ahrefs: a header loop requests no link that was processed before. *)
Lemma ahrefs_asks_for_no_processed_link (lib : PyLib)
    (w : World Ahrefs.Soup) (category : string)
    (headers : list (option Ahrefs.LinkTag)) (l : string) :
  forall P A s P' A' s' evs,
  l ∈ P ->
  Ahrefs.scrape_headers lib w category headers P A s = (P', A', s', evs) ->
  (l ∉ requested evs) /\ l ∈ P'.
Proof.
  induction headers as [|header rest IH]; intros P A s P' A' s' evs Hp H;
    cbn [Ahrefs.scrape_headers] in H.
  - unfold ret in H. simplify_eq. split; [set_solver | done].
  - destruct (Ahrefs.usable_link header) as [l0|] eqn:Hl0; [| eauto].
    destruct (decide (l0 ∈ P)) as [Hin|Hnin]; [eauto |].
    unfold bind in H.
    destruct (_fetch_with_retries w l0 s) as [[r s1] e1] eqn:Ef.
    destruct (fetch_asks_for _ _ _ _ _ _ Ef) as [_ Hall].
    assert (Hne : l ∉ requested e1).
    { intros Hl. rewrite Forall_forall in Hall. apply Hall in Hl. set_solver. }
    assert (Hp' : l ∈ {[l0]} ∪ P) by set_solver.
    destruct r;
      destruct (Ahrefs.scrape_headers lib w category rest _ _ s1)
        as [[[P2 A2] s2] e2] eqn:Es;
      simplify_eq;
      destruct (IH _ _ _ _ _ _ _ Hp' Es) as [Hr Hp2];
      (split; [rewrite requested_app; set_solver | done]).
Qed.

Lemma ahrefs_pages_ask_for_no_processed_link (lib : PyLib)
    (w : World Ahrefs.Soup) (l : string) (category : string) :
  (forall n url soup,
     net w n url = Body soup -> Ahrefs.next_url lib soup <> Ahrefs.Follow l) ->
  forall fuel current_url P A s e s' evs,
  l ∈ P ->
  current_url <> l ->
  Ahrefs.scrape_pages lib w fuel category current_url P A s = (e, s', evs) ->
  (l ∉ requested evs)
  /\ forall P' A', e = Returned (P', A') -> l ∈ P'.
Proof.
  intros Hnext. induction fuel as [|fuel IH];
    intros current_url P A s e s' evs Hp Hne H; cbn [Ahrefs.scrape_pages] in H;
    (destruct (String.eqb current_url "");
     [unfold ret in H; simplify_eq; split; [set_solver |];
      intros P' A' Hr; now simplify_eq |]).
  - unfold ret in H. simplify_eq. split; [set_solver | discriminate].
  - unfold bind in H.
    destruct (_fetch_with_retries w current_url s) as [[r s1] e1] eqn:Ef.
    destruct (fetch_asks_for _ _ _ _ _ _ Ef) as [_ Hall].
    assert (Hn1 : l ∉ requested e1).
    { intros Hl. rewrite Forall_forall in Hall. apply Hall in Hl. done. }
    destruct r as [soup|].
    2:{ unfold ret in H. simplify_eq. rewrite app_nil_r.
        split; [done |]. intros P' A' Hr. now simplify_eq. }
    destruct (fetch_some_body _ _ _ _ _ _ Ef) as [n Hbody].
    destruct (Ahrefs.scrape_headers lib w category (Ahrefs.article_headers soup)
                P A s1) as [[[P1 A1] s2] e2] eqn:Eh.
    destruct (ahrefs_asks_for_no_processed_link _ _ _ _ _ _ _ _ _ _ _ _ Hp Eh)
      as [Hn2 Hp1].
    destruct (Ahrefs.next_url lib soup) as [next| |] eqn:Hn.
    + destruct (Ahrefs.scrape_pages lib w fuel category next P1 A1 s2)
        as [[o s3] e3] eqn:Ep.
      simplify_eq.
      assert (Hnl : next <> l).
      { intros ->. exact (Hnext _ _ _ Hbody Hn). }
      destruct (IH _ _ _ _ _ _ _ Hp1 Hnl Ep) as [Hn3 Hp3].
      split; [rewrite !requested_app; set_solver | done].
    + unfold ret in H. simplify_eq.
      split; [rewrite !requested_app; set_solver |].
      intros P' A' Hr. now simplify_eq.
    + unfold ret in H. simplify_eq.
      split; [rewrite !requested_app; set_solver | discriminate].
Qed.

(** X12. A link whose article page could not be fetched.  The initial
    scrape of Backlinko skips a link only when a record carries it: a
    fetch that fails leaves the records as they were, and a card loop
    requests every link it meets that no record carries; so the link is
    tried again whenever a later listing shows it.  The initial scrape
    of Ahrefs marks a link as processed before it fetches the page,
    whether or not the fetch succeeds: once a header loop has met a
    link, no later header loop requests it, and nothing in the rest of
    the run does, unless the link is itself the address of a listing
    page. *)
Theorem a_failed_link_is_tried_again_by_backlinko_only (lib : PyLib) :
  (forall (w : World Backlinko.Soup) category card rest l A s s1 e1,
     Backlinko.card_link lib card = Some l ->
     l ∉ links A ->
     _fetch_with_retries w l s = (None, s1, e1) ->
     Backlinko.scrape_cards lib w category (card :: rest) A s
     = let '(A', s', evs) := Backlinko.scrape_cards lib w category rest A s1 in
       (A', s', e1 ++ evs))
  /\ (forall (w : World Backlinko.Soup) category cards card l A s,
        card ∈ cards ->
        Backlinko.card_link lib card = Some l ->
        l ∉ links A ->
        let '(_, _, evs) := Backlinko.scrape_cards lib w category cards A s in
        l ∈ requested evs)
  /\ (forall (w : World Ahrefs.Soup) category headers header l P A s,
        header ∈ headers ->
        Ahrefs.usable_link header = Some l ->
        let '(P', _, _, _) :=
          Ahrefs.scrape_headers lib w category headers P A s in
        l ∈ P')
  /\ (forall (w : World Ahrefs.Soup) category headers l P A s,
        l ∈ P ->
        let '(P', _, _, evs) :=
          Ahrefs.scrape_headers lib w category headers P A s in
        (l ∉ requested evs) /\ l ∈ P')
  /\ (forall (w : World Ahrefs.Soup) fuel seeds l P A s,
        l ∈ P ->
        (forall seed, seed ∈ seeds -> snd seed <> l) ->
        (forall n url soup,
           net w n url = Body soup ->
           Ahrefs.next_url lib soup <> Ahrefs.Follow l) ->
        let '(_, _, evs) := Ahrefs.scrape_categories lib w fuel seeds P A s in
        l ∉ requested evs).
Proof.
  split_and!.
  - intros w category card rest l A s s1 e1 Hl Hn Hf.
    cbn [Backlinko.scrape_cards]. rewrite Hl.
    destruct (Backlinko.already_collected l A) eqn:Hc.
    { apply already_collected_spec in Hc. done. }
    unfold bind. rewrite Hf.
    now destruct (Backlinko.scrape_cards lib w category rest A s1) as [[A' s'] evs].
  - intros w category cards card l A s Hin Hl Hn.
    destruct (Backlinko.scrape_cards lib w category cards A s)
      as [[A' s'] evs] eqn:H.
    exact (backlinko_asks_for_unrecorded_link lib w category cards card l
             Hin Hl _ _ _ _ _ Hn H).
  - intros w category headers header l P A s Hin Hl.
    destruct (Ahrefs.scrape_headers lib w category headers P A s)
      as [[[P' A'] s'] evs] eqn:H.
    apply (scrape_headers_covers lib w _ _ _ _ _ _ _ _ _ H).
    apply list_elem_of_omap. eauto.
  - intros w category headers l P A s Hp.
    destruct (Ahrefs.scrape_headers lib w category headers P A s)
      as [[[P' A'] s'] evs] eqn:H.
    exact (ahrefs_asks_for_no_processed_link lib w category headers l
             _ _ _ _ _ _ _ Hp H).
  - intros w fuel seeds l P A s Hp Hseeds Hnext.
    revert P A s Hp. induction seeds as [|[category url] rest IH];
      intros P A s Hp; cbn [Ahrefs.scrape_categories].
    + unfold ret. set_solver.
    + unfold bind.
      destruct (Ahrefs.scrape_pages lib w fuel category url P A s)
        as [[o s1] e1] eqn:Ep.
      destruct (ahrefs_pages_ask_for_no_processed_link lib w l category Hnext
                  _ _ _ _ _ _ _ _ Hp
                  (Hseeds (category, url) ltac:(set_solver)) Ep)
        as [Hn1 Hp1].
      destruct o as [[P1 A1]| |]; [| unfold ret; now rewrite app_nil_r ..].
      specialize (IH ltac:(intros seed Hin; apply Hseeds; set_solver)
                     P1 A1 s1 (Hp1 _ _ eq_refl)).
      destruct (Ahrefs.scrape_categories lib w fuel rest P1 A1 s1)
        as [[o s2] e2].
      rewrite requested_app. set_solver.
Qed.

End Retry.

Section MozInitial.
Import Fetcher Moz.

Variable lib : PyLib.
Variable w : World Soup.

Lemma adds_fetch {Page : Type} (w0 : World Page) (url : string) (s s' : State)
    (r : option Page) (evs : list Event) (P : gset string) (A : list Article) :
  _fetch_with_retries w0 url s = (r, s', evs) -> adds P A s P A s' evs.
Proof.
  intros Hf.
  pose proof (fetch_frame _ _ _ _ _ _ Hf) as (F1 & F2 & _ & F3 & F4 & _).
  exists []. rewrite app_nil_r. split_and!; try done.
  - apply NoDup_nil_2.
  - intros l Hl. cbn in Hl. set_solver.
Qed.

Lemma adds_processed (l : string) P A s P' A' s' evs :
  adds ({[l]} ∪ P) A s P' A' s' evs -> adds P A s P' A' s' evs.
Proof.
  intros (a & -> & Hs & Hn & Hfr & G1 & G2 & G3 & G4).
  exists a. split_and!; try done; [set_solver |].
  intros l0 Hl0. destruct (Hfr l0 Hl0) as (? & ? & ?). split_and!; set_solver.
Qed.

Lemma moz_scrape_cards_adds (category : string) (cards : list Card) :
  forall P A s P' A' s' evs,
  scrape_cards lib w category cards P A s = (P', A', s', evs) ->
  adds P A s P' A' s' evs.
Proof.
  induction cards as [|card rest IH]; intros P A s P' A' s' evs H;
    cbn [scrape_cards] in H.
  - unfold ret in H. simplify_eq. apply adds_refl.
  - destruct (card_link lib card) as [l|] eqn:Hl; [| now apply IH].
    destruct (decide (l ∈ P)) as [Hin|Hnin]; [now apply IH |].
    unfold bind in H.
    destruct (_fetch_with_retries w l s) as [[r s1] e1] eqn:Ef.
    pose proof (adds_fetch w _ _ _ _ _ P A Ef) as Hfetch.
    destruct r as [article_soup|];
      destruct (scrape_cards lib w category rest _ _ s1)
        as [[[P2 A2] s2] e2] eqn:Es;
      simplify_eq; apply IH in Es.
    + destruct Es as (a & -> & Hs & Hn & Hfr & G1 & G2 & G3 & G4).
      pose proof (fetch_frame _ _ _ _ _ _ Ef) as (F1 & F2 & _ & F3 & F4 & _).
      pose proof (fetch_count _ _ _ _ _ _ Ef) as [_ Hfe].
      assert (Hasked : l ∈ requested e1).
      { pose proof (fetch_requested w _ _ _ _ _ Ef) as Hne.
        pose proof (fetch_frame _ _ _ _ _ _ Ef) as (_ & _ & _ & _ & _ & _ & Hall).
        destruct (requested e1) as [|u us]; [done |].
        apply Forall_cons in Hall as [<- _]. set_solver. }
      exists (article_data lib category l card article_soup :: a).
      rewrite <- app_assoc, requested_app.
      cbn [app links List.map link article_data].
      split_and!; try done; try congruence.
      * set_solver.
      * apply NoDup_cons. split; [| done].
        intros Hl2. destruct (Hfr l Hl2) as (? & _). set_solver.
      * intros l0 Hl0. apply elem_of_cons in Hl0 as [->|Hl0].
        -- split_and!; set_solver.
        -- destruct (Hfr l0 Hl0) as (? & ? & ?). split_and!; set_solver.
      * rewrite saves_app, F3, G3. reflexivity.
      * rewrite backups_app, F4, G4. reflexivity.
    + eapply adds_trans; [exact Hfetch |]. eapply adds_processed; eauto.
Qed.

Lemma adds_emit (e : Event) P A s P' A' s' evs :
  saves [e] = [] -> backups [e] = 0 -> requested [e] = [] ->
  adds P A s P' A' s' evs -> adds P A s P' A' s' (e :: evs).
Proof.
  intros H1 H2 H3 (a & -> & Hs & Hn & Hfr & G1 & G2 & G3 & G4).
  change (e :: evs) with ([e] ++ evs).
  exists a. rewrite saves_app, backups_app, requested_app, H1, H2, H3, G3, G4.
  split_and!; try done.
Qed.

Lemma moz_scrape_pages_adds (fuel : nat) (category : string) :
  forall current_url page_count P A s P' A' s' evs,
  scrape_pages lib w fuel category current_url page_count P A s
  = (Some (P', A'), s', evs) ->
  adds P A s P' A' s' evs.
Proof.
  induction fuel as [|fuel IH];
    intros current_url page_count P A s P' A' s' evs H;
    cbn [scrape_pages] in H;
    (destruct (String.eqb current_url "" || (MAX_PAGES_TO_SCRAPE <? page_count));
     [unfold ret in H; simplify_eq; apply adds_refl |]).
  - discriminate.
  - unfold bind, emit in H.
    destruct (_fetch_with_retries w current_url s) as [[r s1] e1] eqn:Ef.
    pose proof (adds_fetch w _ _ _ _ _ P A Ef) as Hfetch.
    destruct r as [soup|].
    2:{ unfold ret in H. simplify_eq. cbn [app]. rewrite app_nil_r.
        now apply adds_emit. }
    destruct (scrape_cards lib w category (article_cards soup) P A s1)
      as [[[P1 A1] s2] e2] eqn:Eh.
    apply moz_scrape_cards_adds in Eh.
    destruct (scrape_pages lib w fuel category (next_url lib soup)
                (page_count + 1) P1 A1 s2) as [[o s3] e3] eqn:Ep.
    simplify_eq. apply IH in Ep. cbn [app].
    apply adds_emit; try done.
    eapply adds_trans; [exact Hfetch |]. eapply adds_trans; eauto.
Qed.

Lemma moz_scrape_categories_spec (fuel : nat) (seeds : list (string * string)) :
  MAX_PAGES_TO_SCRAPE <= fuel ->
  forall P A s, exists P' A' s' evs,
    scrape_categories lib w fuel seeds P A s = (Some (P', A'), s', evs)
    /\ adds P A s P' A' s' evs
    /\ pages_started evs <= MAX_PAGES_TO_SCRAPE * length seeds.
Proof.
  intros Hfuel. induction seeds as [|[category start_url] rest IH]; intros P A s;
    cbn [scrape_categories].
  - unfold ret. eexists _, _, _, _. split_and!; [reflexivity | apply adds_refl |].
    cbn. lia.
  - unfold bind.
    destruct (moz_scrape_pages_bounded lib w category fuel start_url 1 P A s
                ltac:(unfold MAX_PAGES_TO_SCRAPE in *; lia))
      as ([P1 A1] & s1 & e1 & Hp & Hb).
    rewrite Hp.
    destruct (IH P1 A1 s1) as (P2 & A2 & s2 & e2 & -> & Ha & Hb2).
    eexists _, _, _, _. split_and!; [reflexivity | |].
    + eapply adds_trans; [| exact Ha]. eapply moz_scrape_pages_adds; eauto.
    + rewrite pages_started_app. cbn [length].
      unfold MAX_PAGES_TO_SCRAPE in *. lia.
Qed.

(** X13. The initial scrape of Moz always ends: MAX_PAGES_TO_SCRAPE = 5
    turns per category are enough whatever the site answers, at most
    5 * 15 = 75 listing pages are started in all, and the run replaces
    the store, in one save and with no backup, by records with pairwise
    distinct links. *)
Theorem moz_initial_run_always_ends (fuel : nat) (s : State) :
  MAX_PAGES_TO_SCRAPE <= fuel ->
  exists all s' evs,
    run_initial_scrape lib w fuel s = (Some all, s', evs)
    /\ pages_started evs <= MAX_PAGES_TO_SCRAPE * length SEED_URLS
    /\ json_file s' = Some {| titulo_sitio_web := "MOZ"; articles := all |}
    /\ saves evs = [{| titulo_sitio_web := "MOZ"; articles := all |}]
    /\ backups evs = 0
    /\ NoDup (links all).
Proof.
  intros Hfuel. unfold run_initial_scrape, bind.
  destruct (moz_scrape_categories_spec fuel SEED_URLS Hfuel ∅ [] s)
    as (P1 & A1 & s1 & e1 & -> & Ha & Hb).
  destruct Ha as (a & Ha & _ & Hn & _ & G1 & G2 & G3 & G4).
  cbn [app] in Ha. subst a.
  unfold _save_data, Engine._save_data, ret. cbn -[Nat.mul length SEED_URLS].
  exists A1. eexists _, _. split; [reflexivity |].
  rewrite !pages_started_app, saves_app, backups_app, G3, G4.
  cbn -[Nat.mul length SEED_URLS]. split_and!; try done. lia.
Qed.

End MozInitial.

Section ExcerptShape.
Import PyStr.

Lemma lstrip_length (s : string) : String.length (lstrip s) <= String.length s.
Proof.
  induction s as [|c s IH]; [reflexivity |].
  cbn [lstrip]. destruct (isspace c); cbn [String.length]; lia.
Qed.

Lemma rstrip_length (s : string) : String.length (rstrip s) <= String.length s.
Proof.
  induction s as [|c s IH]; [reflexivity |].
  cbn [rstrip]. destruct (rstrip s) as [|d kept].
  - destruct (isspace c); cbn [String.length]; lia.
  - cbn [String.length] in *. lia.
Qed.

Lemma strip_length (s : string) : String.length (strip s) <= String.length s.
Proof.
  unfold strip. etransitivity; [apply rstrip_length | apply lstrip_length].
Qed.

Lemma slice_to_length_le (n : nat) (s : string) :
  String.length (slice_to n s) <= n.
Proof.
  revert s. induction n as [|n IH]; intros s; [reflexivity |].
  destruct s as [|c s]; cbn [slice_to String.length]; [lia |].
  specialize (IH s). lia.
Qed.

Lemma excerpt_length (text : string) :
  String.length
    (if 70 <? String.length text
     then strip (slice_to 70 text) +:+ "..."
     else text) <= 73.
Proof.
  destruct (70 <? String.length text) eqn:H.
  - rewrite str_append_length.
    pose proof (strip_length (slice_to 70 text)).
    pose proof (slice_to_length_le 70 text). cbn [String.length]. lia.
  - apply Nat.ltb_ge in H. lia.
Qed.

(** X14. An excerpt built by [_create_excerpt] has at most 73
    characters: 70 of the text and the three dots. *)
Theorem excerpt_is_at_most_73_characters :
  (forall text, String.length (Moz._create_excerpt text) <= 73)
  /\ (forall lib html, String.length (Ahrefs._create_excerpt lib html) <= 73)
  /\ (forall lib html, String.length (Backlinko._create_excerpt lib html) <= 73)
  /\ (forall lib html, String.length (ElPlacer._create_excerpt lib html) <= 73).
Proof. split_and!; intros; apply excerpt_length. Qed.

Lemma excerpt_ends (text : string) :
  let derived := collapse text in
  let excerpt :=
    if 70 <? String.length derived
    then strip (slice_to 70 derived) +:+ "..."
    else derived in
  strip excerpt = excerpt /\ (excerpt = "" <-> derived = "").
Proof.
  cbv zeta.
  destruct (join_words (split text)) as (Hst & Hr & Hne).
  { apply (split_from_words text ""). reflexivity. }
  fold (collapse text) in *.
  destruct (70 <? String.length (collapse text)) eqn:Hlen.
  2:{ split; [now apply strip_fixed | reflexivity]. }
  apply Nat.ltb_lt in Hlen.
  destruct (collapse text) as [|c rest] eqn:Hd; [cbn in Hlen; lia |].
  cbn in Hst.
  change (slice_to 70 (String c rest)) with (String c (slice_to 69 rest)).
  assert (Hx : exists kept, strip (String c (slice_to 69 rest)) = String c kept).
  { unfold strip. rewrite (lstrip_starts_well (String c _)) by exact Hst.
    now apply rstrip_keeps_head. }
  destruct Hx as [kept ->].
  rewrite str_append_cons. split; [| split; intros E0; discriminate E0].
  apply strip_fixed; [exact Hst |].
  rewrite <- str_append_cons. apply rstrip_app. discriminate.
Qed.

(** X15. An excerpt built by [_create_excerpt] neither begins nor ends
    with a blank, and it is empty exactly when the text holds nothing
    but blanks. *)
Theorem excerpt_has_no_blank_at_either_end (text : string) :
  PyStr.strip (Moz._create_excerpt text) = Moz._create_excerpt text
  /\ (Moz._create_excerpt text = "" <-> PyStr.collapse text = "")
  /\ (forall lib html,
        get_text lib html = text ->
        PyStr.strip (Ahrefs._create_excerpt lib html)
        = Ahrefs._create_excerpt lib html).
Proof.
  pose proof (excerpt_ends text) as [H1 H2].
  split_and!; [exact H1 | exact H2 |].
  intros lib html <-. exact (proj1 (excerpt_ends (get_text lib html))).
Qed.

End ExcerptShape.

Section NormaliserWalk.
Import Dom.

Lemma find_all_elem (name : string) (attrs : list (string * string))
    (kids : list Node) :
  find_all (Elem name attrs kids) = walk 0 kids.
Proof. reflexivity. Qed.

Lemma decompose_all_elem unwanted (name : string)
    (attrs : list (string * string)) (kids : list Node) :
  decompose_all unwanted (Elem name attrs kids)
  = Elem name attrs (prune unwanted kids).
Proof. reflexivity. Qed.

Lemma tag_names_elem (name : string) (attrs : list (string * string))
    (kids : list Node) :
  tag_names (Elem name attrs kids) = name :: names_below kids.
Proof. reflexivity. Qed.

Lemma Node_forall_ind (P : Node -> Prop) :
  (forall s, P (Text s)) ->
  (forall s, P (Comment s)) ->
  (forall name attrs kids, Forall P kids -> P (Elem name attrs kids)) ->
  forall n, P n.
Proof.
  intros HT HC HE. fix IH 1.
  intros [s | s | name attrs kids]; [apply HT | apply HC |].
  apply HE. induction kids as [|k ks IHk]; constructor; [apply IH | exact IHk].
Qed.

(** Where the paths of [walk] lead. *)
Lemma walk_spec (ks : list Node) :
  forall i p,
  p ∈ walk i ks ->
  exists j name attrs kids q,
    p = (i + j) :: q
    /\ ks !! j = Some (Elem name attrs kids)
    /\ (q = [] \/ q ∈ find_all (Elem name attrs kids)).
Proof.
  induction ks as [|k ks IH]; intros i p Hp; [cbn in Hp; set_solver |].
  destruct k as [s | s | name attrs kids].
  - change (walk i (Text s :: ks)) with (walk (S i) ks) in Hp.
    destruct (IH _ _ Hp) as (j & n & a & kk & q & -> & Hj & Hq).
    exists (S j), n, a, kk, q. split_and!; try done. f_equal. lia.
  - change (walk i (Comment s :: ks)) with (walk (S i) ks) in Hp.
    destruct (IH _ _ Hp) as (j & n & a & kk & q & -> & Hj & Hq).
    exists (S j), n, a, kk, q. split_and!; try done. f_equal. lia.
  - change (walk i (Elem name attrs kids :: ks))
      with (([i] :: List.map (cons i) (find_all (Elem name attrs kids)))
            ++ walk (S i) ks) in Hp.
    apply elem_of_app in Hp as [Hp | Hp].
    + exists 0, name, attrs, kids.
      apply elem_of_cons in Hp as [-> | Hp].
      * exists []. split_and!; try done; [f_equal; lia | now left].
      * apply list_elem_of_fmap in Hp as (q & -> & Hq).
        exists q. split_and!; try done; [f_equal; lia | now right].
    + destruct (IH _ _ Hp) as (j & n & a & kk & q & -> & Hj & Hq).
      exists (S j), n, a, kk, q. split_and!; try done. f_equal. lia.
Qed.

Lemma names_below_lookup (ks : list Node) (j : nat) (k : Node) :
  ks !! j = Some k -> forall x, x ∈ tag_names k -> x ∈ names_below ks.
Proof.
  revert j. induction ks as [|k0 ks IH]; intros j Hj x Hx; [done |].
  change (names_below (k0 :: ks)) with (tag_names k0 ++ names_below ks).
  destruct j as [|j]; cbn in Hj.
  - simplify_eq. set_solver.
  - apply elem_of_app. right. eauto.
Qed.

(** Every path of [find_all] leads to an element, whose name is among the
    tag names below the root. *)
Lemma find_all_tag_at (n : Node) :
  forall p, p ∈ find_all n ->
  exists name attrs, tag_at p n = Some (name, attrs) /\ name ∈ tl (tag_names n).
Proof.
  induction n as [s | s | name attrs kids IH] using Node_forall_ind; intros p Hp.
  - cbn in Hp. set_solver.
  - cbn in Hp. set_solver.
  - rewrite find_all_elem in Hp. rewrite tag_names_elem. cbn [tl].
    destruct (walk_spec _ _ _ Hp) as (j & kn & ka & kk & q & -> & Hj & Hq).
    cbn [Nat.add]. unfold tag_at. cbn [get_at]. rewrite Hj.
    destruct Hq as [-> | Hq].
    + cbn [get_at]. exists kn, ka. split; [done |].
      eapply names_below_lookup; [exact Hj |]. rewrite tag_names_elem. set_solver.
    + rewrite Forall_forall in IH.
      destruct (IH _ (list_elem_of_lookup_2 _ _ _ Hj) q Hq)
        as (n' & a' & Ht & Hn).
      unfold tag_at in Ht. exists n', a'. split; [exact Ht |].
      eapply names_below_lookup; [exact Hj |].
      rewrite tag_names_elem in *. cbn [tl] in Hn. set_solver.
Qed.

(** Cutting elements out adds no tag name. *)
Lemma decompose_all_names unwanted (n : Node) :
  forall x, x ∈ tag_names (decompose_all unwanted n) -> x ∈ tag_names n.
Proof.
  induction n as [s | s | name attrs kids IH] using Node_forall_ind; intros x Hx;
    [exact Hx | exact Hx |].
  rewrite decompose_all_elem, tag_names_elem in Hx. rewrite tag_names_elem.
  apply elem_of_cons in Hx as [-> | Hx]; [set_solver |].
  apply elem_of_cons. right.
  induction IH as [|k ks Hk Hks IHks]; [exact Hx |].
  change (names_below (k :: ks)) with (tag_names k ++ names_below ks).
  destruct k as [s | s | kn ka kk].
  - change (prune unwanted (Text s :: ks)) with (Text s :: prune unwanted ks) in Hx.
    change (names_below (Text s :: prune unwanted ks))
      with (names_below (prune unwanted ks)) in Hx.
    set_solver.
  - change (prune unwanted (Comment s :: ks))
      with (Comment s :: prune unwanted ks) in Hx.
    change (names_below (Comment s :: prune unwanted ks))
      with (names_below (prune unwanted ks)) in Hx.
    set_solver.
  - change (prune unwanted (Elem kn ka kk :: ks))
      with (if unwanted kn ka then prune unwanted ks
            else decompose_all unwanted (Elem kn ka kk) :: prune unwanted ks) in Hx.
    destruct (unwanted kn ka); [set_solver |].
    change (names_below (decompose_all unwanted (Elem kn ka kk) :: prune unwanted ks))
      with (tag_names (decompose_all unwanted (Elem kn ka kk))
            ++ names_below (prune unwanted ks)) in Hx.
    apply elem_of_app in Hx as [Hx | Hx]; [| set_solver].
    apply Hk in Hx. set_solver.
Qed.

(** What is left after [decompose_all] is not matched by the selector. *)
Lemma decompose_all_clean unwanted (n : Node) :
  forall p, p ∈ find_all (decompose_all unwanted n) ->
  exists name attrs,
    tag_at p (decompose_all unwanted n) = Some (name, attrs)
    /\ unwanted name attrs = false.
Proof.
  induction n as [s | s | name attrs kids IH] using Node_forall_ind; intros p Hp.
  - cbn in Hp. set_solver.
  - cbn in Hp. set_solver.
  - rewrite decompose_all_elem in *. rewrite find_all_elem in Hp.
    destruct (walk_spec _ _ _ Hp) as (j & kn & ka & kk & q & -> & Hj & Hq).
    cbn [Nat.add]. unfold tag_at. cbn [get_at]. rewrite Hj.
    assert (Hk : exists k0, k0 ∈ kids /\ unwanted kn ka = false
                            /\ Elem kn ka kk = decompose_all unwanted k0).
    { clear -Hj. revert j Hj. induction kids as [|k ks IHks]; intros j Hj; [done |].
      destruct k as [s | s | n0 a0 k0].
      - change (prune unwanted (Text s :: ks)) with (Text s :: prune unwanted ks) in Hj.
        destruct j as [|j]; cbn in Hj; [discriminate |].
        destruct (IHks _ Hj) as (k1 & ? & ? & ?). exists k1. set_solver.
      - change (prune unwanted (Comment s :: ks))
          with (Comment s :: prune unwanted ks) in Hj.
        destruct j as [|j]; cbn in Hj; [discriminate |].
        destruct (IHks _ Hj) as (k1 & ? & ? & ?). exists k1. set_solver.
      - change (prune unwanted (Elem n0 a0 k0 :: ks))
          with (if unwanted n0 a0 then prune unwanted ks
                else decompose_all unwanted (Elem n0 a0 k0) :: prune unwanted ks) in Hj.
        destruct (unwanted n0 a0) eqn:Hu.
        + destruct (IHks _ Hj) as (k1 & ? & ? & ?). exists k1. set_solver.
        + destruct j as [|j].
          * change (Some (Elem n0 a0 (prune unwanted k0))
                    = Some (Elem kn ka kk)) in Hj.
            injection Hj as <- <- <-. exists (Elem n0 a0 k0).
            split_and!; [set_solver | done | now rewrite decompose_all_elem].
          * change (prune unwanted ks !! j = Some (Elem kn ka kk)) in Hj.
            destruct (IHks _ Hj) as (k1 & ? & ? & ?). exists k1. set_solver. }
    destruct Hk as (k0 & Hin & Hu & Heq).
    destruct Hq as [-> | Hq].
    + cbn [get_at]. eauto.
    + rewrite Forall_forall in IH. rewrite Heq in Hq |- *.
      exact (IH k0 Hin q Hq).
Qed.

Lemma get_at_update_at (f : Node -> Node) (p : path) :
  forall t e, get_at p t = Some e -> get_at p (update_at f p t) = Some (f e).
Proof.
  induction p as [|i p IH]; intros t e H; cbn [get_at update_at] in *.
  - now simplify_eq.
  - destruct t as [s | s | name attrs kids]; [discriminate | discriminate |].
    destruct (kids !! i) as [k|] eqn:Hk; [| discriminate].
    cbn [get_at]. rewrite list_lookup_alter, Hk. cbn.
    rewrite decide_True by done. now apply IH.
Qed.

Lemma clean_step_inv (allowed_tags allowed_attrs : list string) (ps : list path) :
  forall tree strs parts,
  strs = List.map str_node parts ->
  Forall (fun e => allowed_at_top allowed_tags allowed_attrs e = true) parts ->
  exists parts',
    snd (fold_left (clean_step allowed_tags allowed_attrs) ps (tree, strs))
    = List.map str_node parts'
    /\ Forall (fun e => allowed_at_top allowed_tags allowed_attrs e = true) parts'
    /\ length parts' <= length parts + length ps.
Proof.
  induction ps as [|p ps IH]; intros tree strs parts Hs Hall; cbn [fold_left].
  - exists parts. split_and!; try done. cbn; lia.
  - assert (Hskip : exists parts',
              snd (fold_left (clean_step allowed_tags allowed_attrs) ps (tree, strs))
              = List.map str_node parts'
              /\ Forall (fun e => allowed_at_top allowed_tags allowed_attrs e = true)
                   parts'
              /\ length parts' <= length parts + length (p :: ps)).
    { destruct (IH tree strs parts Hs Hall) as (parts' & ? & ? & ?).
      exists parts'. split_and!; try done. cbn [length]; lia. }
    unfold clean_step at 2.
    destruct (get_at p tree) as [[s | s | name attrs kids]|] eqn:Hg;
      try exact Hskip.
    destruct (mem name allowed_tags) eqn:Hm; [| exact Hskip].
    rewrite (get_at_update_at (keep_attrs allowed_attrs) p tree _ Hg).
    cbn [keep_attrs].
    destruct (IH (update_at (keep_attrs allowed_attrs) p tree)
                (strs ++ [str_node (Elem name
                   (List.filter (fun a => mem (fst a) allowed_attrs) attrs) kids)])
                (parts ++ [Elem name
                   (List.filter (fun a => mem (fst a) allowed_attrs) attrs) kids]))
      as (parts' & H1 & H2 & H3).
    + rewrite List.map_app, Hs. reflexivity.
    + apply Forall_app. split; [done |]. constructor; [| done].
      cbn [allowed_at_top]. rewrite Hm. cbn [andb].
      apply forallb_forall. intros a Ha. now apply filter_In in Ha as [_ ?].
    + exists parts'. split_and!; try done.
      rewrite length_app in H3. cbn [length] in *. lia.
Qed.

(** X16. What the normaliser returns is a sequence of serialised
    elements joined by newlines, each of which has an allowed tag and,
    among its own attributes, allowed ones only; there are at most as
    many of them as elements left in the content after the unwanted
    blocks were removed. *)
Theorem normaliser_parts_are_allowed_at_the_top
    (unwanted : string -> list (string * string) -> bool)
    (allowed_tags allowed_attrs : list string) (content_soup : Node) :
  exists parts,
    clean_html unwanted allowed_tags allowed_attrs content_soup
    = PyStr.join newline (List.map str_node parts)
    /\ Forall (fun e => allowed_at_top allowed_tags allowed_attrs e = true) parts
    /\ length parts <= length (find_all (decompose_all unwanted content_soup)).
Proof.
  unfold clean_html.
  destruct (clean_step_inv allowed_tags allowed_attrs
              (find_all (decompose_all unwanted content_soup))
              (decompose_all unwanted content_soup) [] [] eq_refl (Forall_nil_2 _))
    as (parts & H1 & H2 & H3).
  destruct (fold_left _ _ _) as [tree strs]. cbn [snd] in H1. subst strs.
  exists parts. split_and!; try done.
Qed.

(** X17. After the unwanted blocks were removed, nothing that the
    normaliser visits is matched by the selector of unwanted blocks:
    every path of [find_all] leads to an element that the selector does
    not match. *)
Theorem normaliser_visits_no_unwanted_element
    (unwanted : string -> list (string * string) -> bool) (content_soup : Node) :
  Forall (fun p =>
            exists name attrs,
              tag_at p (decompose_all unwanted content_soup) = Some (name, attrs)
              /\ unwanted name attrs = false)
         (find_all (decompose_all unwanted content_soup)).
Proof. apply Forall_forall. apply decompose_all_clean. Qed.

Lemma clean_step_nothing (allowed_tags allowed_attrs : list string)
    (tree : Node) (ps : list path) :
  Forall (fun p => forall name attrs,
            tag_at p tree = Some (name, attrs) -> mem name allowed_tags = false) ps ->
  forall strs,
  fold_left (clean_step allowed_tags allowed_attrs) ps (tree, strs) = (tree, strs).
Proof.
  induction 1 as [|p ps Hp Hps IH]; intros strs; cbn [fold_left]; [reflexivity |].
  unfold clean_step at 2. unfold tag_at in Hp.
  destruct (get_at p tree) as [[s | s | name attrs kids]|]; try apply IH.
  rewrite (Hp name attrs eq_refl). apply IH.
Qed.

(** X18. When no tag below the content root is allowed, the normaliser
    returns the empty string: text that stands in the root itself or in
    wrappers such as [div] and [span] is not kept. *)
Theorem nothing_is_kept_without_an_allowed_tag
    (unwanted : string -> list (string * string) -> bool)
    (allowed_tags allowed_attrs : list string) (content_soup : Node) :
  Forall (fun name => mem name allowed_tags = false) (tl (tag_names content_soup)) ->
  clean_html unwanted allowed_tags allowed_attrs content_soup = "".
Proof.
  intros Hnone. unfold clean_html.
  rewrite clean_step_nothing; [reflexivity |].
  apply Forall_forall. intros p Hp name attrs Ht.
  destruct (find_all_tag_at _ p Hp) as (n' & a' & Ht' & Hin).
  rewrite Ht in Ht'. simplify_eq.
  rewrite Forall_forall in Hnone. apply Hnone.
  destruct content_soup as [s | s | rn ra kids];
    [cbn in Hp; set_solver | cbn in Hp; set_solver |].
  rewrite decompose_all_elem, tag_names_elem in Hin. cbn [tl] in Hin.
  rewrite tag_names_elem. cbn [tl].
  clear -Hin. induction kids as [|k ks IH]; [exact Hin |].
  change (names_below (k :: ks)) with (tag_names k ++ names_below ks).
  destruct k as [s | s | kn ka kk].
  - change (prune unwanted (Text s :: ks)) with (Text s :: prune unwanted ks) in Hin.
    change (names_below (Text s :: prune unwanted ks))
      with (names_below (prune unwanted ks)) in Hin.
    set_solver.
  - change (prune unwanted (Comment s :: ks))
      with (Comment s :: prune unwanted ks) in Hin.
    change (names_below (Comment s :: prune unwanted ks))
      with (names_below (prune unwanted ks)) in Hin.
    set_solver.
  - change (prune unwanted (Elem kn ka kk :: ks))
      with (if unwanted kn ka then prune unwanted ks
            else decompose_all unwanted (Elem kn ka kk) :: prune unwanted ks) in Hin.
    destruct (unwanted kn ka); [set_solver |].
    change (names_below (decompose_all unwanted (Elem kn ka kk) :: prune unwanted ks))
      with (tag_names (decompose_all unwanted (Elem kn ka kk))
            ++ names_below (prune unwanted ks)) in Hin.
    apply elem_of_app in Hin as [Hin | Hin]; [| set_solver].
    apply decompose_all_names in Hin. set_solver.
Qed.

End NormaliserWalk.

Section BrowserLoops.

(** X1. The load-more loop of Google Developers has no bound of its
    own: as long as every turn presses a button, no number of turns ends
    the loop. *)
Theorem load_more_goes_on_while_a_button_is_pressed
    {Driver Button : Type} (selenium : Google.Selenium Driver Button)
    (d : Driver) :
  (forall i,
     snd (Google.poll_cycle _ _ selenium (after_cycles selenium i d))
     = Some true) ->
  forall fuel, Google.load_more_loop _ _ selenium fuel d = None.
Proof.
  intros H fuel. revert d H.
  induction fuel as [|fuel IH]; intros d H; [reflexivity |].
  cbn [Google.load_more_loop].
  pose proof (H 0) as H0. cbn [after_cycles] in H0.
  destruct (Google.poll_cycle _ _ selenium d) as [d' o] eqn:Hc.
  cbn [snd] in H0. subst o. apply IH.
  intros i. specialize (H (S i)). cbn [after_cycles] in H.
  now rewrite Hc in H.
Qed.

(** X2. The scroll loop of El Placer del SEO has no bound of its own:
    as long as every scroll changes the height of the page, no number of
    scrolls ends the loop. *)
Theorem scrolling_goes_on_while_the_page_grows
    {Driver : Type} (selenium : ElPlacer.Selenium Driver) (d : Driver) :
  (forall i,
     ElPlacer.scroll_height _ selenium (after_scrolls selenium (S i) d)
     <> ElPlacer.scroll_height _ selenium (after_scrolls selenium i d)) ->
  forall fuel,
    ElPlacer.scroll_loop _ selenium fuel d (ElPlacer.scroll_height _ selenium d)
    = None.
Proof.
  intros H fuel. revert d H.
  induction fuel as [|fuel IH]; intros d H; [reflexivity |].
  cbn [ElPlacer.scroll_loop].
  pose proof (H 0) as H0. cbn [after_scrolls] in H0.
  apply Nat.eqb_neq in H0. rewrite H0. apply IH.
  intros i. exact (H (S i)).
Qed.

End BrowserLoops.

Section ElPlacerInitial.
Import Fetcher ElPlacer.

Variable lib : PyLib.
Variable w : World Soup.

Lemma readable_content (url : string) (s : State) :
  readable w url ->
  exists content,
    _fetch_article_content w url s
    = (content, tick 1 s, [EDelay (uniform w (clock s)); EGet url true])
    /\ content <> "".
Proof.
  intros H. destruct (H (clock s)) as (soup & container & Hn & Hc & Hne).
  exists (_clean_html_content container). split; [| exact Hne].
  unfold _fetch_article_content. cbn [seq MAX_RETRIES try_content].
  unfold bind, emit, polite_delay, http_get, ret. cbn [clock].
  rewrite Hn, Hc. reflexivity.
Qed.

(** X19. The initial scrape of El Placer del SEO keeps no track of the
    links it has met: when the article pages can be read, it requests
    and records the cards one for one, in page order, after whatever was
    collected before; a link that is listed twice is recorded twice. *)
Theorem el_placer_records_every_listed_card
    (category : string) (cards : list Card) (A : list Article) (s : State) :
  (forall l, l ∈ omap card_link cards -> readable w l) ->
  let '(A', _, evs) := scrape_cards lib w category cards A s in
  links A' = links A ++ omap card_link cards
  /\ requested evs = omap card_link cards
  /\ (~ NoDup (omap card_link cards) -> ~ NoDup (links A')).
Proof.
  intros Hall.
  assert (Hmain : let '(A', _, evs) := scrape_cards lib w category cards A s in
                  links A' = links A ++ omap card_link cards
                  /\ requested evs = omap card_link cards).
  { revert A s. induction cards as [|card rest IH]; intros A s;
      cbn [scrape_cards].
    - unfold ret. cbn. now rewrite app_nil_r.
    - destruct (card_link card) as [l|] eqn:Hl.
      2:{ rewrite (omap_cons_none _ _ _ Hl) in *. now apply IH. }
      rewrite (omap_cons_some _ _ _ _ Hl) in *.
      destruct (readable_content l s (Hall l ltac:(set_solver)))
        as (content & Hf & Hne).
      unfold bind. rewrite Hf.
      apply String.eqb_neq in Hne. rewrite Hne.
      specialize (IH ltac:(intros l0 Hl0; apply Hall; set_solver)
                     (A ++ [article_data lib category l card content]) (tick 1 s)).
      destruct (scrape_cards lib w category rest _ (tick 1 s)) as [[A' s'] evs].
      destruct IH as [IH1 IH2]. rewrite IH1, links_app. cbn.
      rewrite <- app_assoc, IH2. done. }
  destruct (scrape_cards lib w category cards A s) as [[A' s'] evs].
  destruct Hmain as [H1 H2]. split_and!; try done.
  rewrite H1. intros Hdup Hnd. apply Hdup.
  now apply NoDup_app in Hnd as (_ & _ & ?).
Qed.

End ElPlacerInitial.

Section Launcher.
Import RunAll.

Lemma launched_app (a b : list Line) : launched (a ++ b) = launched a ++ launched b.
Proof.
  induction a as [|e a IH]; [reflexivity |].
  destruct e; cbn; now rewrite IH.
Qed.

Lemma run_each_all (run : nat -> string -> Outcome) (scrapers : list string) :
  (forall n scraper_path, run n scraper_path <> Raised) ->
  forall n,
    launched (fst (run_each run n scrapers)) = scrapers
    /\ snd (run_each run n scrapers) = true.
Proof.
  intros Hrun. induction scrapers as [|p rest IH]; intros n; [done |].
  cbn [run_each]. specialize (IH (S n)).
  destruct (run n p) as [out err | out err | |] eqn:Hr;
    [| | | now apply Hrun in Hr];
    destruct (run_each run (S n) rest) as [printed finished];
    cbn [fst snd] in *; destruct IH as [IH1 ->]; (split; [| done]).
  - destruct (String.eqb err ""); cbn; now rewrite ?launched_app, IH1.
  - cbn. now rewrite IH1.
  - cbn. now rewrite IH1.
Qed.

Lemma run_each_stops (run : nat -> string -> Outcome) (scrapers : list string) :
  forall n k scraper_path,
  scrapers !! k = Some scraper_path ->
  (forall i p, i < k -> run (n + i) p <> Raised) ->
  run (n + k) scraper_path = Raised ->
  launched (fst (run_each run n scrapers)) = take (S k) scrapers
  /\ snd (run_each run n scrapers) = false.
Proof.
  induction scrapers as [|p rest IH]; intros n k sp Hk Hbefore Hraise; [done |].
  cbn [run_each]. destruct k as [|k].
  - cbn in Hk. simplify_eq. replace (n + 0) with n in Hraise by lia.
    rewrite Hraise. cbn. now rewrite take_0.
  - cbn in Hk.
    specialize (IH (S n) k sp Hk).
    destruct IH as [IH1 IH2].
    { intros i p0 Hi. replace (S n + i) with (n + S i) by lia.
      apply Hbefore. lia. }
    { now replace (S n + k) with (n + S k) by lia. }
    pose proof (Hbefore 0 p ltac:(lia)) as H0.
    replace (n + 0) with n in H0 by lia.
    destruct (run n p) as [out err | out err | |] eqn:Hr; [| | | done];
      destruct (run_each run (S n) rest) as [printed finished];
      cbn [fst snd] in *; subst finished; (split; [| done]).
    + destruct (String.eqb err ""); cbn; now rewrite ?launched_app, IH1.
    + cbn. now rewrite IH1.
    + cbn. now rewrite IH1.
Qed.

(** X20. As long as no launch raises anything but CalledProcessError or
    FileNotFoundError, the launcher starts the seven scrapers one after
    the other in the order of SCRAPERS, whatever their exit statuses,
    and ends with its closing banner. *)
Theorem every_scraper_is_launched (run : nat -> string -> Outcome) :
  (forall n scraper_path, run n scraper_path <> Raised) ->
  let '(printed, finished) := run_scrapers run in
  launched printed = SCRAPERS
  /\ finished = true
  /\ last printed = Some PEnd.
Proof.
  intros Hrun. unfold run_scrapers.
  destruct (run_each_all run SCRAPERS Hrun 0) as [H1 H2].
  destruct (run_each run 0 SCRAPERS) as [printed finished].
  cbn [fst snd] in *. subst finished. split_and!; try done.
  - cbn [launched]. rewrite launched_app, H1. apply app_nil_r.
  - rewrite app_comm_cons, last_snoc. reflexivity.
Qed.

Lemma run_each_no_end (run : nat -> string -> Outcome) (scrapers : list string) :
  forall n, PEnd ∉ fst (run_each run n scrapers).
Proof.
  induction scrapers as [|p rest IH]; intros n; cbn [run_each].
  - cbn. set_solver.
  - specialize (IH (S n)).
    destruct (run n p) as [out err | out err | |];
      try (destruct (run_each run (S n) rest) as [printed finished]);
      cbn [fst] in *.
    + destruct (String.eqb err ""); cbn; set_solver.
    + cbn. set_solver.
    + cbn. set_solver.
    + set_solver.
Qed.

(** X21. When a launch raises another exception, the launcher stops
    there: the scrapers after it are not started and the closing banner
    is not printed. *)
Theorem an_unexpected_exception_stops_the_launcher
    (run : nat -> string -> Outcome) (k : nat) (scraper_path : string) :
  SCRAPERS !! k = Some scraper_path ->
  (forall i p, i < k -> run i p <> Raised) ->
  run k scraper_path = Raised ->
  let '(printed, finished) := run_scrapers run in
  launched printed = take (S k) SCRAPERS
  /\ finished = false
  /\ PEnd ∉ printed.
Proof.
  intros Hk Hbefore Hraise. unfold run_scrapers.
  destruct (run_each_stops run SCRAPERS 0 k scraper_path Hk Hbefore Hraise)
    as [H1 H2].
  destruct (run_each run 0 SCRAPERS) as [printed finished] eqn:He.
  pose proof (run_each_no_end run SCRAPERS 0) as Hend. rewrite He in Hend.
  cbn [fst snd] in *. subst finished. rewrite app_nil_r.
  split_and!; [exact H1 | reflexivity |].
  intros Hin. apply elem_of_cons in Hin as [Hin | Hin]; [discriminate | done].
Qed.

End Launcher.

(** ** The further properties on the sample sites *)
Section MoreRuns.
Import Fetcher Engine.

Lemma offline_is_down : down Sample.offline.
Proof. intros n url. reflexivity. Qed.


(** An update run on the sample site: five records, fetched in order
    after the listing page. *)
Lemma update_records_witness :
  let '(new, _, evs) :=
    run_update_scrape (Ahrefs.source Sample.lib) Sample.six_new
      Sample.one_stored in
  sublist (links new) (fetched evs)
  /\ Forall (fun l => l ∉ links (stored Sample.one_stored)) (links new).
Proof.
  apply (update_records_come_from_fetched_pages (Ahrefs.source Sample.lib)
           Sample.six_new Sample.one_stored).
  intros category article_link card soup. reflexivity.
Defined.

(** An update run with the site down: 45 requests, nothing else. *)
Lemma update_down_witness :
  let '(new, s', evs) :=
    run_update_scrape (Ahrefs.source Sample.lib) Sample.offline
      Sample.one_stored in
  new = []
  /\ requested evs
     = flat_map (fun seed => repeat (snd seed) MAX_RETRIES)
         (seed_urls (Ahrefs.source Sample.lib))
  /\ fetched evs = []
  /\ json_file s' = json_file Sample.one_stored
  /\ saves evs = [].
Proof.
  apply (update_when_the_site_is_down (Ahrefs.source Sample.lib)
           Sample.offline Sample.one_stored).
  intros n url. reflexivity.
Defined.

(** An update run with no JSON file: the file is created, with no
    backup. *)
Lemma update_without_file_witness :
  let '(new, s', evs) :=
    run_update_scrape (Ahrefs.source Sample.lib) Sample.six_new
      (Sample.start None) in
  backups evs = 0
  /\ json_backup s' = json_backup (Sample.start None)
  /\ (new <> [] ->
      json_file s'
      = Some {| titulo_sitio_web :=
                  stored_title (Ahrefs.source Sample.lib) (Sample.start None);
                articles := new ++ stored (Sample.start None) |})
  /\ (new = [] -> json_file s' = json_file (Sample.start None)).
Proof.
  apply (update_without_a_backup (Ahrefs.source Sample.lib) Sample.six_new
           (Sample.start None)).
  left. reflexivity.
Defined.

(** The initial scrape with the site down. *)
Lemma initial_down_witness :
  let '(r, s', evs) :=
    Ahrefs.run_initial_scrape Sample.lib Sample.offline 1 (Sample.start None) in
  r = Returned []
  /\ json_file s'
     = Some {| titulo_sitio_web := Ahrefs.SITE_TITLE; articles := [] |}
  /\ saves evs = [{| titulo_sitio_web := Ahrefs.SITE_TITLE; articles := [] |}]
  /\ requested evs
     = flat_map (fun seed => repeat (snd seed) MAX_RETRIES) Ahrefs.SEED_URLS
  /\ fetched evs = [].
Proof.
  apply (initial_run_when_the_site_is_down Sample.lib Sample.offline 0
           (Sample.start None)).
  intros n url. reflexivity.
Defined.


(** Moz, on a listing whose every page names a next page. *)
Lemma moz_initial_witness :
  exists all s' evs,
    Moz.run_initial_scrape Sample.lib Sample.moz_endless 5 (Sample.start None)
    = (Some all, s', evs)
    /\ pages_started evs <= Moz.MAX_PAGES_TO_SCRAPE * length Moz.SEED_URLS
    /\ json_file s' = Some {| titulo_sitio_web := "MOZ"; articles := all |}
    /\ saves evs = [{| titulo_sitio_web := "MOZ"; articles := all |}]
    /\ backups evs = 0
    /\ NoDup (links all).
Proof.
  apply (moz_initial_run_always_ends Sample.lib Sample.moz_endless 5
           (Sample.start None)).
  unfold Moz.MAX_PAGES_TO_SCRAPE. lia.
Defined.

Example moz_endless_initial_run_starts_75_pages :
  let '(r, _, evs) :=
    Moz.run_initial_scrape Sample.lib Sample.moz_endless 5 (Sample.start None) in
  r = Some [] /\ pages_started evs = 75.
Proof. vm_compute. split; reflexivity. Qed.

(** Wrappers and bare text only: nothing is kept. *)
Lemma nothing_kept_witness :
  Ahrefs._clean_html_content Sample.wrappers_only = "".
Proof.
  apply (nothing_is_kept_without_an_allowed_tag Ahrefs.unwanted
           Ahrefs.allowed_tags Ahrefs.allowed_attrs Sample.wrappers_only).
  repeat constructor.
Defined.

(** A button that never goes away. *)
Lemma load_more_witness :
  Google.load_more_loop nat unit Sample.sticky_button 1000 0 = None.
Proof.
  apply (load_more_goes_on_while_a_button_is_pressed Sample.sticky_button 0).
  intros i. reflexivity.
Defined.

(** A page that grows at every scroll. *)
Lemma scrolling_witness :
  ElPlacer.scroll_loop nat Sample.bottomless 1000 0
    (ElPlacer.scroll_height nat Sample.bottomless 0) = None.
Proof.
  apply (scrolling_goes_on_while_the_page_grows Sample.bottomless 0).
  assert (H : forall i d, after_scrolls Sample.bottomless i d = i + d).
  { induction i as [|i IH]; intros d; [reflexivity |].
    cbn [after_scrolls Sample.bottomless ElPlacer.sleep
         ElPlacer.scroll_to_bottom]. rewrite IH. lia. }
  intros i. rewrite !H. cbn [Sample.bottomless ElPlacer.scroll_height]. lia.
Defined.

(** El Placer del SEO: a card listed twice is recorded twice. *)
Lemma el_placer_witness :
  let '(A', _, evs) :=
    ElPlacer.scrape_cards Sample.lib Sample.el_placer_site "estrategia-seo"
      [Sample.el_placer_card; Sample.el_placer_card] [] (Sample.start None) in
  links A' = links [] ++ omap ElPlacer.card_link
                           [Sample.el_placer_card; Sample.el_placer_card]
  /\ requested evs
     = omap ElPlacer.card_link [Sample.el_placer_card; Sample.el_placer_card]
  /\ (~ NoDup (omap ElPlacer.card_link
                 [Sample.el_placer_card; Sample.el_placer_card]) ->
      ~ NoDup (links A')).
Proof.
  apply (el_placer_records_every_listed_card Sample.lib Sample.el_placer_site
           "estrategia-seo" [Sample.el_placer_card; Sample.el_placer_card] []
           (Sample.start None)).
  intros l Hl n.
  assert (l = "e0") as ->.
  { change (omap ElPlacer.card_link [Sample.el_placer_card; Sample.el_placer_card])
      with ["e0"; "e0"] in Hl. set_solver. }
  eexists _, _. split_and!; [reflexivity | reflexivity |].
  vm_compute. discriminate.
Defined.

Example el_placer_duplicate :
  let '(A', _, _) :=
    ElPlacer.scrape_cards Sample.lib Sample.el_placer_site "estrategia-seo"
      [Sample.el_placer_card; Sample.el_placer_card] [] (Sample.start None) in
  links A' = ["e0"; "e0"] /\ List.map titulo_entrada A' = ["Hola"; "Hola"].
Proof. vm_compute. split; reflexivity. Qed.

(** A scraper that exits with an error does not hold the others up. *)
Lemma launcher_witness :
  let '(printed, finished) := RunAll.run_scrapers Sample.third_fails in
  RunAll.launched printed = RunAll.SCRAPERS
  /\ finished = true
  /\ last printed = Some RunAll.PEnd.
Proof.
  apply (every_scraper_is_launched Sample.third_fails).
  intros n scraper_path. unfold Sample.third_fails.
  destruct (n =? 2); discriminate.
Defined.

(** An exception of another kind at the third launch. *)
Lemma launcher_stops_witness :
  let '(printed, finished) := RunAll.run_scrapers Sample.third_raises in
  RunAll.launched printed = take 3 RunAll.SCRAPERS
  /\ finished = false
  /\ RunAll.PEnd ∉ printed.
Proof.
  apply (an_unexpected_exception_stops_the_launcher Sample.third_raises 2
           "scrapers/carlos_sanchez_scraper.py").
  - reflexivity.
  - intros i p Hi. unfold Sample.third_raises.
    destruct i as [|[|i]]; [discriminate | discriminate | lia].
  - reflexivity.
Defined.

End MoreRuns.

Section GoogleInitial.
Import Fetcher Google.

Variable lib : PyLib.
Variable w : World Soup.

(** The content fetch asks for its URL only, and leaves the files
    alone. *)
Lemma google_content_frame (url : string) (s s' : State) (content : string)
    (evs : list Event) :
  _fetch_article_content w url s = (content, s', evs) ->
  json_file s' = json_file s /\ json_backup s' = json_backup s
  /\ saves evs = [] /\ backups evs = 0
  /\ Forall (eq url) (requested evs)
  /\ length (requested evs) <= MAX_RETRIES.
Proof.
  unfold _fetch_article_content, MAX_RETRIES.
  cbn [seq try_content]. unfold bind, emit, polite_delay, http_get, ret.
  cbn [clock Nat.add Nat.eqb MAX_RETRIES].
  destruct (net w (clock s) url); cbn;
    [| destruct (net w (S (clock s)) url); cbn;
       [| destruct (net w (S (S (clock s))) url); cbn ..] ..];
    intros H; injection H as <- <- <-; cbn;
    split_and!; try done; repeat constructor.
Qed.

Lemma google_article_link (category l : string) (card : Card)
    (content : string) (a : Article) :
  article_data lib category l card content = Some a -> link a = l.
Proof.
  unfold article_data. destruct (excerpt_tag card); [| discriminate].
  intros H. now simplify_eq.
Qed.

(** X22. Google Developers: while the initial scrape scans the cards of
    a category page, the records it adds have pairwise distinct links,
    none of which was processed before; every link of the page is
    processed afterwards, whether or not its content could be read;
    every request is for a link of the page that was not processed
    before; and the JSON file is not touched. *)
Theorem google_initial_scan_keeps_links_apart
    (category : string) (cards : list Card)
    (P : gset string) (A : list Article) (s : State) :
  let '(P', A', s', evs) := scrape_cards lib w category cards P A s in
  exists added,
    A' = A ++ added
    /\ NoDup (links added)
    /\ Forall (fun l => (l ∉ P) /\ l ∈ P') (links added)
    /\ P ∪ list_to_set (omap (card_link lib) cards) ⊆ P'
    /\ Forall (fun u => u ∈ omap (card_link lib) cards /\ (u ∉ P))
         (requested evs)
    /\ json_file s' = json_file s
    /\ saves evs = [].
Proof.
  revert P A s. induction cards as [|card rest IH]; intros P A s;
    cbn [scrape_cards].
  - unfold ret. exists []. rewrite app_nil_r.
    split_and!; try done; try apply Forall_nil_2; [apply NoDup_nil_2 | set_solver].
  - destruct (card_link lib card) as [l|] eqn:Hl.
    2:{ specialize (IH P A s).
        destruct (scrape_cards lib w category rest P A s) as [[[P' A'] s'] evs].
        destruct IH as (added & ? & ? & ? & ? & Hreq & ? & ?).
        exists added. rewrite (omap_cons_none _ _ _ Hl). done. }
    rewrite (omap_cons_some _ _ _ _ Hl).
    destruct (decide (l ∈ P)) as [Hin|Hnin].
    { specialize (IH P A s).
      destruct (scrape_cards lib w category rest P A s) as [[[P' A'] s'] evs].
      destruct IH as (added & ? & ? & ? & ? & Hreq & ? & ?).
      exists added. split_and!; try done; [set_solver |].
      eapply Forall_impl; [exact Hreq |]. intros u [? ?]. set_solver. }
    unfold bind.
    destruct (_fetch_article_content w l s) as [[content s1] e1] eqn:Ef.
    pose proof (google_content_frame _ _ _ _ _ Ef) as (F1 & _ & F3 & _ & Hall & _).
    assert (Hgen : forall A1 extra,
      A1 = A ++ extra -> links extra = [] \/ links extra = [l] ->
      let '(P', A', s', e2) :=
        scrape_cards lib w category rest ({[l]} ∪ P) A1 s1 in
      exists added,
        A' = A ++ added
        /\ NoDup (links added)
        /\ Forall (fun l0 => (l0 ∉ P) /\ l0 ∈ P') (links added)
        /\ P ∪ list_to_set (l :: omap (card_link lib) rest) ⊆ P'
        /\ Forall (fun u => u ∈ l :: omap (card_link lib) rest /\ (u ∉ P))
             (requested (e1 ++ e2))
        /\ json_file s' = json_file s
        /\ saves (e1 ++ e2) = []).
    { intros A1 extra -> Hextra. specialize (IH ({[l]} ∪ P) (A ++ extra) s1).
      destruct (scrape_cards lib w category rest ({[l]} ∪ P) (A ++ extra) s1)
        as [[[P' A'] s'] e2].
      destruct IH as (added & -> & Hn & Hf & Hsub & Hreq & G1 & G2).
      exists (extra ++ added). rewrite app_assoc, links_app.
      rewrite Forall_forall in Hf.
      split_and!; try done.
      - apply NoDup_app. split_and!; try done.
        + destruct Hextra as [-> | ->]; [apply NoDup_nil_2 | apply NoDup_singleton].
        + intros x Hx Hx'. destruct (Hf x Hx') as [Hx1 _].
          destruct Hextra as [He | He]; rewrite He in Hx; set_solver.
      - apply Forall_app. split.
        + destruct Hextra as [-> | ->]; [apply Forall_nil_2 |].
          constructor; [| apply Forall_nil_2]. set_solver.
        + apply Forall_forall. intros x Hx. destruct (Hf x Hx). set_solver.
      - set_solver.
      - rewrite requested_app. apply Forall_app. split.
        + eapply Forall_impl; [exact Hall |]. intros u <-. set_solver.
        + eapply Forall_impl; [exact Hreq |]. intros u [? ?]. set_solver.
      - congruence.
      - rewrite saves_app, F3, G2. reflexivity. }
    destruct (String.eqb content "").
    { specialize (Hgen A [] ltac:(now rewrite app_nil_r) ltac:(now left)).
      destruct (scrape_cards lib w category rest ({[l]} ∪ P) A s1)
        as [[[P' A'] s'] e2]. exact Hgen. }
    destruct (article_data lib category l card content) as [data|] eqn:Hd.
    + specialize (Hgen (A ++ [data]) [data] eq_refl
                    ltac:(right; cbn;
                          now rewrite (google_article_link _ _ _ _ _ Hd))).
      destruct (scrape_cards lib w category rest ({[l]} ∪ P) (A ++ [data]) s1)
        as [[[P' A'] s'] e2]. exact Hgen.
    + specialize (Hgen A [] ltac:(now rewrite app_nil_r) ltac:(now left)).
      destruct (scrape_cards lib w category rest ({[l]} ∪ P) A s1)
        as [[[P' A'] s'] e2]. exact Hgen.
Qed.

End GoogleInitial.

Section MozMain.
Import Fetcher Moz.

Variable lib : PyLib.
Variable w : World Soup.

(** X23. The entry point of Moz always ends, in either mode, within
    MAX_PAGES_TO_SCRAPE turns per category.  A run writes the store at
    most once and the backup at most once; a first run, with no JSON
    file, writes no backup and saves what it accumulated, even when that
    is nothing; an update run that finds nothing saves nothing. *)
Theorem moz_main_always_ends (fuel : nat) (s : State) :
  MAX_PAGES_TO_SCRAPE <= fuel ->
  exists r s' evs,
    main lib w fuel s = (Some r, s', evs)
    /\ length (saves evs) <= 1
    /\ backups evs <= 1
    /\ (json_file s = None ->
        backups evs = 0
        /\ saves evs = [{| titulo_sitio_web := "MOZ"; articles := r |}])
    /\ (json_file s <> None -> r = [] -> saves evs = []).
Proof.
  intros Hfuel. unfold main. destruct (json_file s) as [data|] eqn:Hj.
  - unfold bind.
    destruct (run_update_scrape lib w s) as [[new s'] evs] eqn:H.
    pose proof (run_update_spec (source lib) w _ _ _ _ H)
      as (Hnone & Hsome & _ & Hnb & _).
    unfold ret. rewrite app_nil_r. exists new, s', evs.
    split_and!; try done.
    + destruct new as [|a new].
      * destruct (Hnone eq_refl) as [_ ->]. cbn. lia.
      * destruct (Hsome ltac:(discriminate)) as [_ ->]. cbn. lia.
    + rewrite Hnb, Hj. destruct (copyfile_ok w); lia.
    + intros _ ->. now destruct (Hnone eq_refl).
  - unfold run_initial_scrape, bind.
    destruct (moz_scrape_categories_spec lib w fuel SEED_URLS Hfuel ∅ [] s)
      as (P1 & A1 & s1 & e1 & -> & Ha & _).
    destruct Ha as (a & Ha & _ & _ & _ & _ & _ & G3 & G4).
    cbn [app] in Ha. subst a.
    unfold _save_data, Engine._save_data, ret. cbn.
    exists A1. eexists _, _. split; [reflexivity |].
    rewrite !saves_app, backups_app, G3, G4. cbn. split_and!; try done; lia.
Qed.

End MozMain.

Section MozRuns.
Import Fetcher.

(** Moz: a first run on a listing without end. *)
Lemma moz_main_witness :
  exists r s' evs,
    Moz.main Sample.lib Sample.moz_endless 5 (Sample.start None)
    = (Some r, s', evs)
    /\ length (saves evs) <= 1
    /\ backups evs <= 1
    /\ (json_file (Sample.start None) = None ->
        backups evs = 0
        /\ saves evs = [{| titulo_sitio_web := "MOZ"; articles := r |}])
    /\ (json_file (Sample.start None) <> None -> r = [] -> saves evs = []).
Proof.
  apply (moz_main_always_ends Sample.lib Sample.moz_endless 5 (Sample.start None)).
  unfold Moz.MAX_PAGES_TO_SCRAPE. lia.
Defined.

End MozRuns.

Section BacklinkoFirstUpdate.
Import Fetcher Backlinko.

Variable lib : PyLib.
Variable w : World Soup.

Lemma backlinko_scrape_cards_covers (category : string)
    (cards : list (option LinkTag)) :
  steady w ->
  forall A s A' s' evs,
  scrape_cards lib w category cards A s = (A', s', evs) ->
  forall l, l ∈ omap (card_link lib) cards ->
            l ∈ links A' \/ unreachable w l.
Proof.
  intros Hs. induction cards as [|card rest IH]; intros A s A' s' evs H l Hl;
    cbn [scrape_cards] in H.
  - cbn in Hl. set_solver.
  - destruct (card_link lib card) as [l0|] eqn:Hl0.
    2:{ rewrite (omap_cons_none _ _ _ Hl0) in Hl. eauto. }
    rewrite (omap_cons_some _ _ _ _ Hl0) in Hl.
    assert (Hgrow : forall A1 s1 e1,
              scrape_cards lib w category rest A1 s1 = (A', s', e1) ->
              forall x, x ∈ links A1 -> x ∈ links A').
    { intros A1 s1 e1 H1 x Hx. apply scrape_cards_collects in H1.
      destruct H1 as (added & -> & _). rewrite links_app. set_solver. }
    destruct (already_collected l0 A) eqn:Hc.
    { apply elem_of_cons in Hl as [-> | Hl]; [| eauto].
      left. eapply Hgrow; [exact H |]. now apply already_collected_spec. }
    unfold bind in H.
    destruct (_fetch_with_retries w l0 s) as [[r s1] e1] eqn:Ef.
    destruct r as [article_soup|];
      destruct (scrape_cards lib w category rest _ s1) as [[A2 s2] e2] eqn:Es;
      simplify_eq.
    + apply elem_of_cons in Hl as [-> | Hl]; [| eauto].
      left. eapply Hgrow; [exact Es |]. rewrite links_app. cbn. set_solver.
    + apply elem_of_cons in Hl as [-> | Hl]; [| eauto].
      right. eapply steady_none; eauto.
Qed.

Lemma backlinko_scrape_pages_covers (fuel : nat) (category : string) :
  steady w ->
  forall current_url A s A' s' evs,
  scrape_pages lib w fuel category current_url A s = (Some A', s', evs) ->
  current_url <> "" ->
  covered (source lib) w current_url (links A').
Proof.
  intros Hs. destruct fuel as [|fuel];
    intros current_url A s A' s' evs H Hne; cbn [scrape_pages] in H;
    (destruct (String.eqb current_url "") eqn:He;
     [apply String.eqb_eq in He; done |]); [discriminate |].
  unfold bind in H.
  destruct (_fetch_with_retries w current_url s) as [[r s1] e1] eqn:Ef.
  destruct r as [soup|].
  2:{ intros soup Hsoup. pose proof (steady_none w _ _ _ _ Hs Ef 0) as Hun.
      now rewrite Hsoup in Hun. }
  destruct (scrape_cards lib w category (article_cards soup) A s1)
    as [[A1 s2] e2] eqn:Eh.
  pose proof (backlinko_scrape_cards_covers _ _ Hs _ _ _ _ _ Eh) as Hcov.
  intros soup' Hsoup' l Hl.
  pose proof (steady_some w _ _ _ _ _ Hs Ef 0) as Hb.
  rewrite Hsoup' in Hb. simplify_eq.
  destruct (Hcov l Hl) as [Hin | ?]; [left | now right].
  destruct (next_url lib soup) as [next|].
  - destruct (scrape_pages lib w fuel category next A1 s2) as [[o s3] e3] eqn:Ep.
    simplify_eq. apply scrape_pages_collects in Ep.
    destruct Ep as (added & -> & _). rewrite links_app. set_solver.
  - unfold ret in H. now simplify_eq.
Qed.

Lemma backlinko_scrape_categories_covers (fuel : nat)
    (seeds : list (string * string)) :
  steady w ->
  Forall (fun seed => snd seed <> "") seeds ->
  forall A s A' s' evs,
  scrape_categories lib w fuel seeds A s = (Some A', s', evs) ->
  Forall (fun seed => covered (source lib) w (snd seed) (links A')) seeds.
Proof.
  intros Hs. induction 1 as [|[category url] rest Hu Hrest IH];
    intros A s A' s' evs H; cbn [scrape_categories] in H; [constructor |].
  unfold bind in H.
  destruct (scrape_pages lib w fuel category url A s) as [[o s1] e1] eqn:Ep.
  destruct o as [A1|]; [| unfold ret in H; simplify_eq].
  destruct (scrape_categories lib w fuel rest A1 s1) as [[o s2] e2] eqn:Ec.
  simplify_eq. constructor; [| eauto].
  cbn [snd] in *.
  pose proof (backlinko_scrape_pages_covers _ _ Hs _ _ _ _ _ _ Ep Hu) as Hcov.
  apply scrape_categories_collects in Ec. destruct Ec as (added & -> & _).
  intros soup Hsoup l Hl. destruct (Hcov soup Hsoup l Hl) as [? | ?];
    [left; rewrite links_app; set_solver | now right].
Qed.

(** X24. Backlinko, on a site that answers every request for a URL the
    same way: once the initial scrape has ended and stored what it
    accumulated, the entry point takes the update mode and finds
    nothing.  It returns no record, leaves the JSON file as the initial
    scrape wrote it and saves nothing: the first page of every category
    was scanned by the initial scrape, and each link it shows is stored
    or still cannot be fetched. *)
Theorem backlinko_first_update_finds_nothing
    (fuel : nat) (s s1 : State) (all : list Article) (e1 : list Event) :
  steady w ->
  run_initial_scrape lib w fuel s = (Some all, s1, e1) ->
  exists s2 e2,
    main lib w fuel s1 = (Some [], s2, e2)
    /\ json_file s2 = json_file s1
    /\ saves e2 = [].
Proof.
  intros Hs H. unfold run_initial_scrape, bind in H.
  destruct (scrape_categories lib w fuel SEED_URLS [] s) as [[o s0] e0] eqn:Ec.
  destruct o as [A1|]; [| unfold ret in H; simplify_eq].
  unfold Engine._save_data, ret in H. cbn in H. simplify_eq.
  pose proof (backlinko_scrape_categories_covers fuel SEED_URLS Hs
                ltac:(repeat constructor; discriminate) _ _ _ _ _ Ec) as Hcov.
  destruct (run_update_all_known (source lib) w
              {| clock := clock s0;
                 json_file := Some {| titulo_sitio_web := "Backlinko";
                                      articles := all |};
                 json_backup := json_backup s0 |} Hs Hcov)
    as (s2 & e2 & Hrun & Hf & Hsv).
  exists s2, e2. unfold main. cbn [json_file]. unfold bind.
  unfold run_update_scrape. rewrite Hrun. unfold ret. rewrite app_nil_r. done.
Qed.

Lemma backlinko_run_initial_returns (rank : string -> nat) (fuel : nat)
    (s : State) :
  backlinko_descending lib w rank ->
  Forall (fun seed => rank (snd seed) < fuel) SEED_URLS ->
  exists all s' evs, run_initial_scrape lib w fuel s = (Some all, s', evs).
Proof.
  intros Hd Hall. unfold run_initial_scrape, bind.
  destruct (backlinko_scrape_categories_returns lib w rank fuel Hd SEED_URLS
              [] s Hall) as (A1 & s1 & e1 & ->).
  unfold Engine._save_data, ret. cbn. eauto.
Qed.

End BacklinkoFirstUpdate.

Section MozFirstUpdate.
Import Fetcher Moz.

Variable lib : PyLib.
Variable w : World Soup.

(** Every processed link is recorded, or cannot be fetched. *)
Lemma moz_scrape_cards_settled (category : string) (cards : list Card) :
  steady w ->
  forall P A s P' A' s' evs,
  scrape_cards lib w category cards P A s = (P', A', s', evs) ->
  (forall l, l ∈ P -> l ∈ links A \/ unreachable w l) ->
  (forall l, l ∈ P' -> l ∈ links A' \/ unreachable w l)
  /\ (forall l, l ∈ omap (card_link lib) cards -> l ∈ P').
Proof.
  intros Hs. induction cards as [|card rest IH];
    intros P A s P' A' s' evs H Hinv; cbn [scrape_cards] in H.
  - unfold ret in H. simplify_eq. split; [done |]. cbn. set_solver.
  - destruct (card_link lib card) as [l|] eqn:Hl.
    2:{ rewrite (omap_cons_none _ _ _ Hl). eauto. }
    rewrite (omap_cons_some _ _ _ _ Hl).
    assert (Hgrow : forall P1 A1 s1 e1,
              scrape_cards lib w category rest P1 A1 s1 = (P', A', s', e1) ->
              P1 ⊆ P').
    { intros P1 A1 s1 e1 H1. apply moz_scrape_cards_adds in H1.
      now destruct H1 as (a & _ & ? & _). }
    destruct (decide (l ∈ P)).
    { destruct (IH _ _ _ _ _ _ _ H Hinv) as [IH1 IH2]. split; [done |].
      intros l0 Hl0. apply elem_of_cons in Hl0 as [-> | Hl0]; [| auto].
      eapply Hgrow; eauto. }
    unfold bind in H.
    destruct (_fetch_with_retries w l s) as [[r s1] e1] eqn:Ef.
    destruct r as [article_soup|];
      destruct (scrape_cards lib w category rest _ _ s1)
        as [[[P2 A2] s2] e2] eqn:Es;
      simplify_eq.
    + destruct (IH _ _ _ _ _ _ _ Es) as [IH1 IH2].
      { intros l0 Hl0. apply elem_of_union in Hl0 as [Hl0|Hl0].
        - left. apply elem_of_singleton in Hl0 as ->.
          rewrite links_app. cbn. set_solver.
        - destruct (Hinv l0 Hl0) as [?|?]; [| now right].
          left. rewrite links_app. set_solver. }
      split; [done |].
      intros l0 Hl0. apply elem_of_cons in Hl0 as [-> | Hl0]; [| auto].
      pose proof (Hgrow _ _ _ _ Es). set_solver.
    + destruct (IH _ _ _ _ _ _ _ Es) as [IH1 IH2].
      { intros l0 Hl0. apply elem_of_union in Hl0 as [Hl0|Hl0].
        - right. apply elem_of_singleton in Hl0 as ->.
          eapply steady_none; eauto.
        - now apply Hinv. }
      split; [done |].
      intros l0 Hl0. apply elem_of_cons in Hl0 as [-> | Hl0]; [| auto].
      pose proof (Hgrow _ _ _ _ Es). set_solver.
Qed.

Lemma moz_scrape_pages_settled (fuel : nat) (category : string) :
  steady w ->
  forall current_url page_count P A s P' A' s' evs,
  scrape_pages lib w fuel category current_url page_count P A s
  = (Some (P', A'), s', evs) ->
  (forall l, l ∈ P -> l ∈ links A \/ unreachable w l) ->
  (forall l, l ∈ P' -> l ∈ links A' \/ unreachable w l)
  /\ P ⊆ P'
  /\ (current_url <> "" -> page_count <= MAX_PAGES_TO_SCRAPE ->
      forall soup, net w 0 current_url = Body soup ->
      forall l, l ∈ omap (card_link lib) (article_cards soup) -> l ∈ P').
Proof.
  intros Hs. induction fuel as [|fuel IH];
    intros current_url page_count P A s P' A' s' evs H Hinv;
    cbn [scrape_pages] in H;
    (destruct (String.eqb current_url "" || (MAX_PAGES_TO_SCRAPE <? page_count))
       eqn:Hstop;
     [unfold ret in H; simplify_eq; split_and!; try done;
      intros Hne Hle; apply orb_true_iff in Hstop as [He | Hp];
      [apply String.eqb_eq in He; done | apply Nat.ltb_lt in Hp; lia] |]).
  - discriminate.
  - unfold bind, emit in H.
    destruct (_fetch_with_retries w current_url s) as [[r s1] e1] eqn:Ef.
    destruct r as [soup|].
    2:{ unfold ret in H. simplify_eq. split_and!; try done.
        intros _ _ soup Hsoup.
        pose proof (steady_none w _ _ _ _ Hs Ef 0) as Hun.
        now rewrite Hsoup in Hun. }
    destruct (scrape_cards lib w category (article_cards soup) P A s1)
      as [[[P1 A1] s2] e2] eqn:Eh.
    destruct (moz_scrape_cards_settled _ _ Hs _ _ _ _ _ _ _ Eh Hinv)
      as [Hinv1 Hcov].
    pose proof (moz_scrape_cards_adds lib w _ _ _ _ _ _ _ _ _ Eh)
      as (a0 & _ & Hsub1 & _).
    destruct (scrape_pages lib w fuel category (next_url lib soup)
                (page_count + 1) P1 A1 s2) as [[o s3] e3] eqn:Ep.
    simplify_eq.
    destruct (IH _ _ _ _ _ _ _ _ _ Ep Hinv1) as (Hinv2 & Hsub2 & _).
    split_and!; try done; [set_solver |].
    intros _ _ soup' Hsoup' l Hl.
    pose proof (steady_some w _ _ _ _ _ Hs Ef 0) as Hb.
    rewrite Hsoup' in Hb. simplify_eq.
    specialize (Hcov l Hl). set_solver.
Qed.

Lemma moz_scrape_categories_settled (fuel : nat)
    (seeds : list (string * string)) :
  steady w ->
  Forall (fun seed => snd seed <> "") seeds ->
  forall P A s P' A' s' evs,
  scrape_categories lib w fuel seeds P A s = (Some (P', A'), s', evs) ->
  (forall l, l ∈ P -> l ∈ links A \/ unreachable w l) ->
  (forall l, l ∈ P' -> l ∈ links A' \/ unreachable w l)
  /\ P ⊆ P'
  /\ Forall (fun seed =>
               forall soup, net w 0 (snd seed) = Body soup ->
               forall l, l ∈ omap (card_link lib) (article_cards soup) ->
                         l ∈ P') seeds.
Proof.
  intros Hs. induction 1 as [|[category url] rest Hu Hrest IH];
    intros P A s P' A' s' evs H Hinv; cbn [scrape_categories] in H.
  - unfold ret in H. simplify_eq. split_and!; try done.
  - unfold bind in H.
    destruct (scrape_pages lib w fuel category url 1 P A s)
      as [[o s1] e1] eqn:Ep.
    destruct o as [[P1 A1]|]; [| unfold ret in H; simplify_eq].
    destruct (scrape_categories lib w fuel rest P1 A1 s1) as [[o s2] e2] eqn:Ec.
    simplify_eq.
    destruct (moz_scrape_pages_settled _ _ Hs _ _ _ _ _ _ _ _ _ Ep Hinv)
      as (Hinv1 & Hsub1 & Hsc).
    destruct (IH _ _ _ _ _ _ _ Ec Hinv1) as (Hinv2 & Hsub2 & Hall).
    split_and!; try done; [set_solver |].
    constructor; [| done]. cbn [snd] in *.
    intros soup Hsoup l Hl.
    specialize (Hsc Hu ltac:(unfold MAX_PAGES_TO_SCRAPE; lia) soup Hsoup l Hl).
    set_solver.
Qed.

(** X25. Moz, on a site that answers every request for a URL the same
    way: once the initial scrape has ended and stored what it
    accumulated, the entry point takes the update mode and finds
    nothing.  It returns no record, leaves the JSON file as the initial
    scrape wrote it and saves nothing: the page limit of the initial
    scrape never cuts the first page of a category, which is all an
    update run looks at. *)
Theorem moz_first_update_finds_nothing
    (fuel : nat) (s s1 : State) (all : list Article) (e1 : list Event) :
  steady w ->
  run_initial_scrape lib w fuel s = (Some all, s1, e1) ->
  exists s2 e2,
    main lib w fuel s1 = (Some [], s2, e2)
    /\ json_file s2 = json_file s1
    /\ saves e2 = [].
Proof.
  intros Hs H. unfold run_initial_scrape, bind in H.
  destruct (scrape_categories lib w fuel SEED_URLS ∅ [] s) as [[o s0] e0] eqn:Ec.
  destruct o as [[P1 A1]|]; [| unfold ret in H; simplify_eq].
  unfold _save_data, Engine._save_data, ret in H. cbn in H. simplify_eq.
  destruct (moz_scrape_categories_settled fuel SEED_URLS Hs
              ltac:(repeat constructor; discriminate) _ _ _ _ _ _ _ Ec)
    as (Hinv & _ & Hscanned).
  { intros l Hl. set_solver. }
  destruct (run_update_all_known (source lib) w
              {| clock := clock s0;
                 json_file := Some {| titulo_sitio_web := "MOZ";
                                      articles := all |};
                 json_backup := json_backup s0 |} Hs)
    as (s2 & e2 & Hrun & Hf & Hsv).
  { eapply Forall_impl; [exact Hscanned |].
    intros seed Hseed soup Hsoup l Hl. apply Hinv. exact (Hseed soup Hsoup l Hl). }
  exists s2, e2. unfold main. cbn [json_file]. unfold bind.
  unfold run_update_scrape. rewrite Hrun. unfold ret. rewrite app_nil_r. done.
Qed.

Lemma moz_run_initial_returns (fuel : nat) (s : State) :
  MAX_PAGES_TO_SCRAPE <= fuel ->
  exists all s' evs, run_initial_scrape lib w fuel s = (Some all, s', evs).
Proof.
  intros Hfuel. unfold run_initial_scrape, bind.
  destruct (moz_scrape_categories_spec lib w fuel SEED_URLS Hfuel ∅ [] s)
    as (P1 & A1 & s1 & e1 & -> & _).
  unfold _save_data, Engine._save_data, ret. cbn. eauto.
Qed.

End MozFirstUpdate.

Section FirstUpdateRuns.
Import Fetcher.

Lemma backlinko_site_is_steady : steady Sample.backlinko_site.
Proof. intros n m url. reflexivity. Qed.

Lemma backlinko_site_has_one_page :
  backlinko_descending Sample.lib Sample.backlinko_site (fun _ => 0).
Proof.
  intros n url soup next Hn Hnext. exfalso.
  unfold Sample.backlinko_site, Sample.site in Hn.
  cbn [net List.find fst snd] in Hn.
  repeat (destruct (String.eqb _ url) in Hn;
          [injection Hn as <-; vm_compute in Hnext; discriminate Hnext |]).
  discriminate Hn.
Qed.

(** Backlinko: an initial scrape of the sample site, then the entry
    point again. *)
Lemma backlinko_first_update_witness :
  exists all s1 e1 s2 e2,
    Backlinko.run_initial_scrape Sample.lib Sample.backlinko_site 1
      (Sample.start None)
    = (Some all, s1, e1)
    /\ Backlinko.main Sample.lib Sample.backlinko_site 1 s1 = (Some [], s2, e2)
    /\ json_file s2 = json_file s1
    /\ saves e2 = [].
Proof.
  destruct (backlinko_run_initial_returns Sample.lib Sample.backlinko_site
              (fun _ => 0) 1 (Sample.start None) backlinko_site_has_one_page)
    as (all & s1 & e1 & H).
  { apply Forall_forall. intros seed _. lia. }
  destruct (backlinko_first_update_finds_nothing Sample.lib
              Sample.backlinko_site 1 (Sample.start None) s1 all e1
              backlinko_site_is_steady H) as (s2 & e2 & H2).
  exists all, s1, e1, s2, e2. exact (conj H H2).
Defined.

(** The initial scrape of the sample site stores the one article that
    can be fetched, after three attempts at the other. *)
Example backlinko_site_initial_run :
  let '(r, _, evs) :=
    Backlinko.run_initial_scrape Sample.lib Sample.backlinko_site 1
      (Sample.start None) in
  option_map links r = Some ["b0"]
  /\ count_occ string_dec (requested evs) "gone" = 3.
Proof. vm_compute. split; reflexivity. Qed.

Lemma moz_site_is_steady : steady Sample.moz_site.
Proof. intros n m url. reflexivity. Qed.

(** Moz: an initial scrape of the sample site, then the entry point
    again. *)
Lemma moz_first_update_witness :
  exists all s1 e1 s2 e2,
    Moz.run_initial_scrape Sample.lib Sample.moz_site 5 (Sample.start None)
    = (Some all, s1, e1)
    /\ Moz.main Sample.lib Sample.moz_site 5 s1 = (Some [], s2, e2)
    /\ json_file s2 = json_file s1
    /\ saves e2 = [].
Proof.
  destruct (moz_run_initial_returns Sample.lib Sample.moz_site 5
              (Sample.start None)) as (all & s1 & e1 & H).
  { unfold Moz.MAX_PAGES_TO_SCRAPE. lia. }
  destruct (moz_first_update_finds_nothing Sample.lib Sample.moz_site 5
              (Sample.start None) s1 all e1 moz_site_is_steady H)
    as (s2 & e2 & H2).
  exists all, s1, e1, s2, e2. exact (conj H H2).
Defined.

Example moz_site_initial_run :
  let '(r, _, evs) :=
    Moz.run_initial_scrape Sample.lib Sample.moz_site 5 (Sample.start None) in
  option_map links r = Some ["m0"]
  /\ count_occ string_dec (requested evs) "gone" = 3.
Proof. vm_compute. split; reflexivity. Qed.

End FirstUpdateRuns.

(** *** A next-page link without its address *)

Section AhrefsKeyError.
Import Fetcher Ahrefs.

Variable lib : PyLib.
Variable w : World Soup.

Lemma scrape_pages_key_error (fuel : nat) (category : string) :
  forall current_url P A s s' evs,
  scrape_pages lib w fuel category current_url P A s = (KeyError, s', evs) ->
  json_file s' = json_file s /\ json_backup s' = json_backup s
  /\ saves evs = [] /\ backups evs = 0
  /\ exists url soup n,
       url ∈ fetched evs /\ net w n url = Body soup
       /\ next_url lib soup = NoHref.
Proof.
  induction fuel as [|fuel IH]; intros current_url P A s s' evs H;
    cbn [scrape_pages] in H;
    (destruct (String.eqb current_url ""); [unfold ret in H; simplify_eq |]).
  - unfold ret in H. simplify_eq.
  - unfold bind in H.
    destruct (_fetch_with_retries w current_url s) as [[r s1] e1] eqn:Ef.
    destruct r as [soup|]; [| unfold ret in H; simplify_eq].
    pose proof (fetch_frame _ _ _ _ _ _ Ef) as (F1 & F2 & _ & F3 & F4 & _).
    destruct (fetch_some_events _ _ _ _ _ _ Ef) as [Hfet _].
    destruct (fetch_some_body _ _ _ _ _ _ Ef) as [n Hbody].
    destruct (scrape_headers lib w category (article_headers soup) P A s1)
      as [[[P1 A1] s2] e2] eqn:Eh.
    pose proof (scrape_headers_adds _ _ _ _ _ _ _ _ _ _ _ Eh)
      as (added & _ & _ & _ & _ & G1 & G2 & G3 & G4).
    destruct (next_url lib soup) as [next| |] eqn:Hn.
    + destruct (scrape_pages lib w fuel category next P1 A1 s2)
        as [[o s3] e3] eqn:Ep.
      simplify_eq.
      destruct (IH _ _ _ _ _ _ Ep) as (I1 & I2 & I3 & I4 & url & page & m & I5 & I6).
      rewrite !saves_app, !backups_app, F3, F4, G3, G4, I3, I4.
      split_and!; try done; try congruence.
      exists url, page, m. rewrite !fetched_app. split; [set_solver | done].
    + unfold ret in H. simplify_eq.
    + unfold ret in H. simplify_eq.
      rewrite !saves_app, !backups_app, F3, F4, G3, G4.
      split_and!; try done; try congruence.
      exists current_url, soup, n. rewrite !fetched_app, Hfet.
      split; [set_solver | done].
Qed.

Lemma scrape_categories_key_error (fuel : nat) (seeds : list (string * string)) :
  forall P A s s' evs,
  scrape_categories lib w fuel seeds P A s = (KeyError, s', evs) ->
  json_file s' = json_file s /\ json_backup s' = json_backup s
  /\ saves evs = [] /\ backups evs = 0
  /\ exists url soup n,
       url ∈ fetched evs /\ net w n url = Body soup
       /\ next_url lib soup = NoHref.
Proof.
  induction seeds as [|[category start_url] rest IH]; intros P A s s' evs H;
    cbn [scrape_categories] in H.
  - unfold ret in H. simplify_eq.
  - unfold bind in H.
    destruct (scrape_pages lib w fuel category start_url P A s)
      as [[o s1] e1] eqn:Ep.
    destruct o as [[P1 A1]| |].
    + destruct (scrape_categories lib w fuel rest P1 A1 s1)
        as [[o2 s2] e2] eqn:Ec.
      simplify_eq.
      pose proof (scrape_pages_adds _ _ _ _ _ _ _ _ _ _ _ _ Ep)
        as (added & _ & _ & _ & _ & G1 & G2 & G3 & G4).
      destruct (IH _ _ _ _ _ Ec) as (I1 & I2 & I3 & I4 & url & page & m & I5 & I6).
      rewrite saves_app, backups_app, G3, G4, I3, I4.
      split_and!; try done; try congruence.
      exists url, page, m. rewrite fetched_app. split; [set_solver | done].
    + unfold ret in H. simplify_eq. rewrite app_nil_r.
      exact (scrape_pages_key_error _ _ _ _ _ _ _ _ Ep).
    + unfold ret in H. simplify_eq.
Qed.

(** X26. Ahrefs reads the address of the next page with [tag['href']],
    outside the [try] of the header loop.  When the initial scrape is
    left by this KeyError, a listing page was fetched whose next-page
    link carries no [href], and nothing was saved or backed up: the
    records collected so far are lost, the JSON file is still absent
    after [main], so that the next run is an initial scrape again.  This
    happens as soon as the first listing page of the first category
    holds such a link. *)
Theorem a_next_link_without_href_aborts_the_initial_scrape (fuel : nat) :
  (forall s s' evs,
     run_initial_scrape lib w fuel s = (KeyError, s', evs) ->
     json_file s' = json_file s /\ json_backup s' = json_backup s
     /\ saves evs = [] /\ backups evs = 0
     /\ exists url soup n,
          url ∈ fetched evs /\ net w n url = Body soup
          /\ next_url lib soup = NoHref)
  /\ (forall s s' evs,
        json_file s = None ->
        main lib w fuel s = (KeyError, s', evs) ->
        json_file s' = None
        /\ forall fuel', main lib w fuel' s' = run_initial_scrape lib w fuel' s')
  /\ (forall s seed rest soup,
        0 < fuel ->
        SEED_URLS = seed :: rest ->
        net w (clock s) (snd seed) = Body soup ->
        next_url lib soup = NoHref ->
        exists s' evs,
          main lib w fuel
            {| clock := clock s; json_file := None; json_backup := json_backup s |}
          = (KeyError, s', evs)
          /\ json_file s' = None
          /\ saves evs = []).
Proof.
  assert (Hrun : forall s s' evs,
            run_initial_scrape lib w fuel s = (KeyError, s', evs) ->
            json_file s' = json_file s /\ json_backup s' = json_backup s
            /\ saves evs = [] /\ backups evs = 0
            /\ exists url soup n,
                 url ∈ fetched evs /\ net w n url = Body soup
                 /\ next_url lib soup = NoHref).
  { intros s s' evs H. unfold run_initial_scrape, bind in H.
    destruct (scrape_categories lib w fuel SEED_URLS ∅ [] s)
      as [[o s1] e1] eqn:Ec.
    destruct o as [[P1 A1]| |].
    - unfold _save_data, Engine._save_data, ret in H. cbn in H. simplify_eq.
    - unfold ret in H. simplify_eq. rewrite app_nil_r.
      exact (scrape_categories_key_error _ _ _ _ _ _ _ Ec).
    - unfold ret in H. simplify_eq. }
  split_and!.
  - exact Hrun.
  - intros s s' evs Hnone H. unfold main in H. rewrite Hnone in H.
    destruct (Hrun _ _ _ H) as (Hf & _).
    assert (Hs' : json_file s' = None) by congruence.
    split; [exact Hs' |]. intros fuel'. unfold main. now rewrite Hs'.
  - intros s seed rest soup Hfuel Hseeds Hbody Hnext.
    set (s0 := {| clock := clock s; json_file := None;
                  json_backup := json_backup s |}).
    destruct (main lib w fuel s0) as [[e s'] evs] eqn:Hm.
    assert (He : e = KeyError).
    { unfold main in Hm. cbn [json_file s0] in Hm.
      unfold run_initial_scrape, bind in Hm.
      unfold SEED_URLS in Hseeds. injection Hseeds as <- <-.
      cbn [snd] in Hbody.
      destruct fuel as [|fuel0]; [lia |].
      cbn [SEED_URLS scrape_categories] in Hm. unfold bind in Hm.
      cbn [scrape_pages] in Hm.
      change (String.eqb "https://ahrefs.com/blog/es/category/busqueda-con-ia/" "")
        with false in Hm.
      cbv iota in Hm. unfold bind in Hm.
      rewrite (fetch_first_ok w _ s0 soup Hbody) in Hm.
      destruct (scrape_headers lib w "busqueda-con-ia" (article_headers soup)
                  ∅ [] (tick 1 s0)) as [[[P1 A1] s2] e2].
      rewrite Hnext in Hm. unfold ret in Hm. now simplify_eq. }
    subst e. exists s', evs. split; [reflexivity |].
    unfold main in Hm. cbn [json_file s0] in Hm.
    destruct (Hrun _ _ _ Hm) as (Hf & _ & Hsv & _).
    split; [now rewrite Hf | exact Hsv].
Qed.

End AhrefsKeyError.

Section KeyErrorRuns.
Import Fetcher.

(** The first listing page of the sample site holds an [a.last] link
    without [href]: the article it lists is fetched, and the run is over
    with nothing saved. *)
Example broken_link_aborts_the_first_run :
  let '(r, s', evs) :=
    Ahrefs.main Sample.lib Sample.broken_link 3 (Sample.start None) in
  r = KeyError
  /\ fetched evs = [Sample.first_seed; "a0"]
  /\ json_file s' = None
  /\ saves evs = [].
Proof. vm_compute. repeat split. Qed.

End KeyErrorRuns.
